(** * Sentinel: update-detection pipeline

    A shallow embedding of the Python sources of the Sentinel monitoring
    agent (package [core/], [handlers/], [utils/] and the standalone
    [main.py]) together with the properties of its specification.

    Conventions of the embedding.
    - Python exceptions are values: a computation that can raise returns
      [result A], either [Ok a] or [Raise e].
    - A [datetime] holds the calendar fields and the value of
      [utcoffset()]: [None] for a naive datetime, the offset of its
      [tzinfo] for an aware one.  The invariants of the constructors are
      kept in [valid_datetime].  Ordering two datetimes follows CPython's
      [datetime._cmp]: the lexicographic order of the fields when the
      offsets agree, the order of the UTC instants when both are aware,
      and [TypeError] when one is naive and the other aware.
    - Text is [string] (bytes, ASCII classes for [\d], [\s], [\w]).
    - Dictionaries are stdpp [gmap]s; JSON objects, whose order matters to
      the field search, are association lists. *)

From Stdlib Require Import ZArith QArith Ascii String List Bool Lia.
From stdpp Require Import base option gmap strings list fin_maps.

Set Warnings "-register-all".

Local Open Scope string_scope.
Local Open Scope list_scope.
Local Open Scope Z_scope.

(** ** Python exceptions and results *)

Inductive exn : Type :=
| ValueError
| TypeError
| AttributeError
| OverflowError
| OSError
| ImportError
| IndexError
| RegexError
| JSONDecodeError
| RequestException
| WebDriverException
| TimeoutException
| OtherException (name : string).

Inductive result (A : Type) : Type :=
| Ok (a : A)
| Raise (e : exn).
Arguments Ok {A} a.
Arguments Raise {A} e.

Definition rbind {A B} (r : result A) (k : A -> result B) : result B :=
  match r with
  | Ok a => k a
  | Raise e => Raise e
  end.

Definition raises {A} (r : result A) : Prop :=
  match r with Ok _ => False | Raise _ => True end.

(** ** Characters and text *)

Module Text.

Definition is_digit (c : ascii) : bool :=
  let n := Z.of_nat (nat_of_ascii c) in (48 <=? n) && (n <=? 57).

(** [\s], [str.isspace] on one-byte characters: space, \t, \n, \v, \f,
    \r and the separators 0x1c to 0x1f. *)
Definition is_space (c : ascii) : bool :=
  let n := Z.of_nat (nat_of_ascii c) in
  (n =? 32) || ((9 <=? n) && (n <=? 13)) || ((28 <=? n) && (n <=? 31)).

Definition is_upper (c : ascii) : bool :=
  let n := Z.of_nat (nat_of_ascii c) in (65 <=? n) && (n <=? 90).

Definition is_lower (c : ascii) : bool :=
  let n := Z.of_nat (nat_of_ascii c) in (97 <=? n) && (n <=? 122).

(** [\w] on ASCII. *)
Definition is_word (c : ascii) : bool :=
  is_digit c || is_upper c || is_lower c || Ascii.eqb c "_".

Definition lower_char (c : ascii) : ascii :=
  if is_upper c then ascii_of_nat (nat_of_ascii c + 32) else c.

Fixpoint lower (s : string) : string :=
  match s with
  | EmptyString => EmptyString
  | String c r => String (lower_char c) (lower r)
  end.

Definition digit_val (c : ascii) : Z := Z.of_nat (nat_of_ascii c) - 48.

Definition digit_char (d : Z) : ascii := ascii_of_nat (Z.to_nat (48 + d)).

(** [fmt_digits w n]: the [w] low decimal digits of [n], zero padded
    (Python's ["%0wd"] for [0 <= n < 10^w]). *)
Fixpoint fmt_digits (w : nat) (n : Z) : string :=
  match w with
  | O => EmptyString
  | S w' => String (digit_char ((n / 10 ^ Z.of_nat w') mod 10)) (fmt_digits w' n)
  end.

(** [take_digits w s]: exactly [w] leading digits of [s], as a number,
    and the rest of [s]. *)
Fixpoint take_digits_acc (w : nat) (acc : Z) (s : string) : option (Z * string) :=
  match w with
  | O => Some (acc, s)
  | S w' =>
      match s with
      | String c r =>
          if is_digit c then take_digits_acc w' (10 * acc + digit_val c) r
          else None
      | EmptyString => None
      end
  end.

Definition take_digits (w : nat) (s : string) : option (Z * string) :=
  take_digits_acc w 0 s.

(** [str.replace(c, by)] for a one-character pattern. *)
Fixpoint replace_char (c : ascii) (by_ : string) (s : string) : string :=
  match s with
  | EmptyString => EmptyString
  | String a r =>
      if Ascii.eqb a c then by_ +:+ replace_char c by_ r
      else String a (replace_char c by_ r)
  end.

Fixpoint all_chars (p : ascii -> bool) (s : string) : bool :=
  match s with
  | EmptyString => true
  | String a r => p a && all_chars p r
  end.

(** Python truthiness of a [str]. *)
Definition truthy (s : string) : bool :=
  match s with EmptyString => false | _ => true end.

End Text.

(** ** Datetimes *)

(** [utcoffset] is [d.utcoffset()] in microseconds east of UTC, [None]
    for a naive datetime; a [tzinfo] is represented by this offset. *)
Record datetime : Type := mk_datetime_tz {
  year : Z; month : Z; day : Z;
  hour : Z; minute : Z; second : Z; microsecond : Z;
  utcoffset : option Z
}.

(** A naive datetime. *)
Definition mk_datetime (y mo d h mi s us : Z) : datetime :=
  mk_datetime_tz y mo d h mi s us None.

(** [d.replace(tzinfo=...)]. *)
Definition with_utcoffset (d : datetime) (off : option Z) : datetime :=
  mk_datetime_tz (year d) (month d) (day d) (hour d) (minute d) (second d)
                 (microsecond d) off.

Definition is_leap (y : Z) : bool :=
  ((y mod 4 =? 0) && negb (y mod 100 =? 0)) || (y mod 400 =? 0).

Definition days_in_month (y m : Z) : Z :=
  if m =? 2 then (if is_leap y then 29 else 28)
  else if (m =? 4) || (m =? 6) || (m =? 9) || (m =? 11) then 30
  else 31.

(** The range checks of the [datetime] constructor. *)
Definition valid_fieldsb (d : datetime) : bool :=
  (1 <=? year d) && (year d <=? 9999) &&
  (1 <=? month d) && (month d <=? 12) &&
  (1 <=? day d) && (day d <=? days_in_month (year d) (month d)) &&
  (0 <=? hour d) && (hour d <? 24) &&
  (0 <=? minute d) && (minute d <? 60) &&
  (0 <=? second d) && (second d <? 60) &&
  (0 <=? microsecond d) && (microsecond d <? 1000000).

(** 24 hours, in microseconds. *)
Definition day_us : Z := 86400000000.

(** The range check of the [timezone] constructor: an offset strictly
    between -24 h and 24 h. *)
Definition valid_utcoffsetb (d : datetime) : bool :=
  match utcoffset d with
  | None => true
  | Some o => (- day_us <? o) && (o <? day_us)
  end.

(** What every datetime built by the constructors satisfies. *)
Definition valid_datetimeb (d : datetime) : bool :=
  valid_fieldsb d && valid_utcoffsetb d.

Definition valid_datetime (d : datetime) : Prop := valid_datetimeb d = true.

(** [datetime(...)] without [tzinfo]: raises [ValueError] outside the
    ranges. *)
Definition datetime_new (y mo d h mi s us : Z) : result datetime :=
  let dt := mk_datetime y mo d h mi s us in
  if valid_fieldsb dt then Ok dt else Raise ValueError.

Definition datetime_fields (d : datetime) : list Z :=
  [year d; month d; day d; hour d; minute d; second d; microsecond d].

(** Lexicographic comparison of the field tuples. *)
Fixpoint lex_compare (a b : list Z) : comparison :=
  match a, b with
  | x :: a', y :: b' =>
      match Z.compare x y with
      | Eq => lex_compare a' b'
      | c => c
      end
  | [], [] => Eq
  | [], _ :: _ => Lt
  | _ :: _, [] => Gt
  end.

(** The comparison of the field tuples, which [datetime._cmp] uses
    when the two offsets agree. *)
Definition datetime_compare (a b : datetime) : comparison :=
  lex_compare (datetime_fields a) (datetime_fields b).

(** [a > b] on the fields. *)
Definition datetime_gtb (a b : datetime) : bool :=
  match datetime_compare a b with Gt => true | _ => false end.

(** [a <= b] on the fields. *)
Definition datetime_leb (a b : datetime) : bool :=
  match datetime_compare a b with Gt => false | _ => true end.

Definition datetime_lt (a b : datetime) : Prop := datetime_compare a b = Lt.

(** The local time a datetime shows, counted in microseconds on the
    proleptic Gregorian time line: [toordinal] is [date.toordinal()] (1 for
    1 January of year 1). *)
Definition days_before_year (y : Z) : Z :=
  let p := y - 1 in p * 365 + p / 4 - p / 100 + p / 400.

Fixpoint days_in_months (y : Z) (k : nat) : Z :=
  match k with
  | O => 0
  | S k' => days_in_months y k' + days_in_month y (Z.of_nat k)
  end.

Definition days_before_month (y m : Z) : Z := days_in_months y (Z.to_nat (m - 1)).

Definition toordinal (d : datetime) : Z :=
  days_before_year (year d) + days_before_month (year d) (month d) + day d.

Definition microseconds_of (d : datetime) : Z :=
  (((toordinal d * 24 + hour d) * 60 + minute d) * 60 + second d) * 1000000
  + microsecond d.

(** The instant a datetime denotes: for an aware datetime the local time
    less the offset, that is the time in UTC; for a naive one the local
    time. *)
Definition instant_of (d : datetime) : Z :=
  microseconds_of d - default 0 (utcoffset d).

(** [datetime._cmp(a, b)], as the ordering operators call it: the
    fields are compared when the offsets agree (in particular for two
    naive datetimes); a naive and an aware datetime cannot be ordered;
    two aware datetimes with different offsets are ordered by the sign
    of [a - b], which takes the offsets into account. *)
Definition datetime_cmp (a b : datetime) : result comparison :=
  match utcoffset a, utcoffset b with
  | None, None => Ok (datetime_compare a b)
  | Some oa, Some ob =>
      if oa =? ob then Ok (datetime_compare a b)
      else Ok (Z.compare (microseconds_of a - oa) (microseconds_of b - ob))
  | _, _ => Raise TypeError
  end.

(** [a > b]. *)
Definition datetime_gt (a b : datetime) : result bool :=
  rbind (datetime_cmp a b) (fun c => Ok (match c with Gt => true | _ => false end)).

(** [a <= b]. *)
Definition datetime_le (a b : datetime) : result bool :=
  rbind (datetime_cmp a b) (fun c => Ok (match c with Gt => false | _ => true end)).

(** The date and time part of [datetime.isoformat()]. *)
Definition isoformat_fields (d : datetime) : string :=
  Text.fmt_digits 4 (year d) +:+ "-" +:+ Text.fmt_digits 2 (month d) +:+ "-" +:+
  Text.fmt_digits 2 (day d) +:+ "T" +:+ Text.fmt_digits 2 (hour d) +:+ ":" +:+
  Text.fmt_digits 2 (minute d) +:+ ":" +:+ Text.fmt_digits 2 (second d) +:+
  (if microsecond d =? 0 then ""
   else "." +:+ Text.fmt_digits 6 (microsecond d)).

(** [_format_offset(off)]: nothing for a naive datetime, else
    [+HH:MM[:SS[.ffffff]]] with the sign of the offset. *)
Definition _format_offset (off : option Z) : string :=
  match off with
  | None => ""
  | Some o =>
      let a := Z.abs o in
      let hh := a / 3600000000 in
      let mm := (a mod 3600000000) / 60000000 in
      let ss := (a mod 60000000) / 1000000 in
      let us := a mod 1000000 in
      (if o <? 0 then "-" else "+") +:+
      Text.fmt_digits 2 hh +:+ ":" +:+ Text.fmt_digits 2 mm +:+
      (if (ss =? 0) && (us =? 0) then ""
       else ":" +:+ Text.fmt_digits 2 ss +:+
            (if us =? 0 then "" else "." +:+ Text.fmt_digits 6 us))
  end.

(** [datetime.isoformat()]. *)
Definition isoformat (d : datetime) : string :=
  isoformat_fields d +:+ _format_offset (utcoffset d).

(** [datetime.fromisoformat], the inverse of [isoformat]: a date
    [YYYY-MM-DD], then optionally one separator character and a time
    [HH[:MM[:SS[.fff[fff]]]][+HH:MM[:SS[.ffffff]]]].  [None] stands for
    [ValueError]. *)
Definition expect_char (c : ascii) (s : string) : option string :=
  match s with
  | String a r => if Ascii.eqb a c then Some r else None
  | EmptyString => None
  end.

Definition parse_isoformat_date (s : string) : option (Z * Z * Z * string) :=
  '(y, r) ← Text.take_digits 4 s;
  r ← expect_char "-" r;
  '(m, r) ← Text.take_digits 2 r;
  r ← expect_char "-" r;
  '(d, r) ← Text.take_digits 2 r;
  Some (y, m, d, r).

Definition parse_isoformat_fraction (s : string) : option Z :=
  match s with
  | EmptyString => Some 0
  | String c r =>
      if Ascii.eqb c "." then
        if (String.length r =? 3)%nat then
          '(f, _) ← Text.take_digits 3 r; Some (f * 1000)
        else if (String.length r =? 6)%nat then
          '(f, _) ← Text.take_digits 6 r; Some f
        else None
      else None
  end.

(** [_parse_hh_mm_ss_ff]. *)
Definition _parse_hh_mm_ss_ff (s : string) : option (Z * Z * Z * Z) :=
  '(h, r) ← Text.take_digits 2 s;
  match r with
  | EmptyString => Some (h, 0, 0, 0)
  | String c r1 =>
      if negb (Ascii.eqb c ":") then None else
      '(mi, r) ← Text.take_digits 2 r1;
      match r with
      | EmptyString => Some (h, mi, 0, 0)
      | String c r2 =>
          if negb (Ascii.eqb c ":") then None else
          '(s, r) ← Text.take_digits 2 r2;
          us ← parse_isoformat_fraction r;
          Some (h, mi, s, us)
      end
  end.

(** The text before the first [c] and the text after it. *)
Fixpoint split_at (c : ascii) (s : string) : option (string * string) :=
  match s with
  | EmptyString => None
  | String a r =>
      if Ascii.eqb a c then Some (EmptyString, r)
      else match split_at c r with
           | Some (x, y) => Some (String a x, y)
           | None => None
           end
  end.

(** The offset a time zone text [HH:MM[:SS[.ffffff]]] stands for, with
    its sign: UTC when every component is 0; [timezone(...)] raises
    [ValueError] for 24 hours and more. *)
Definition parse_isoformat_offset (negative : bool) (tzstr : string) : option Z :=
  let n := String.length tzstr in
  if negb ((n =? 5) || (n =? 8) || (n =? 15))%nat then None else
  '(th, tm, ts, tus) ← _parse_hh_mm_ss_ff tzstr;
  let td := ((th * 60 + tm) * 60 + ts) * 1000000 + tus in
  if td =? 0 then Some 0
  else if day_us <=? td then None
  else Some (if negative then - td else td).

(** [_parse_isoformat_time]: the time zone starts at the first [-] or,
    when there is none, at the first [+]. *)
Definition _parse_isoformat_time (tstr : string)
  : option (Z * Z * Z * Z * option Z) :=
  let zone :=
    match split_at "-" tstr with
    | Some (timestr, tzstr) => Some (timestr, true, tzstr)
    | None =>
        match split_at "+" tstr with
        | Some (timestr, tzstr) => Some (timestr, false, tzstr)
        | None => None
        end
    end in
  match zone with
  | None =>
      '(h, mi, sec, us) ← _parse_hh_mm_ss_ff tstr;
      Some (h, mi, sec, us, None)
  | Some (timestr, negative, tzstr) =>
      '(h, mi, sec, us) ← _parse_hh_mm_ss_ff timestr;
      off ← parse_isoformat_offset negative tzstr;
      Some (h, mi, sec, us, Some off)
  end.

Definition fromisoformat (s : string) : option datetime :=
  '(y, m, d, r) ← parse_isoformat_date s;
  '(h, mi, sec, us, off) ←
     match r with
     | EmptyString => Some (0, 0, 0, 0, None)
     | String _ EmptyString => Some (0, 0, 0, 0, None)
     | String _ tstr => _parse_isoformat_time tstr
     end;
  match datetime_new y m d h mi sec us with
  | Ok dt => Some (with_utcoffset dt off)
  | Raise _ => None
  end.

(** ** handlers/base_handler.py *)

(** [BaseHandler.compare_with_stored]: [current > stored] raises
    [TypeError] when one is naive and the other aware. *)
Definition compare_with_stored (current stored : option datetime) : result bool :=
  match current with
  | None => Ok false
  | Some c =>
      match stored with
      | None => Ok true
      | Some s => datetime_gt c s
      end
  end.

(** ** core/state_manager.py *)

(** Values of one stored entry, as the JSON document holds them. *)
Inductive sval : Type :=
| SStr (s : string)
| SNum (n : Z)
| SBool (b : bool)
| SNull.

(** [_state] is the in-memory dictionary, [state_file] the document on
    disk ([None]: no readable document). *)
Record StateManager : Type := mk_StateManager {
  _state : gmap string (gmap string sval);
  state_file : option (gmap string (gmap string sval))
}.

(** [_load_state]: a missing or unreadable document gives the empty state. *)
Definition _load_state (file : option (gmap string (gmap string sval)))
  : gmap string (gmap string sval) :=
  default ∅ file.

Definition StateManager_init (file : option (gmap string (gmap string sval)))
  : StateManager :=
  mk_StateManager (_load_state file) file.

(** [_save_state]: rewrites the whole document; an [IOError] ([write_ok =
    false]) is caught and leaves the file as it was. *)
Definition _save_state (write_ok : bool) (sm : StateManager) : StateManager :=
  if write_ok then mk_StateManager (_state sm) (Some (_state sm)) else sm.

(** [get_last_timestamp]: a missing entry, a missing or falsy
    ['timestamp'], a value that is not a string ([AttributeError]) or not
    an ISO date ([ValueError]) all give [None].  A text with a UTC
    offset or a [Z] gives an aware datetime. *)
Definition get_last_timestamp (sm : StateManager) (dcid : string) : option datetime :=
  let source_state := default ∅ (_state sm !! dcid) in
  match source_state !! "timestamp" with
  | Some (SStr timestamp_str) =>
      if Text.truthy timestamp_str
      then fromisoformat (Text.replace_char "Z" "+00:00" timestamp_str)
      else None
  | _ => None
  end.

Definition set_if_truthy (key : string) (v : option string) (e : gmap string sval)
  : gmap string sval :=
  match v with
  | Some s => if Text.truthy s then <[key := SStr s]> e else e
  | None => e
  end.

(** [update_timestamp]; [now] is the value of [datetime.now()]. *)
Definition update_timestamp (now : datetime) (write_ok : bool)
    (sm : StateManager) (dcid : string) (timestamp : datetime)
    (raw_value etag : option string) : StateManager :=
  let e0 := default ∅ (_state sm !! dcid) in
  let e1 := <["timestamp" := SStr (isoformat timestamp)]> e0 in
  let e2 := <["last_check" := SStr (isoformat now)]> e1 in
  let e3 := set_if_truthy "raw_value" raw_value e2 in
  let e4 := set_if_truthy "etag" etag e3 in
  _save_state write_ok (mk_StateManager (<[dcid := e4]> (_state sm)) (state_file sm)).

Definition get_state (sm : StateManager) (dcid : string) : option (gmap string sval) :=
  _state sm !! dcid.

Definition clear_state (write_ok : bool) (sm : StateManager) (dcid : string)
  : StateManager :=
  match _state sm !! dcid with
  | Some _ =>
      _save_state write_ok (mk_StateManager (delete dcid (_state sm)) (state_file sm))
  | None => sm
  end.

Definition clear_all (write_ok : bool) (sm : StateManager) : StateManager :=
  _save_state write_ok (mk_StateManager ∅ (state_file sm)).

(** ** Python numbers and JSON values *)

(** A Python [float]: a finite value (kept exact, binary64 rounding is
    not modelled), the infinities and NaN. *)
Inductive pyfloat : Type :=
| Finite (q : Q)
| PosInf
| NegInf
| NaN.

Inductive number : Type :=
| NInt (n : Z)
| NFloat (f : pyfloat).

(** The value of [json.loads]: objects keep their key order. *)
Inductive json : Type :=
| JNull
| JBool (b : bool)
| JNum (n : number)
| JStr (s : string)
| JList (l : list json)
| JDict (d : list (string * json)).

Definition float_of_number (n : number) : pyfloat :=
  match n with
  | NInt z => Finite (inject_Z z)
  | NFloat f => f
  end.

(** [x > c] for a float [x] and a finite constant [c]; NaN compares false. *)
Definition float_gtb (x : pyfloat) (c : Q) : bool :=
  match x with
  | Finite q => negb (Qle_bool q c)
  | PosInf => true
  | NegInf => false
  | NaN => false
  end.

(** [x / 1000] (true division). *)
Definition float_div (x : pyfloat) (c : Z) : pyfloat :=
  match x with
  | Finite q => Finite (q / inject_Z c)%Q
  | other => other
  end.

Definition number_truthy (n : number) : bool :=
  match n with
  | NInt z => negb (z =? 0)
  | NFloat (Finite q) => negb (Qeq_bool q 0)
  | NFloat _ => true
  end.

(** Python truthiness of a decoded JSON value. *)
Definition json_truthy (v : json) : bool :=
  match v with
  | JNull => false
  | JBool b => b
  | JNum n => number_truthy n
  | JStr s => Text.truthy s
  | JList l => match l with [] => false | _ => true end
  | JDict d => match d with [] => false | _ => true end
  end.

(** [d.get(key)] on a decoded object. *)
Fixpoint dict_get (key : string) (d : list (string * json)) : option json :=
  match d with
  | [] => None
  | (k, v) :: r => if String.eqb k key then Some v else dict_get key r
  end.

(** ** Configuration (sources.yaml, settings.yaml) *)

(** The values the configuration gives to the keys the handlers read:
    texts, integers, truth values and lists of texts. *)
Inductive cval : Type :=
| CStr (s : string)
| CInt (n : Z)
| CBool (b : bool)
| CList (l : list string).

Definition cval_truthy (v : cval) : bool :=
  match v with
  | CStr s => Text.truthy s
  | CInt n => negb (n =? 0)
  | CBool b => b
  | CList l => match l with [] => false | _ => true end
  end.

Definition opt_truthy (v : option cval) : bool :=
  match v with Some c => cval_truthy c | None => false end.

(** A [str] method ([split], [upper]) called on a configuration value:
    [AttributeError] when the value is not a [str]. *)
Definition as_str (v : cval) : result string :=
  match v with
  | CStr s => Ok s
  | _ => Raise AttributeError
  end.

(** [range(v)]: the number of iterations; [TypeError] when [v] is not
    an [int] (a [bool] is one). *)
Definition py_range (v : cval) : result nat :=
  match v with
  | CInt n => Ok (Z.to_nat n)
  | CBool b => Ok (if b then 1%nat else 0%nat)
  | _ => Raise TypeError
  end.

(** [for x in v]: a list gives its items, a [str] its characters; an
    [int] cannot be iterated ([TypeError]). *)
Definition py_iter (v : cval) : result (list string) :=
  match v with
  | CList l => Ok l
  | CStr s => Ok (map (fun c => String c EmptyString) (list_ascii_of_string s))
  | _ => Raise TypeError
  end.

(** ** core/registry.py *)

Inductive HandlerClass : Type :=
| HTTPHandler
| APIHandler
| SeleniumHandler
| BS4Handler
| CLIHandler.

(** [HANDLER_MAP.get(method)] for a hashable [method]; a list is
    unhashable and makes the lookup raise [TypeError]. *)
Definition HANDLER_MAP (method : cval) : result (option HandlerClass) :=
  match method with
  | CStr m =>
      Ok (if String.eqb m "http_head" then Some HTTPHandler
          else if String.eqb m "api" then Some APIHandler
          else if String.eqb m "selenium" then Some SeleniumHandler
          else if String.eqb m "beautifulsoup" then Some BS4Handler
          else if String.eqb m "cli" then Some CLIHandler
          else None)
  | CList _ => Raise TypeError
  | _ => Ok None
  end.

Record SourceRegistry : Type := mk_SourceRegistry {
  sources : gmap string (gmap string cval);
  settings : gmap string (gmap string cval)
}.

Definition get_source (r : SourceRegistry) (dcid : string) : option (gmap string cval) :=
  sources r !! dcid.

(** [not source_config]: [None] or an empty dictionary. *)
Definition config_falsy (c : option (gmap string cval)) : bool :=
  match c with
  | None => true
  | Some m => bool_decide (m = ∅)
  end.

(** A handler instance: its class and the configuration it was built
    with ([{**source_config, 'dcid': dcid}]). *)
Record handler : Type := mk_handler {
  h_class : HandlerClass;
  h_config : gmap string cval;
  h_settings : gmap string (gmap string cval)
}.

Definition get_handler (r : SourceRegistry) (dcid : string) : result (option handler) :=
  let source_config := get_source r dcid in
  if config_falsy source_config then Ok None else
  let cfg := default ∅ source_config in
  let method := cfg !! "method" in
  if negb (opt_truthy method) then Ok None else
  match method with
  | None => Ok None
  | Some m =>
      rbind (HANDLER_MAP m) (fun cls =>
        match cls with
        | None => Ok None
        | Some c => Ok (Some (mk_handler c (<["dcid" := CStr dcid]> cfg) (settings r)))
        end)
  end.

(** ** Text helpers shared by the parsers *)

Module Str.

(** Longest prefix of characters satisfying [p], and the rest. *)
Fixpoint span (p : ascii -> bool) (s : string) : string * string :=
  match s with
  | EmptyString => (EmptyString, EmptyString)
  | String c r =>
      if p c then let '(a, b) := span p r in (String c a, b)
      else (EmptyString, s)
  end.

Fixpoint filter (p : ascii -> bool) (s : string) : string :=
  match s with
  | EmptyString => EmptyString
  | String c r => if p c then String c (filter p r) else filter p r
  end.

Fixpoint rev_acc (s acc : string) : string :=
  match s with
  | EmptyString => acc
  | String c r => rev_acc r (String c acc)
  end.

Definition rev (s : string) : string := rev_acc s EmptyString.

Fixpoint lstrip (s : string) : string :=
  match s with
  | String c r => if Text.is_space c then lstrip r else s
  | EmptyString => EmptyString
  end.

Definition rstrip (s : string) : string := rev (lstrip (rev s)).

(** [str.strip()]. *)
Definition strip (s : string) : string := rstrip (lstrip s).

(** Value of a string of decimal digits. *)
Fixpoint digits_val_acc (acc : Z) (s : string) : Z :=
  match s with
  | EmptyString => acc
  | String c r => digits_val_acc (10 * acc + Text.digit_val c) r
  end.

Definition digits_val (s : string) : Z := digits_val_acc 0 s.

(** [s[:n]]. *)
Fixpoint take (n : nat) (s : string) : string :=
  match n, s with
  | S n', String c r => String c (take n' r)
  | _, _ => EmptyString
  end.

(** [s.startswith(p)], giving the rest of [s]. *)
Fixpoint strip_prefix (p s : string) : option string :=
  match p, s with
  | EmptyString, _ => Some s
  | String a p', String b s' =>
      if Ascii.eqb a b then strip_prefix p' s' else None
  | String _ _, EmptyString => None
  end.

(** The same, ignoring ASCII case ([re.IGNORECASE] on a literal). *)
Fixpoint strip_prefix_ci (p s : string) : option string :=
  match p, s with
  | EmptyString, _ => Some s
  | String a p', String b s' =>
      if Ascii.eqb (Text.lower_char a) (Text.lower_char b)
      then strip_prefix_ci p' s' else None
  | String _ _, EmptyString => None
  end.

End Str.

(** ** [float(str)] *)

Module PyFloat.

(** Finite values at or above this bound round to infinity in binary64. *)
Definition overflow_bound : Q := inject_Z (2 ^ 1024 - 2 ^ 970).

Definition pow10 (e : Z) : Q :=
  if 0 <=? e then inject_Z (10 ^ e) else (1 / inject_Z (10 ^ (- e)))%Q.

Definition finite_or_inf (q : Q) : pyfloat :=
  if Qle_bool overflow_bound q then PosInf
  else if Qle_bool q (- overflow_bound)%Q then NegInf
  else Finite q.

(** Optional exponent part [[eE][+-]?\d+]; the whole rest must be used. *)
Definition parse_exponent (s : string) : option Z :=
  match s with
  | EmptyString => Some 0
  | String c r =>
      if Ascii.eqb (Text.lower_char c) "e" then
        let '(sgn, r) :=
          match r with
          | String "+" r' => (1, r')
          | String "-" r' => (-1, r')
          | _ => (1, r)
          end in
        let '(ds, rest) := Str.span Text.is_digit r in
        match ds, rest with
        | String _ _, EmptyString => Some (sgn * Str.digits_val ds)
        | _, _ => None
        end
      else None
  end.

(** Unsigned decimal literal: digits, optional fraction, optional
    exponent, at least one digit in the mantissa. *)
Definition parse_unsigned (s : string) : option Q :=
  let '(ip, r) := Str.span Text.is_digit s in
  let '(fp, r) :=
    match r with
    | String "." r' => Str.span Text.is_digit r'
    | _ => (EmptyString, r)
    end in
  match ip +:+ fp with
  | EmptyString => None
  | mant =>
      match parse_exponent r with
      | Some e =>
          Some (inject_Z (Str.digits_val mant)
                * pow10 (e - Z.of_nat (String.length fp)))%Q
      | None => None
      end
  end.

(** [float(s)] for a string: surrounding blanks, a sign, a decimal
    literal or [inf]/[infinity]/[nan]; [ValueError] otherwise.  (Digit
    separators [_] are not modelled.) *)
Definition of_string (s : string) : result pyfloat :=
  let s := Str.strip s in
  let '(neg, body) :=
    match s with
    | String "-" r => (true, r)
    | String "+" r => (false, r)
    | _ => (false, s)
    end in
  let l := Text.lower body in
  if String.eqb l "inf" || String.eqb l "infinity"
  then Ok (if neg then NegInf else PosInf)
  else if String.eqb l "nan" then Ok NaN
  else
    match parse_unsigned body with
    | Some q => Ok (finite_or_inf (if neg then (- q)%Q else q))
    | None => Raise ValueError
    end.

End PyFloat.

(** ** Pages, as BeautifulSoup and the browser driver show them *)

(** An element: its stripped text and its attributes. *)
Record element : Type := mk_element {
  el_text : string;
  el_attrs : list (string * string)
}.

Fixpoint attr_get (key : string) (l : list (string * string)) : option string :=
  match l with
  | [] => None
  | (k, v) :: r => if String.eqb k key then Some v else attr_get key r
  end.

(** A parsed document, through the queries the handler makes:
    [soup.select(sel)] (raises on a selector it cannot parse),
    [soup.find_all('time')], [soup.find_all(class_=re.compile(c, re.I))]
    and [soup.find('meta', attrs={a: n})]. *)
Record soup : Type := mk_soup {
  soup_select : string -> result (list element);
  soup_time_elements : list element;
  soup_by_class : string -> list element;
  soup_find_meta : string -> string -> option element
}.

(** A browser session, through the calls the handler makes: starting
    the driver, [driver.get(url)], the wait for [body],
    [driver.page_source], [driver.find_elements(By.CSS_SELECTOR, sel)]
    with the [text] of each element, the text of [body], and
    [driver.quit()]. *)
Record browser : Type := mk_browser {
  br_start : result unit;
  br_get : result unit;
  br_wait_body : result unit;
  br_page_source : result string;
  br_find_elements : string -> result (list string);
  br_body_text : result string;
  br_quit : result unit
}.

(** ** The platform: what the interpreter and its libraries provide

    - [local_utcoffset t]: the offset of local time, in seconds east of
      UTC, at epoch second [t] (used by [datetime.fromtimestamp]);
    - [dateutil]: [dateutil.parser.parse(s, fuzzy=True)] when the package
      is installed, [None] when importing it raises [ImportError];
    - [tznames]: the lower-cased names of [time.tzname], accepted by
      [%Z] besides [utc] and [gmt];
    - [json_loads]: [json.loads];
    - [py_repr]: [str(v)] of a decoded float, list or dictionary;
    - [xml_find content field]: [ET.fromstring(content).find(".//field")]
      reduced to what the handler reads, the text of the element found
      ([None] when there is none), or the exception of either call;
    - [re_search pattern text]: [re.search(pattern, text, re.IGNORECASE)],
      the groups 1, 2, ... of the first match ([None] for a group that
      took no part), or [re.error] for a pattern that does not compile;
    - [re_findall pattern text]: [re.findall(pattern, text,
      re.IGNORECASE)] for a pattern with one group;
    - [BeautifulSoup]: [BeautifulSoup(text, 'html.parser')] when the
      package is installed;
    - [parsedate_to_datetime]: [email.utils.parsedate_to_datetime]. *)
Record platform : Type := mk_platform {
  local_utcoffset : Z -> Z;
  dateutil : option (string -> result datetime);
  tznames : list string;
  json_loads : string -> result json;
  py_repr : json -> string;
  xml_find : string -> string -> result (option string);
  re_search : string -> string -> result (option (list (option string)));
  re_findall : string -> string -> result (list string);
  BeautifulSoup : option (string -> result soup);
  parsedate_to_datetime : string -> result datetime
}.

(** ** [datetime.fromtimestamp] *)

Module Timestamp.

(** Round half to even. *)
Definition round_half_even (q : Q) : Z :=
  let n := Qnum q in
  let d := Z.pos (Qden q) in
  let f := n / d in
  let r := n mod d in
  match Z.compare (2 * r) d with
  | Lt => f
  | Gt => f + 1
  | Eq => if Z.even f then f else f + 1
  end.

(** Proleptic Gregorian date of a day number counted from 1970-01-01. *)
Definition civil_from_days (z : Z) : Z * Z * Z :=
  let z := z + 719468 in
  let era := z / 146097 in
  let doe := z - era * 146097 in
  let yoe := (doe - doe / 1460 + doe / 36524 - doe / 146096) / 365 in
  let y := yoe + era * 400 in
  let doy := doe - (365 * yoe + yoe / 4 - yoe / 100) in
  let mp := (5 * doy + 2) / 153 in
  let d := doy - (153 * mp + 2) / 5 + 1 in
  let m := if mp <? 10 then mp + 3 else mp - 9 in
  (if m <=? 2 then y + 1 else y, m, d).

Definition time_t_max : Z := 2 ^ 63 - 1.
Definition time_t_min : Z := - 2 ^ 63.

(** [datetime.fromtimestamp(x)]: [OverflowError] for an infinity or a
    value outside [time_t], [ValueError] for NaN or a year outside
    1..9999 (where the C library refuses the value first, CPython raises
    [OSError]; every caller that catches one catches the other), else
    the naive local datetime, rounded to microseconds. *)
Definition fromtimestamp (pf : platform) (x : pyfloat) : result datetime :=
  match x with
  | NaN => Raise ValueError
  | PosInf | NegInf => Raise OverflowError
  | Finite q =>
      let us := round_half_even (q * inject_Z 1000000)%Q in
      let secs := us / 1000000 in
      if (secs <? time_t_min) || (time_t_max <? secs) then Raise OverflowError
      else
        let lsecs := secs + local_utcoffset pf secs in
        let days := lsecs / 86400 in
        let sod := lsecs mod 86400 in
        let '(y, m, d) := civil_from_days days in
        datetime_new y m d (sod / 3600) ((sod mod 3600) / 60) (sod mod 60)
                     (us mod 1000000)
  end.

End Timestamp.

(** ** [datetime.strptime] *)

Module Strptime.

Inductive tok : Type :=
| TLit (c : ascii)
| TSpace
| TDir (d : ascii).

(** The format as the regex builder sees it: directives, runs of
    blanks (compiled to [\s+]) and literal characters. *)
Fixpoint tokenize (fmt : string) : list tok :=
  match fmt with
  | EmptyString => []
  | String c r =>
      if Ascii.eqb c "%" then
        match r with
        | String d r' => TDir d :: tokenize r'
        | EmptyString => [TLit c]
        end
      else if Text.is_space c then
        match tokenize r with
        | TSpace :: ts => TSpace :: ts
        | ts => TSpace :: ts
        end
      else TLit c :: tokenize r
  end.

Record fields : Type := mk_fields {
  fY : Z; fm : Z; fd : Z; fH : Z; fM : Z; fS : Z; ff : Z
}.

Definition default_fields : fields := mk_fields 1900 1 1 0 0 0 0.

Definition in_range (lo hi : Z) (c : ascii) : bool :=
  let v := Text.digit_val c in Text.is_digit c && (lo <=? v) && (v <=? hi).

(** One alternative made of two character classes. *)
Definition alt2 (p1 p2 : ascii -> bool) (s : string) : list (Z * string) :=
  match s with
  | String a (String b r) =>
      if p1 a && p2 b then [(10 * Text.digit_val a + Text.digit_val b, r)] else []
  | _ => []
  end.

Definition alt1 (p : ascii -> bool) (s : string) : list (Z * string) :=
  match s with
  | String a r => if p a then [(Text.digit_val a, r)] else []
  | _ => []
  end.

(** [k] digits exactly. *)
Definition altn (k : nat) (s : string) : list (Z * string) :=
  match Text.take_digits k s with
  | Some (v, r) => [(v, r)]
  | None => []
  end.

(** Names tried in the given order, ignoring case; the value is the
    1-based index in [names]. *)
Fixpoint alt_names (i : Z) (names : list string) (s : string) : list (Z * string) :=
  match names with
  | [] => []
  | n :: ns =>
      match Str.strip_prefix_ci n s with
      | Some r => (i, r) :: alt_names (i + 1) ns s
      | None => alt_names (i + 1) ns s
      end
  end.

Definition month_names : list string :=
  ["january"; "february"; "march"; "april"; "may"; "june"; "july";
   "august"; "september"; "october"; "november"; "december"].

Definition month_abbrs : list string :=
  ["jan"; "feb"; "mar"; "apr"; "may"; "jun"; "jul"; "aug"; "sep"; "oct";
   "nov"; "dec"].

Definition day_abbrs : list string :=
  ["mon"; "tue"; "wed"; "thu"; "fri"; "sat"; "sun"].

(** All ways to leave a run of blanks of length >= 1, longest first. *)
Fixpoint space_alts (s : string) : list string :=
  match s with
  | String c r => if Text.is_space c then space_alts r ++ [r] else []
  | EmptyString => []
  end.

(** The alternatives of one token on [s], in the priority order of the
    regular expression of [_strptime], each with the updated fields. *)
Definition alts (pf : platform) (t : tok) (f : fields) (s : string)
  : list (fields * string) :=
  let upd (g : Z -> fields) (l : list (Z * string)) :=
    map (fun '(v, r) => (g v, r)) l in
  match t with
  | TLit c =>
      match s with
      | String a r =>
          if Ascii.eqb (Text.lower_char a) (Text.lower_char c) then [(f, r)] else []
      | EmptyString => []
      end
  | TSpace => map (fun r => (f, r)) (space_alts s)
  | TDir d =>
      if Ascii.eqb d "Y" then
        upd (fun v => mk_fields v (fm f) (fd f) (fH f) (fM f) (fS f) (ff f))
            (altn 4 s)
      else if Ascii.eqb d "m" then
        upd (fun v => mk_fields (fY f) v (fd f) (fH f) (fM f) (fS f) (ff f))
            (alt2 (in_range 1 1) (in_range 0 2) s ++
             alt2 (in_range 0 0) (in_range 1 9) s ++
             alt1 (in_range 1 9) s)
      else if Ascii.eqb d "d" then
        upd (fun v => mk_fields (fY f) (fm f) v (fH f) (fM f) (fS f) (ff f))
            (alt2 (in_range 3 3) (in_range 0 1) s ++
             alt2 (in_range 1 2) Text.is_digit s ++
             alt2 (in_range 0 0) (in_range 1 9) s ++
             alt1 (in_range 1 9) s ++
             match s with
             | String " " r => alt1 (in_range 1 9) r
             | _ => []
             end)
      else if Ascii.eqb d "H" then
        upd (fun v => mk_fields (fY f) (fm f) (fd f) v (fM f) (fS f) (ff f))
            (alt2 (in_range 2 2) (in_range 0 3) s ++
             alt2 (in_range 0 1) Text.is_digit s ++
             alt1 Text.is_digit s)
      else if Ascii.eqb d "M" then
        upd (fun v => mk_fields (fY f) (fm f) (fd f) (fH f) v (fS f) (ff f))
            (alt2 (in_range 0 5) Text.is_digit s ++ alt1 Text.is_digit s)
      else if Ascii.eqb d "S" then
        upd (fun v => mk_fields (fY f) (fm f) (fd f) (fH f) (fM f) v (ff f))
            (alt2 (in_range 6 6) (in_range 0 1) s ++
             alt2 (in_range 0 5) Text.is_digit s ++
             alt1 Text.is_digit s)
      else if Ascii.eqb d "f" then
        flat_map (fun k =>
          upd (fun v => mk_fields (fY f) (fm f) (fd f) (fH f) (fM f) (fS f)
                                  (v * 10 ^ (6 - Z.of_nat k)))
              (altn k s))
          [6; 5; 4; 3; 2; 1]%nat
      else if Ascii.eqb d "B" then
        upd (fun v => mk_fields (fY f) v (fd f) (fH f) (fM f) (fS f) (ff f))
            (alt_names 1 month_names s)
      else if Ascii.eqb d "b" then
        upd (fun v => mk_fields (fY f) v (fd f) (fH f) (fM f) (fS f) (ff f))
            (alt_names 1 month_abbrs s)
      else if Ascii.eqb d "a" then
        upd (fun _ => f) (alt_names 1 day_abbrs s)
      else if Ascii.eqb d "Z" then
        upd (fun _ => f) (alt_names 1 ("utc" :: "gmt" :: tznames pf) s)
      else []
  end.

(** First complete match of the token list, with backtracking. *)
Fixpoint match_tokens (pf : platform) (ts : list tok) (f : fields) (s : string)
  : option (fields * string) :=
  match ts with
  | [] => Some (f, s)
  | t :: ts' =>
      (fix try (l : list (fields * string)) : option (fields * string) :=
         match l with
         | [] => None
         | (f', r) :: l' =>
             match match_tokens pf ts' f' r with
             | Some res => Some res
             | None => try l'
             end
         end) (alts pf t f s)
  end.

(** [datetime.strptime(s, fmt)]; [None] stands for [ValueError] (no
    match, unconverted data, or fields the constructor rejects). *)
Definition strptime (pf : platform) (s fmt : string) : option datetime :=
  match match_tokens pf (tokenize fmt) default_fields s with
  | Some (f, EmptyString) =>
      match datetime_new (fY f) (fm f) (fd f) (fH f) (fM f) (fS f) (ff f) with
      | Ok d => Some d
      | Raise _ => None
      end
  | _ => None
  end.

End Strptime.

(** ** utils/date_parser.py *)

Module DateParser.

Definition DATE_FORMATS : list string :=
  [ "%Y-%m-%dT%H:%M:%S.%fZ";
    "%Y-%m-%dT%H:%M:%SZ";
    "%Y-%m-%dT%H:%M:%S.%f";
    "%Y-%m-%dT%H:%M:%S";
    "%Y-%m-%d %H:%M:%S";
    "%Y-%m-%d";
    "%m/%d/%Y %H:%M:%S";
    "%m/%d/%Y";
    "%m-%d-%Y";
    "%d/%m/%Y %H:%M:%S";
    "%d/%m/%Y";
    "%d-%m-%Y";
    "%B %d, %Y";
    "%b %d, %Y";
    "%B %d %Y";
    "%b %d %Y";
    "%d %B %Y";
    "%d %b %Y";
    "%a, %d %b %Y %H:%M:%S GMT";
    "%a, %d %b %Y %H:%M:%S %Z";
    "%Y%m%d";
    "%Y%m%d%H%M%S" ].

(** [' '.join(s.split())]. *)
Fixpoint collapse_ws_aux (fuel : nat) (s : string) : string :=
  match fuel with
  | O => EmptyString
  | S fuel' =>
      match s with
      | EmptyString => EmptyString
      | String c r =>
          if Text.is_space c then
            match Str.lstrip r with
            | EmptyString => EmptyString
            | rest => String " " (collapse_ws_aux fuel' rest)
            end
          else String c (collapse_ws_aux fuel' r)
      end
  end.

Definition collapse_ws (s : string) : string :=
  let s := Str.lstrip s in collapse_ws_aux (String.length s) s.

(** The tail [\s*[:\-]?\s*] of every prefix pattern. *)
Definition skip_label_tail (s : string) : string :=
  let s := Str.lstrip s in
  match s with
  | String c r =>
      if Ascii.eqb c ":" || Ascii.eqb c "-" then Str.lstrip r else s
  | EmptyString => s
  end.

(** [\s+]: at least one blank. *)
Definition skip_blanks1 (s : string) : option string :=
  match s with
  | String c r => if Text.is_space c then Some (Str.lstrip r) else None
  | EmptyString => None
  end.

(** [re.sub(r'^Last\s+(?:Updated|Modified)\s*[:\-]?\s*', '', s, IGNORECASE)]. *)
Definition sub_prefix_last (s : string) : string :=
  match Str.strip_prefix_ci "Last" s with
  | Some r =>
      match skip_blanks1 r with
      | Some r =>
          match Str.strip_prefix_ci "Updated" r with
          | Some r => skip_label_tail r
          | None =>
              match Str.strip_prefix_ci "Modified" r with
              | Some r => skip_label_tail r
              | None => s
              end
          end
      | None => s
      end
  | None => s
  end.

(** [re.sub(r'^<word>\s*[:\-]?\s*', '', s, IGNORECASE)]. *)
Definition sub_prefix_word (w : string) (s : string) : string :=
  match Str.strip_prefix_ci w s with
  | Some r => skip_label_tail r
  | None => s
  end.

(** [re.sub(r'^As\s+of\s*[:\-]?\s*', '', s, IGNORECASE)]. *)
Definition sub_prefix_as_of (s : string) : string :=
  match Str.strip_prefix_ci "As" s with
  | Some r =>
      match skip_blanks1 r with
      | Some r =>
          match Str.strip_prefix_ci "of" r with
          | Some r => skip_label_tail r
          | None => s
          end
      | None => s
      end
  | None => s
  end.

Definition tz_abbreviations : list string :=
  ["EST"; "EDT"; "PST"; "PDT"; "CST"; "CDT"; "MST"; "MDT"].

(** [re.sub(r'\s*(EST|EDT|PST|PDT|CST|CDT|MST|MDT)\s*$', '', s)]. *)
Definition sub_tz_abbreviation (s : string) : string :=
  let r := Str.lstrip (Str.rev s) in
  match
    List.find (fun a => match Str.strip_prefix (Str.rev a) r with
                        | Some _ => true | None => false end)
              tz_abbreviations
  with
  | Some a =>
      match Str.strip_prefix (Str.rev a) r with
      | Some r' => Str.rev (Str.lstrip r')
      | None => s
      end
  | None => s
  end.

Definition _clean_date_string (date_string : string) : string :=
  let s := collapse_ws date_string in
  let s := sub_prefix_last s in
  let s := sub_prefix_word "Updated" s in
  let s := sub_prefix_word "Modified" s in
  let s := sub_prefix_word "Date" s in
  let s := sub_prefix_as_of s in
  let s := sub_tz_abbreviation s in
  Str.strip s.

Definition is_digit_or_dot (c : ascii) : bool :=
  Text.is_digit c || Ascii.eqb c ".".

(** The exceptions caught by [_try_unix_timestamp]. *)
Definition unix_caught (e : exn) : bool :=
  match e with
  | ValueError | OSError | OverflowError => true
  | _ => false
  end.

Definition _try_unix_timestamp (pf : platform) (date_string : string)
  : result (option datetime) :=
  let numeric := Str.filter is_digit_or_dot date_string in
  if negb (Text.truthy numeric) then Ok None else
  let body :=
    rbind (PyFloat.of_string numeric) (fun value =>
      if float_gtb value (inject_Z (10 ^ 12)) then
        rbind (Timestamp.fromtimestamp pf (float_div value 1000))
              (fun d => Ok (Some d))
      else if float_gtb value (inject_Z (10 ^ 9)) then
        rbind (Timestamp.fromtimestamp pf value) (fun d => Ok (Some d))
      else Ok None) in
  match body with
  | Raise e => if unix_caught e then Ok None else Raise e
  | ok => ok
  end.

(** The loop over [DATE_FORMATS]: the first format that parses. *)
Fixpoint try_formats (pf : platform) (s : string) (fmts : list string)
  : option datetime :=
  match fmts with
  | [] => None
  | fmt :: rest =>
      match Strptime.strptime pf s fmt with
      | Some d => Some d
      | None => try_formats pf s rest
      end
  end.

(** The exceptions caught around the [dateutil] attempt. *)
Definition dateutil_caught (e : exn) : bool :=
  match e with
  | ImportError | ValueError | TypeError => true
  | _ => false
  end.

Definition parse_after_dateutil (pf : platform) (s : string)
  : result (option datetime) :=
  match try_formats pf s DATE_FORMATS with
  | Some d => Ok (Some d)
  | None => _try_unix_timestamp pf s
  end.

Definition parse (pf : platform) (date_string : string) : result (option datetime) :=
  if negb (Text.truthy date_string) then Ok None else
  let s := _clean_date_string date_string in
  let attempt :=
    match dateutil pf with
    | None => Raise ImportError
    | Some p => p s
    end in
  match attempt with
  | Ok d => Ok (Some d)
  | Raise e =>
      if dateutil_caught e then parse_after_dateutil pf s else Raise e
  end.

End DateParser.

(** ** Printing Python values *)

Module Repr.

Definition dq : string := String (ascii_of_nat 34) EmptyString.
Definition nl : string := String (ascii_of_nat 10) EmptyString.

Fixpoint pos_digits (fuel : nat) (n : Z) (acc : string) : string :=
  match fuel with
  | O => acc
  | S fuel' =>
      let acc' := String (Text.digit_char (n mod 10)) acc in
      if n / 10 =? 0 then acc' else pos_digits fuel' (n / 10) acc'
  end.

(** [str(n)] for an [int]. *)
Definition int_str (n : Z) : string :=
  if n <? 0 then "-" +:+ pos_digits (S (Z.to_nat (Z.log2 (- n)))) (- n) ""
  else pos_digits (S (Z.to_nat (Z.log2 n))) n "".

Definition list_str (l : list string) : string :=
  "[" +:+ String.concat ", " (map (fun s => "'" +:+ s +:+ "'") l) +:+ "]".

(** [str(v)] of a configuration value, as an f-string prints it. *)
Definition cval_str (v : cval) : string :=
  match v with
  | CStr s => s
  | CInt n => int_str n
  | CBool b => if b then "True" else "False"
  | CList l => list_str l
  end.

(** [str(d)] of a datetime: [isoformat(sep=' ')]. *)
Definition datetime_str (d : datetime) : string :=
  Text.replace_char "T" " " (isoformat d).

(** [str(e)] of an exception: only its class is modelled. *)
Definition exn_str (e : exn) : string :=
  match e with
  | ValueError => "ValueError"
  | TypeError => "TypeError"
  | AttributeError => "AttributeError"
  | OverflowError => "OverflowError"
  | OSError => "OSError"
  | ImportError => "ImportError"
  | IndexError => "IndexError"
  | RegexError => "re.error"
  | JSONDecodeError => "JSONDecodeError"
  | RequestException => "RequestException"
  | WebDriverException => "WebDriverException"
  | TimeoutException => "TimeoutException"
  | OtherException name => name
  end.

End Repr.

(** ** utils/groq_verifier.py *)

(** The dictionary returned by the verifier. *)
Record verification : Type := mk_verification {
  v_is_verified : json;
  v_confidence : number;
  v_reasoning : json;
  v_suggested_timestamp : json;
  v_error : option string
}.

(** [client.chat.completions.create(...)] followed by
    [response.choices[0].message.content]: an exception, or the content
    of the reply ([None] when the message has none). *)
Record GroqVerifier : Type := mk_GroqVerifier {
  client : option (string -> result (option string))
}.

Module Verifier.

(** The "unknown" outcome. *)
Definition unknown (reasoning : string) (err : string) : verification :=
  mk_verification JNull (NInt 0) (JStr reasoning) JNull (Some err).

(** An outcome is "unknown": [is_verified] is [None], the confidence
    is 0, and the reasoning and the error field hold a text. *)
Definition is_unknown (r : verification) : Prop :=
  v_is_verified r = JNull /\ v_confidence r = NInt 0 /\
  v_suggested_timestamp r = JNull /\
  (exists t, v_reasoning r = JStr t) /\ (exists e, v_error r = Some e).

(** [float(v)] on a decoded JSON value. *)
Definition py_float (v : json) : result pyfloat :=
  match v with
  | JNum (NInt n) =>
      if Qle_bool PyFloat.overflow_bound (inject_Z (Z.abs n))
      then Raise OverflowError else Ok (Finite (inject_Z n))
  | JNum (NFloat f) => Ok f
  | JBool b => Ok (Finite (inject_Z (if b then 1 else 0)))
  | JStr s => PyFloat.of_string s
  | JNull | JList _ | JDict _ => Raise TypeError
  end.

(** The suffix of [s] that starts at the first [c]. *)
Fixpoint drop_until (c : ascii) (s : string) : option string :=
  match s with
  | EmptyString => None
  | String a r => if Ascii.eqb a c then Some s else drop_until c r
  end.

(** The match of [re.search(r'\{[\s\S]*\}', text)]: from the first
    opening brace to the last closing brace after it. *)
Definition brace_span (text : string) : option string :=
  match drop_until "{" text with
  | Some (String _ body) =>
      match drop_until "}" (Str.rev body) with
      | Some r => Some (String "{" (Str.rev r))
      | None => None
      end
  | _ => None
  end.

Definition fallback (text : string) : verification :=
  unknown (Str.take 500 text) "Could not parse structured response".

(** [_parse_response]; only [JSONDecodeError] is caught here. *)
Definition _parse_response (pf : platform) (response_text : option string)
  : result verification :=
  match response_text with
  | None => Raise TypeError
  | Some text =>
      let structured : result (option verification) :=
        match brace_span text with
        | Some matched =>
            rbind (json_loads pf matched) (fun decoded =>
              match decoded with
              | JDict d =>
                  rbind (py_float (default (JNum (NInt 0)) (dict_get "confidence" d)))
                    (fun c =>
                       Ok (Some (mk_verification
                                   (default (JBool false) (dict_get "is_verified" d))
                                   (NFloat c)
                                   (default (JStr "") (dict_get "reasoning" d))
                                   (default JNull (dict_get "correct_timestamp" d))
                                   None)))
              | _ => Raise AttributeError
              end)
        | None => Ok None
        end in
      match structured with
      | Ok (Some v) => Ok v
      | Ok None => Ok (fallback text)
      | Raise JSONDecodeError => Ok (fallback text)
      | Raise e => Raise e
      end
  end.

Definition _build_verification_prompt
    (extracted_timestamp content source_name data_url : string) : string :=
  "Please verify if the following extracted timestamp is correct." +:+ Repr.nl +:+
  Repr.nl +:+
  "**Data Source:** " +:+ source_name +:+ Repr.nl +:+
  "**URL:** " +:+ data_url +:+ Repr.nl +:+
  "**Extracted Timestamp:** " +:+ extracted_timestamp +:+ Repr.nl +:+
  Repr.nl +:+
  "**Page Content:**" +:+ Repr.nl +:+
  "```" +:+ Repr.nl +:+ content +:+ Repr.nl +:+ "```" +:+ Repr.nl +:+
  Repr.nl +:+
  "Is " +:+ Repr.dq +:+ extracted_timestamp +:+ Repr.dq +:+
  " the actual last modified/updated date for this data source? Look for phrases like:"
  +:+ Repr.nl +:+
  "- " +:+ Repr.dq +:+ "Last Updated:" +:+ Repr.dq +:+ ", " +:+
  Repr.dq +:+ "Last Modified:" +:+ Repr.dq +:+ ", " +:+
  Repr.dq +:+ "Updated on:" +:+ Repr.dq +:+ ", " +:+
  Repr.dq +:+ "Modified:" +:+ Repr.dq +:+ Repr.nl +:+
  "- " +:+ Repr.dq +:+ "Data as of:" +:+ Repr.dq +:+ ", " +:+
  Repr.dq +:+ "Release Date:" +:+ Repr.dq +:+ ", " +:+
  Repr.dq +:+ "Published:" +:+ Repr.dq +:+ Repr.nl +:+
  "- Meta tags with dates" +:+ Repr.nl +:+
  "- Any timestamp indicating when the data was last changed" +:+ Repr.nl +:+
  Repr.nl +:+
  "Provide your verification result in the JSON format specified.".

Definition max_content_length : nat := 4000.

(** The prompt sent to the service: the content is capped first. *)
Definition request_prompt
    (extracted_timestamp page_content source_name data_url : string) : string :=
  let truncated_content :=
    Str.take max_content_length page_content +:+
    (if (max_content_length <? String.length page_content)%nat
     then Repr.nl +:+ "... [content truncated]" else "") in
  _build_verification_prompt extracted_timestamp truncated_content
                             source_name data_url.

(** [verify_timestamp]: every exception of the service call and of
    [_parse_response] is caught. *)
Definition verify_timestamp (pf : platform) (v : GroqVerifier)
    (extracted_timestamp page_content source_name data_url : string)
  : result verification :=
  match client v with
  | None =>
      Ok (unknown "Groq client not available"
                  "GROQ_API_KEY not configured or groq package not installed")
  | Some create =>
      let prompt :=
        request_prompt extracted_timestamp page_content source_name data_url in
      match rbind (create prompt) (_parse_response pf) with
      | Ok r => Ok r
      | Raise e =>
          Ok (unknown ("API call failed: " +:+ Repr.exn_str e) (Repr.exn_str e))
      end
  end.

End Verifier.

(** ** models/check_result.py *)

Record CheckResult : Type := mk_CheckResult {
  dcid : string;
  import_name : option cval;
  data_url : option cval;
  script_url : option cval;
  method : option cval;
  changed : bool;
  current_timestamp : option datetime;
  previous_timestamp : option datetime;
  raw_timestamp : option string;
  error : option string;
  check_time : datetime;
  is_verified : json;
  verification_confidence : number;
  verification_reasoning : json;
  suggested_timestamp : json
}.

(** [CheckResult(dcid=..., ...)] with the defaults of the dataclass for
    the verification fields. *)
Definition new_CheckResult (now : datetime) (id : string)
    (name url script meth : option cval) (chg : bool)
    (cur prev : option datetime) (raw err : option string) : CheckResult :=
  mk_CheckResult id name url script meth chg cur prev raw err now
                 JNull (NFloat (Finite 0)) JNull JNull.

(** ** core/sentinel.py *)

(** What one call of [handler.fetch_current_timestamp()] leaves behind:
    its value or exception, and the attributes the orchestrator reads
    afterwards ([_raw_timestamp], [_etag], [_page_content]). *)
Record fetch_outcome : Type := mk_fetch_outcome {
  fo_value : result (option datetime);
  fo_raw_timestamp : option string;
  fo_etag : option string;
  fo_page_content : option string
}.

(** The environment of one check. *)
Record world : Type := mk_world {
  w_platform : platform;
  w_now : datetime;
  w_write_ok : bool;
  w_fetch : handler -> fetch_outcome
}.

Record Sentinel : Type := mk_Sentinel {
  registry : SourceRegistry;
  state_manager : StateManager;
  verifier : option GroqVerifier
}.

(** [getattr(handler, 'get_etag', lambda: None)()]: only [HTTPHandler]
    defines [get_etag]. *)
Definition handler_etag (h : handler) (o : fetch_outcome) : option string :=
  match h_class h with
  | HTTPHandler => fo_etag o
  | _ => None
  end.

(** [getattr(handler, '_page_content', '')]. *)
Definition handler_page_content (h : handler) (o : fetch_outcome) : string :=
  match h_class h with
  | APIHandler | BS4Handler | SeleniumHandler => default "" (fo_page_content o)
  | _ => ""
  end.

Definition str_or (a : option string) (b : string) : string :=
  match a with
  | Some s => if Text.truthy s then s else b
  | None => b
  end.

(** The verification step at the end of [check_for_updates]. *)
Definition verify_step (w : world) (s : Sentinel) (h : handler) (o : fetch_outcome)
    (name url : cval) (cur : option datetime) (res : CheckResult)
  : result CheckResult :=
  match verifier s, cur with
  | Some v, Some t =>
      match client v with
      | Some _ =>
          let raw := str_or (fo_raw_timestamp o) (Repr.datetime_str t) in
          let page :=
            let p := handler_page_content h o in
            if Text.truthy p then p else raw in
          rbind (Verifier.verify_timestamp (w_platform w) v raw page
                   (Repr.cval_str name) (Repr.cval_str url))
            (fun vr =>
               Ok (mk_CheckResult (dcid res) (import_name res) (data_url res)
                     (script_url res) (method res) (changed res)
                     (current_timestamp res) (previous_timestamp res)
                     (raw_timestamp res) (error res) (check_time res)
                     (v_is_verified vr) (v_confidence vr) (v_reasoning vr)
                     (v_suggested_timestamp vr)))
      | None => Ok res
      end
  | _, _ => Ok res
  end.

(** [Sentinel.check_for_updates]: the result (or the exception that
    escapes) and the state manager afterwards.  The comparison with the
    stored instant is outside every [try] and comes before the update
    of the state. *)
Definition check_for_updates (w : world) (s : Sentinel) (id : string)
  : result CheckResult * StateManager :=
  let sm := state_manager s in
  let source_config := get_source (registry s) id in
  if config_falsy source_config then
    (Ok (new_CheckResult (w_now w) id None None None None false None None None
           (Some ("Source not found: " +:+ id))), sm)
  else
    let cfg := default ∅ source_config in
    let name := default (CStr id) (cfg !! "import_name") in
    let url := default (CStr "") (cfg !! "data_url") in
    let script := default (CStr "") (cfg !! "script_url") in
    let meth := default (CStr "") (cfg !! "method") in
    match get_handler (registry s) id with
    | Raise e => (Raise e, sm)
    | Ok None =>
        (Ok (new_CheckResult (w_now w) id (Some name) (Some url) (Some script)
               (Some meth) false None None None
               (Some ("No handler available for: " +:+ id))), sm)
    | Ok (Some h) =>
        let o := w_fetch w h in
        match fo_value o with
        | Raise e =>
            (Ok (new_CheckResult (w_now w) id (Some name) (Some url) (Some script)
                   (Some meth) false None None None (Some (Repr.exn_str e))), sm)
        | Ok cur =>
            let stored := get_last_timestamp sm id in
            match compare_with_stored cur stored with
            | Raise e => (Raise e, sm)
            | Ok chg =>
                let sm' :=
                  match cur with
                  | Some t =>
                      update_timestamp (w_now w) (w_write_ok w) sm id t
                                       (fo_raw_timestamp o) (handler_etag h o)
                  | None => sm
                  end in
                let res :=
                  new_CheckResult (w_now w) id (Some name) (Some url) (Some script)
                    (Some meth) chg cur stored (fo_raw_timestamp o) None in
                (verify_step w s h o name url cur res, sm')
            end
        end
    end.

(** [check_all_sources]: the sources in the order of the configuration,
    the state threaded from one check to the next; an exception that
    escapes one check ends the loop. *)
Fixpoint check_all (w : world) (s : Sentinel) (ids : list string)
  : result (list CheckResult) * StateManager :=
  match ids with
  | [] => (Ok [], state_manager s)
  | id :: rest =>
      match check_for_updates w s id with
      | (Raise e, sm) => (Raise e, sm)
      | (Ok r, sm) =>
          match check_all w (mk_Sentinel (registry s) sm (verifier s)) rest with
          | (Ok rs, sm') => (Ok (r :: rs), sm')
          | (Raise e, sm') => (Raise e, sm')
          end
      end
  end.

(** ** The network, as the [requests] library shows it *)

Record response : Type := mk_response {
  status_code : Z;
  text : string;
  headers : list (string * string)
}.

(** One request either raises a [RequestException] (connection error,
    timeout, ...) or returns a response. *)
Inductive http_outcome : Type :=
| NetError
| Response (r : response).

(** [network i m]: the outcome of the [i]-th request of a fetch (counted
    from 0) when it is sent with HTTP method [m]. *)
Definition network : Type := nat -> string -> http_outcome.

(** [response.raise_for_status()] raises [HTTPError] for 4xx and 5xx. *)
Definition status_is_error (r : response) : bool :=
  (400 <=? status_code r) && (status_code r <? 600).

(** The attributes a handler sets while it fetches, and a ghost log
    [sent] of the HTTP methods of the requests it has sent, in order. *)
Record hstate : Type := mk_hstate {
  _raw_timestamp : option string;
  _etag : option string;
  _page_content : option string;
  sent : list string
}.

Definition hstate_init : hstate := mk_hstate None None None [].

Definition set_raw (raw : string) (st : hstate) : hstate :=
  mk_hstate (Some raw) (_etag st) (_page_content st) (sent st).

Definition set_etag (etag : string) (st : hstate) : hstate :=
  mk_hstate (_raw_timestamp st) (Some etag) (_page_content st) (sent st).

Definition set_page (page : string) (st : hstate) : hstate :=
  mk_hstate (_raw_timestamp st) (_etag st) (Some page) (sent st).

(** Records that a request with method [m] was sent. *)
Definition log_request (m : string) (st : hstate) : hstate :=
  mk_hstate (_raw_timestamp st) (_etag st) (_page_content st) (sent st ++ [m]).

(** Sends the next request: its index is the number of requests sent so
    far. *)
Definition send (net : network) (m : string) (st : hstate) : http_outcome * hstate :=
  (net (List.length (sent st)) m, log_request m st).

Definition http_settings (h : handler) : gmap string cval :=
  default ∅ (h_settings h !! "http").

(** [http_settings.get('max_retries', 3)]. *)
Definition max_retries (h : handler) : cval :=
  default (CInt 3) (http_settings h !! "max_retries").

(** ** handlers/api_handler.py *)

Module API.

Definition default_fallback_fields : list string :=
  ["lastModified"; "modified"; "updatedAt"; "last_updated";
   "dataUpdatedAt"; "rowsUpdatedAt"; "metadataUpdatedAt"].

(** [for field in fields: if field in data: return data[field]].  The
    keys of a decoded object are strings: a field that is an [int] or a
    [bool] is in no object, and a field that is a list is unhashable, so
    that [field in data] raises [TypeError]. *)
Fixpoint first_field (d : list (string * json)) (fields : list cval)
  : result (option json) :=
  match fields with
  | [] => Ok None
  | f :: rest =>
      match f with
      | CStr k =>
          match dict_get k d with
          | Some v => Ok (Some v)
          | None => first_field d rest
          end
      | CList _ => Raise TypeError
      | CInt _ | CBool _ => first_field d rest
      end
  end.

(** [_find_timestamp_value]; Python's [None] is [JNull]. *)
Fixpoint _find_timestamp_value (data : json) (fields : list cval) : result json :=
  match data with
  | JDict d =>
      match first_field d fields with
      | Raise e => Raise e
      | Ok (Some v) => Ok v
      | Ok None =>
          (fix values (l : list (string * json)) : result json :=
             match l with
             | [] => Ok JNull
             | (_, v) :: r =>
                 match _find_timestamp_value v fields with
                 | Raise e => Raise e
                 | Ok res => if json_truthy res then Ok res else values r
                 end
             end) d
      end
  | JList (x :: _) => _find_timestamp_value x fields
  | _ => Ok JNull
  end.

(** The exceptions caught around [datetime.fromtimestamp]. *)
Definition timestamp_caught (e : exn) : bool :=
  match e with
  | ValueError | OSError => true
  | _ => false
  end.

Definition parse_number (pf : platform) (x : pyfloat) : result (option datetime) :=
  let attempt :=
    if float_gtb x (inject_Z (10 ^ 12))
    then Timestamp.fromtimestamp pf (float_div x 1000)
    else Timestamp.fromtimestamp pf x in
  match attempt with
  | Ok d => Ok (Some d)
  | Raise e => if timestamp_caught e then Ok None else Raise e
  end.

(** [_parse_timestamp_value]; a [bool] is an [int]. *)
Definition _parse_timestamp_value (pf : platform) (value : json)
  : result (option datetime) :=
  match value with
  | JNum n => parse_number pf (float_of_number n)
  | JBool b => parse_number pf (Finite (inject_Z (if b then 1 else 0)))
  | JStr s => DateParser.parse pf s
  | _ => Ok None
  end.

(** [str(timestamp_value)]. *)
Definition value_str (pf : platform) (v : json) : string :=
  match v with
  | JStr s => s
  | JNum (NInt n) => Repr.int_str n
  | JBool b => if b then "True" else "False"
  | JNull => "None"
  | other => py_repr pf other
  end.

(** [[timestamp_field] + fallback_fields]: [TypeError] when the
    configured [fallback_fields] is not a list. *)
Definition fields_to_check (cfg : gmap string cval) (dflt : list string)
  : result (list cval) :=
  let timestamp_field := default (CStr "updated_at") (cfg !! "timestamp_field") in
  match default (CList dflt) (cfg !! "fallback_fields") with
  | CList l => Ok (timestamp_field :: map CStr l)
  | _ => Raise TypeError
  end.

Definition _parse_json_response (pf : platform) (cfg : gmap string cval)
    (content : string) (st : hstate) : result (option datetime) * hstate :=
  match json_loads pf content with
  | Raise JSONDecodeError => (Ok None, st)
  | Raise e => (Raise e, st)
  | Ok data =>
      match rbind (fields_to_check cfg default_fallback_fields)
                  (_find_timestamp_value data) with
      | Raise e => (Raise e, st)
      | Ok timestamp_value =>
          if json_truthy timestamp_value then
            (_parse_timestamp_value pf timestamp_value,
             set_raw (value_str pf timestamp_value) st)
          else (Ok None, st)
      end
  end.

(** The loop of [_parse_xml_response]; the caller catches everything. *)
Fixpoint xml_fields (pf : platform) (content : string) (fields : list string)
    (st : hstate) : result (option datetime) * hstate :=
  match fields with
  | [] => (Ok None, st)
  | f :: rest =>
      match xml_find pf content f with
      | Raise e => (Raise e, st)
      | Ok (Some txt) =>
          if Text.truthy txt then (DateParser.parse pf txt, set_raw txt st)
          else xml_fields pf content rest st
      | Ok None => xml_fields pf content rest st
      end
  end.

(** [_parse_xml_response]: the whole body is under
    [try ... except Exception: return None]; a field is looked for under
    the text an f-string gives it. *)
Definition _parse_xml_response (pf : platform) (cfg : gmap string cval)
    (content : string) (st : hstate) : result (option datetime) * hstate :=
  match fields_to_check cfg [] with
  | Raise _ => (Ok None, st)
  | Ok fields =>
      match xml_fields pf content (map Repr.cval_str fields) st with
      | (Raise _, st') => (Ok None, st')
      | ok => ok
      end
  end.

(** [_parse_response]: a [response_format] that is not a [str] equals
    neither ['json'] nor ['xml']. *)
Definition _parse_response (pf : platform) (cfg : gmap string cval)
    (r : response) (st : hstate) : result (option datetime) * hstate :=
  match default (CStr "json") (cfg !! "response_format") with
  | CStr response_format =>
      if String.eqb response_format "json"
      then _parse_json_response pf cfg (text r) st
      else if String.eqb response_format "xml"
      then _parse_xml_response pf cfg (text r) st
      else (Ok None, st)
  | _ => (Ok None, st)
  end.

(** The retry loop with [n] attempts left.  Every request is a GET. *)
Fixpoint attempts (pf : platform) (net : network) (cfg : gmap string cval)
    (n : nat) (st : hstate) : result (option datetime) * hstate :=
  match n with
  | O => (Ok None, st)
  | S n' =>
      match send net "GET" st with
      | (NetError, st1) => attempts pf net cfg n' st1
      | (Response r, st1) =>
          if status_is_error r then attempts pf net cfg n' st1
          else _parse_response pf cfg r (set_page (text r) st1)
      end
  end.

(** [fetch_current_timestamp]; [range(max_retries)] is outside the
    [try]. *)
Definition fetch_current_timestamp (pf : platform) (net : network) (h : handler)
  : result (option datetime) * hstate :=
  if negb (opt_truthy (h_config h !! "data_url")) then (Ok None, hstate_init)
  else
    match py_range (max_retries h) with
    | Raise e => (Raise e, hstate_init)
    | Ok n => attempts pf net (h_config h) n hstate_init
    end.

End API.

(** ** Loops shared by the scraping handlers *)

Module Scrape.

(** [s.split(sep)] for a one-character separator. *)
Fixpoint split_char (sep : ascii) (s : string) : list string :=
  match s with
  | EmptyString => [EmptyString]
  | String c r =>
      if Ascii.eqb c sep then EmptyString :: split_char sep r
      else
        match split_char sep r with
        | hd :: tl => String c hd :: tl
        | [] => [String c EmptyString]
        end
  end.

(** [[s.strip() for s in selectors.split(',')]]. *)
Definition selector_list (selectors : string) : list string :=
  map Str.strip (split_char "," selectors).

(** The pattern [if text: parsed = parse(text); if parsed: raw = text;
    return parsed] over a list of candidate texts: the first candidate
    that parses wins, an exception of the parser escapes. *)
Fixpoint first_parsed (parse : string -> result (option datetime))
    (cands : list string) (st : hstate) : result (option datetime) * hstate :=
  match cands with
  | [] => (Ok None, st)
  | c :: rest =>
      if Text.truthy c then
        match parse c with
        | Raise e => (Raise e, st)
        | Ok (Some d) => (Ok (Some d), set_raw c st)
        | Ok None => first_parsed parse rest st
        end
      else first_parsed parse rest st
  end.

Definition opt_list (o : option string) : list string :=
  match o with Some s => [s] | None => [] end.

End Scrape.

(** ** handlers/bs4_handler.py *)

Module BS4.

(** [_find_by_selectors]: one [try ... except Exception: continue] per
    selector. *)
Fixpoint by_selectors (pf : platform) (sp : soup) (sels : list string)
    (st : hstate) : result (option datetime) * hstate :=
  match sels with
  | [] => (Ok None, st)
  | sel :: rest =>
      match soup_select sp sel with
      | Raise _ => by_selectors pf sp rest st
      | Ok elements =>
          let cands :=
            flat_map (fun e => el_text e ::
                               Scrape.opt_list (attr_get "datetime" (el_attrs e)))
                     elements in
          match Scrape.first_parsed (DateParser.parse pf) cands st with
          | (Ok (Some d), st') => (Ok (Some d), st')
          | _ => by_selectors pf sp rest st
          end
      end
  end.

(** [_find_by_selectors]: [selectors.split(',')] is outside the [try]
    of the loop. *)
Definition _find_by_selectors (pf : platform) (cfg : gmap string cval)
    (sp : soup) (st : hstate) : result (option datetime) * hstate :=
  let selectors := default (CStr "") (cfg !! "selector") in
  if negb (cval_truthy selectors) then (Ok None, st)
  else
    match as_str selectors with
    | Raise e => (Raise e, st)
    | Ok text => by_selectors pf sp (Scrape.selector_list text) st
    end.

Definition date_classes : list string :=
  ["date"; "updated"; "modified"; "last-updated"; "timestamp"].

Definition _find_in_common_elements (pf : platform) (sp : soup) (st : hstate)
  : result (option datetime) * hstate :=
  let time_cands :=
    flat_map (fun e => Scrape.opt_list (attr_get "datetime" (el_attrs e))
                       ++ [el_text e])
             (soup_time_elements sp) in
  let class_cands :=
    flat_map (fun c => map el_text (soup_by_class sp c)) date_classes in
  Scrape.first_parsed (DateParser.parse pf) (time_cands ++ class_cands) st.

Definition meta_names : list string :=
  ["last-modified"; "dcterms.modified"; "article:modified_time";
   "og:updated_time"; "date"; "DC.date.modified"].

Definition meta_content (sp : soup) (attr name : string) : list string :=
  match soup_find_meta sp attr name with
  | Some e => Scrape.opt_list (attr_get "content" (el_attrs e))
  | None => []
  end.

Definition _find_in_meta_tags (pf : platform) (sp : soup) (st : hstate)
  : result (option datetime) * hstate :=
  Scrape.first_parsed (DateParser.parse pf)
    (flat_map (fun n => meta_content sp "name" n ++ meta_content sp "property" n)
              meta_names)
    st.

Definition default_date_patterns : list string :=
  ["Updated[:\s]+(\w+\s+\d{1,2},?\s+\d{4})";
   "Last\s+(?:Updated|Modified)[:\s]+(\w+\s+\d{1,2},?\s+\d{4})";
   "Modified[:\s]+(\d{1,2}/\d{1,2}/\d{4})";
   "Date[:\s]+(\w+\s+\d{1,2},?\s+\d{4})"].

(** The loop of [_search_with_patterns]: [re.error] of a configured
    pattern, [IndexError] of [match.group(1)] on a pattern without a
    group and the exceptions of the parser all escape. *)
Fixpoint search_patterns (pf : platform) (html : string) (pats : list string)
    (st : hstate) : result (option datetime) * hstate :=
  match pats with
  | [] => (Ok None, st)
  | p :: rest =>
      match re_search pf p html with
      | Raise e => (Raise e, st)
      | Ok None => search_patterns pf html rest st
      | Ok (Some []) => (Raise IndexError, st)
      | Ok (Some (None :: _)) => search_patterns pf html rest st
      | Ok (Some (Some date_str :: _)) =>
          match Scrape.first_parsed (DateParser.parse pf) [date_str] st with
          | (Ok None, _) => search_patterns pf html rest st
          | other => other
          end
      end
  end.

Definition _search_with_patterns (pf : platform) (cfg : gmap string cval)
    (html : string) (st : hstate) : result (option datetime) * hstate :=
  let configured := default (CList []) (cfg !! "date_patterns") in
  if negb (cval_truthy configured)
  then search_patterns pf html default_date_patterns st
  else
    match py_iter configured with
    | Raise e => (Raise e, st)
    | Ok date_patterns => search_patterns pf html date_patterns st
    end.

(** [a or b] for two stages: [b] runs when [a] found nothing. *)
Definition or_else (a : result (option datetime) * hstate)
    (b : hstate -> result (option datetime) * hstate)
  : result (option datetime) * hstate :=
  match a with
  | (Ok None, st) => b st
  | other => other
  end.

Definition _extract_timestamp (pf : platform) (cfg : gmap string cval)
    (sp : soup) (raw_html : string) (st : hstate)
  : result (option datetime) * hstate :=
  or_else (_find_by_selectors pf cfg sp st) (fun st =>
  or_else (_find_in_common_elements pf sp st) (fun st =>
  or_else (_find_in_meta_tags pf sp st) (fun st =>
  _search_with_patterns pf cfg raw_html st))).

Fixpoint attempts (pf : platform) (make_soup : string -> result soup)
    (net : network) (cfg : gmap string cval) (n : nat) (st : hstate)
  : result (option datetime) * hstate :=
  match n with
  | O => (Ok None, st)
  | S n' =>
      match send net "GET" st with
      | (NetError, st1) => attempts pf make_soup net cfg n' st1
      | (Response r, st1) =>
          if status_is_error r then attempts pf make_soup net cfg n' st1
          else
            match make_soup (text r) with
            | Raise e => (Raise e, st1)
            | Ok sp => _extract_timestamp pf cfg sp (text r) (set_page (text r) st1)
            end
      end
  end.

Definition fetch_current_timestamp (pf : platform) (net : network) (h : handler)
  : result (option datetime) * hstate :=
  if negb (opt_truthy (h_config h !! "data_url")) then (Ok None, hstate_init)
  else
    match BeautifulSoup pf with
    | None => (Ok None, hstate_init)
    | Some make_soup =>
        match py_range (max_retries h) with
        | Raise e => (Raise e, hstate_init)
        | Ok n => attempts pf make_soup net (h_config h) n hstate_init
        end
    end.

End BS4.

(** ** handlers/selenium_handler.py *)

Module Selenium.

(** [_find_timestamp_on_page]: one [try ... except Exception: continue]
    per selector; the text of each element is parsed as it is. *)
Fixpoint on_page (pf : platform) (br : browser) (sels : list string)
    (st : hstate) : option datetime * hstate :=
  match sels with
  | [] => (None, st)
  | sel :: rest =>
      match br_find_elements br sel with
      | Raise _ => on_page pf br rest st
      | Ok texts =>
          match Scrape.first_parsed (DateParser.parse pf) (map Str.strip texts) st with
          | (Ok (Some d), st') => (Some d, st')
          | _ => on_page pf br rest st
          end
      end
  end.

(** [_find_timestamp_on_page]: [selectors.split(',')] is outside the
    [try] of the loop. *)
Definition _find_timestamp_on_page (pf : platform) (cfg : gmap string cval)
    (br : browser) (st : hstate) : result (option datetime) * hstate :=
  let selectors := default (CStr "") (cfg !! "selector") in
  if negb (cval_truthy selectors) then (Ok None, st)
  else
    match as_str selectors with
    | Raise e => (Raise e, st)
    | Ok text =>
        let '(r, st') := on_page pf br (Scrape.selector_list text) st in
        (Ok r, st')
    end.

Definition date_patterns : list string :=
  ["(?:Last\s+)?(?:Updated|Modified)[\s:]+(\w+\s+\d{1,2},?\s+\d{4})";
   "(?:Last\s+)?(?:Updated|Modified)[\s:]+(\d{1,2}[/-]\d{1,2}[/-]\d{2,4})";
   "(?:Last\s+)?(?:Updated|Modified)[\s:]+(\d{4}[/-]\d{1,2}[/-]\d{1,2})";
   "Data\s+(?:as\s+of|through)[\s:]+(\w+\s+\d{1,2},?\s+\d{4})";
   "Release\s+Date[\s:]+(\w+\s+\d{1,2},?\s+\d{4})"].

(** The loop of [_search_page_for_date]; [_raw_timestamp] is set
    before the match is parsed. *)
Fixpoint search_text (pf : platform) (page_text : string) (pats : list string)
    (st : hstate) : result (option datetime) * hstate :=
  match pats with
  | [] => (Ok None, st)
  | p :: rest =>
      match re_search pf p page_text with
      | Raise e => (Raise e, st)
      | Ok None => search_text pf page_text rest st
      | Ok (Some []) => (Raise IndexError, st)
      | Ok (Some (None :: _)) =>
          search_text pf page_text rest
                      (mk_hstate None (_etag st) (_page_content st) (sent st))
      | Ok (Some (Some date_str :: _)) =>
          let st1 := set_raw date_str st in
          match DateParser.parse pf date_str with
          | Raise e => (Raise e, st1)
          | Ok (Some d) => (Ok (Some d), st1)
          | Ok None => search_text pf page_text rest st1
          end
      end
  end.

(** [_search_page_for_date]: the whole body is under
    [try ... except Exception: return None]. *)
Definition _search_page_for_date (pf : platform) (br : browser) (st : hstate)
  : option datetime * hstate :=
  match br_body_text br with
  | Raise _ => (None, st)
  | Ok page_text =>
      match search_text pf page_text date_patterns st with
      | (Ok r, st') => (r, st')
      | (Raise _, st') => (None, st')
      end
  end.

(** The exceptions caught by [fetch_current_timestamp]. *)
Definition webdriver_caught (e : exn) : bool :=
  match e with
  | TimeoutException | WebDriverException => true
  | _ => false
  end.

(** [br = None]: the selenium packages cannot be imported. *)
Definition fetch_current_timestamp (pf : platform) (br : option browser)
    (h : handler) : result (option datetime) * hstate :=
  if negb (opt_truthy (h_config h !! "data_url")) then (Ok None, hstate_init)
  else
    match br with
    | None => (Ok None, hstate_init)
    | Some b =>
        let catch (r : result (option datetime) * hstate) :=
          match r with
          | (Raise e, st) =>
              if webdriver_caught e then (Ok None, st) else (Raise e, st)
          | ok => ok
          end in
        match br_start b with
        | Raise e => catch (Raise e, hstate_init)
        | Ok _ =>
            let body : result (option datetime) * hstate :=
              match br_get b with
              | Raise e => (Raise e, hstate_init)
              | Ok _ =>
                  match br_wait_body b with
                  | Raise e => (Raise e, hstate_init)
                  | Ok _ =>
                      match br_page_source b with
                      | Raise e => (Raise e, hstate_init)
                      | Ok src =>
                          let st := set_page src hstate_init in
                          match _find_timestamp_on_page pf (h_config h) b st with
                          | (Raise e, st') => (Raise e, st')
                          | (Ok (Some d), st') => (Ok (Some d), st')
                          | (Ok None, st') =>
                              let '(r, st'') := _search_page_for_date pf b st' in
                              (Ok r, st'')
                          end
                      end
                  end
              end in
            match br_quit b with
            | Raise e => (Raise e, snd body)
            | Ok _ => catch body
            end
        end
    end.

End Selenium.

(** ** main.py: the standalone script, with its own copies of the parser
    and of the handlers *)

Module Main.

Definition DATE_FORMATS : list string :=
  [ "%Y-%m-%dT%H:%M:%S.%fZ";
    "%Y-%m-%dT%H:%M:%SZ";
    "%Y-%m-%dT%H:%M:%S.%f";
    "%Y-%m-%dT%H:%M:%S";
    "%Y-%m-%d %H:%M:%S";
    "%Y-%m-%d";
    "%m/%d/%Y %H:%M:%S";
    "%m/%d/%Y";
    "%B %d, %Y";
    "%b %d, %Y";
    "%B %d %Y";
    "%b %d %Y";
    "%d %B %Y";
    "%d %b %Y";
    "%a, %d %b %Y %H:%M:%S GMT";
    "%a, %d %b %Y %H:%M:%S %Z" ].

Definition _clean_date_string (date_string : string) : string :=
  let s := DateParser.collapse_ws date_string in
  let s := DateParser.sub_prefix_last s in
  let s := DateParser.sub_prefix_word "Updated" s in
  let s := DateParser.sub_prefix_word "Modified" s in
  Str.strip s.

(** [DateParser.parse] of main.py. *)
Definition parse (pf : platform) (date_string : string) : result (option datetime) :=
  if negb (Text.truthy date_string) then Ok None else
  let s := _clean_date_string date_string in
  let attempt :=
    match dateutil pf with
    | None => Raise ImportError
    | Some p => p s
    end in
  match attempt with
  | Ok d => Ok (Some d)
  | Raise e =>
      if DateParser.dateutil_caught e then
        match DateParser.try_formats pf s DATE_FORMATS with
        | Some d => Ok (Some d)
        | None => DateParser._try_unix_timestamp pf s
        end
      else Raise e
  end.

Definition upper_char (c : ascii) : ascii :=
  if Text.is_lower c then ascii_of_nat (nat_of_ascii c - 32) else c.

Fixpoint upper (s : string) : string :=
  match s with
  | EmptyString => EmptyString
  | String c r => String (upper_char c) (upper r)
  end.

(** [response.headers.get(name)]: header names ignore case. *)
Fixpoint header_get (name : string) (hs : list (string * string)) : option string :=
  match hs with
  | [] => None
  | (k, v) :: r =>
      if String.eqb (Text.lower k) (Text.lower name) then Some v
      else header_get name r
  end.

(** ** [APIHandler] of main.py *)

Definition methods_to_try (http_method : string) : list string :=
  http_method ::
    (if String.eqb http_method "GET" then ["HEAD"; "POST"]
     else if String.eqb http_method "POST" then ["GET"; "HEAD"]
     else []).

Definition is_known_method (m : string) : bool :=
  String.eqb m "GET" || String.eqb m "HEAD" || String.eqb m "POST".

(** [dt.strftime('%Y-%m-%d %H:%M:%S')]. *)
Definition strftime_seconds (d : datetime) : string :=
  Text.fmt_digits 4 (year d) +:+ "-" +:+ Text.fmt_digits 2 (month d) +:+ "-" +:+
  Text.fmt_digits 2 (day d) +:+ " " +:+ Text.fmt_digits 2 (hour d) +:+ ":" +:+
  Text.fmt_digits 2 (minute d) +:+ ":" +:+ Text.fmt_digits 2 (second d).

(** [int(x)] of a finite float. *)
Definition trunc (q : Q) : Z := Z.quot (Qnum q) (Z.pos (Qden q)).

(** The readable form stored in [_raw_timestamp] for a numeric hit;
    [OverflowError] is not caught here. *)
Definition numeric_raw (pf : platform) (value : json) (x : pyfloat) : result string :=
  let attempt :=
    if float_gtb x (inject_Z (10 ^ 12))
    then Timestamp.fromtimestamp pf (float_div x 1000)
    else Timestamp.fromtimestamp pf x in
  let caught (e : exn) :=
    if API.timestamp_caught e then Ok (API.value_str pf value) else Raise e in
  match attempt with
  | Ok d =>
      match x with
      | Finite q =>
          Ok (strftime_seconds d +:+ " (Unix: " +:+ Repr.int_str (trunc q) +:+ ")")
      | NaN => caught ValueError
      | PosInf | NegInf => caught OverflowError
      end
  | Raise e => caught e
  end.

Definition parse_value (pf : platform) (value : json) : result (option datetime) :=
  match value with
  | JNum n => API.parse_number pf (float_of_number n)
  | JBool b => API.parse_number pf (Finite (inject_Z (if b then 1 else 0)))
  | JStr s => parse pf s
  | _ => Ok None
  end.

Definition _parse_json_response (pf : platform) (cfg : gmap string cval)
    (content : string) (st : hstate) : result (option datetime) * hstate :=
  match json_loads pf content with
  | Raise JSONDecodeError => (Ok None, st)
  | Raise e => (Raise e, st)
  | Ok data =>
      match rbind (API.fields_to_check cfg API.default_fallback_fields)
                  (API._find_timestamp_value data) with
      | Raise e => (Raise e, st)
      | Ok value =>
          if json_truthy value then
            let raw :=
              match value with
              | JNum n => numeric_raw pf value (float_of_number n)
              | JBool b => numeric_raw pf value (Finite (inject_Z (if b then 1 else 0)))
              | other => Ok (API.value_str pf other)
              end in
            match raw with
            | Raise e => (Raise e, st)
            | Ok r => (parse_value pf value, set_raw r st)
            end
          else (Ok None, st)
      end
  end.

Definition parsedate_caught (e : exn) : bool :=
  match e with
  | ValueError | TypeError => true
  | _ => false
  end.

(** What is done with a successful response to a HEAD request. *)
Definition head_result (pf : platform) (r : response) (st : hstate)
  : result (option datetime) * hstate :=
  match header_get "Last-Modified" (headers r) with
  | Some last_modified =>
      if Text.truthy last_modified then
        let st1 := set_raw last_modified st in
        match parsedate_to_datetime pf last_modified with
        | Ok d => (Ok (Some d), st1)
        | Raise e =>
            if parsedate_caught e then (parse pf last_modified, st1)
            else (Raise e, st1)
        end
      else (Ok None, st)
  | None => (Ok None, st)
  end.

(** The loop over [methods_to_try]: a method other than GET, HEAD and
    POST sends nothing; a 405, an error status and a
    [RequestException] all lead to the next method. *)
Fixpoint try_methods (pf : platform) (net : network) (cfg : gmap string cval)
    (methods : list string) (st : hstate) : result (option datetime) * hstate :=
  match methods with
  | [] => (Ok None, st)
  | m :: rest =>
      if negb (is_known_method m) then try_methods pf net cfg rest st
      else
        match send net m st with
        | (NetError, st1) => try_methods pf net cfg rest st1
        | (Response r, st1) =>
            if status_code r =? 405 then try_methods pf net cfg rest st1
            else if status_is_error r then try_methods pf net cfg rest st1
            else if String.eqb m "HEAD" then head_result pf r st1
            else _parse_json_response pf cfg (text r) st1
        end
  end.

(** [self.config.get('http_method', 'GET')]. *)
Definition http_method (cfg : gmap string cval) : cval :=
  default (CStr "GET") (cfg !! "http_method").

(** [fetch_current_timestamp] of the API handler; [.upper()] is
    outside the [try]. *)
Definition api_fetch_current_timestamp (pf : platform) (net : network) (h : handler)
  : result (option datetime) * hstate :=
  if negb (opt_truthy (h_config h !! "data_url")) then (Ok None, hstate_init)
  else
    match as_str (http_method (h_config h)) with
    | Raise e => (Raise e, hstate_init)
    | Ok m => try_methods pf net (h_config h) (methods_to_try (upper m)) hstate_init
    end.

(** ** [SeleniumHandler] of main.py *)

(** The selector stage: empty selectors are skipped, every exception
    under a selector is swallowed. *)
Fixpoint on_page (pf : platform) (br : browser) (sels : list string)
    (st : hstate) : option datetime * hstate :=
  match sels with
  | [] => (None, st)
  | sel :: rest =>
      if negb (Text.truthy sel) then on_page pf br rest st
      else
        match br_find_elements br sel with
        | Raise _ => on_page pf br rest st
        | Ok texts =>
            match Scrape.first_parsed (parse pf) (map Str.strip texts) st with
            | (Ok (Some d), st') => (Some d, st')
            | _ => on_page pf br rest st
            end
        end
  end.

Definition text_patterns : list string :=
  ["(?:Last\s+)?(?:Updated|Modified)[\s:]+(\w+\s+\d{1,2},?\s+\d{4})";
   "Data\s+(?:as\s+of|through)[\s:]+(\w+\s+\d{1,2},?\s+\d{4})";
   "(?:Released|Published)[\s:]+(\w+\s+\d{1,2},?\s+\d{4})";
   "(?:Data\s+)?(?:Current|Available)\s+(?:as\s+of|through)[\s:]+(\w+\s+\d{1,2},?\s+\d{4})";
   "(\w+\s+\d{1,2},?\s+\d{4})";
   "(\d{1,2}/\d{1,2}/\d{4})";
   "(\d{4}-\d{2}-\d{2})";
   "(\d{2}-\d{2}-\d{4})"].

Definition year_floor : Z := 2020.

(** [parsed.year >= 2020 and parsed <= now]; the comparison is not
    evaluated for an earlier year. *)
Definition plausible (now parsed : datetime) : result bool :=
  if year_floor <=? year parsed then datetime_le parsed now else Ok false.

(** The matches of one pattern, in order: the first that parses and
    is plausible wins. *)
Fixpoint scan_matches (pf : platform) (now : datetime) (ms : list string)
    (st : hstate) : result (option datetime) * hstate :=
  match ms with
  | [] => (Ok None, st)
  | date_str :: rest =>
      match parse pf date_str with
      | Raise e => (Raise e, st)
      | Ok (Some parsed) =>
          match plausible now parsed with
          | Raise e => (Raise e, st)
          | Ok true => (Ok (Some parsed), set_raw date_str st)
          | Ok false => scan_matches pf now rest st
          end
      | Ok None => scan_matches pf now rest st
      end
  end.

Fixpoint scan_patterns (pf : platform) (now : datetime) (page_text : string)
    (pats : list string) (st : hstate) : result (option datetime) * hstate :=
  match pats with
  | [] => (Ok None, st)
  | p :: rest =>
      match re_findall pf p page_text with
      | Raise e => (Raise e, st)
      | Ok ms =>
          match scan_matches pf now ms st with
          | (Ok None, st') => scan_patterns pf now page_text rest st'
          | other => other
          end
      end
  end.

Definition json_patterns : list string :=
  [Repr.dq +:+ "(?:lastUpdated|updatedAt|modified|releaseDate)" +:+ Repr.dq +:+
     "[\s]*:[\s]*" +:+ Repr.dq +:+ "([^" +:+ Repr.dq +:+ "]+)" +:+ Repr.dq;
   Repr.dq +:+ "(?:lastUpdated|updatedAt|modified|releaseDate)" +:+ Repr.dq +:+
     "[\s]*:[\s]*(\d+)"].

(** The scan of the page source for JSON-like date fields. *)
Fixpoint scan_json (pf : platform) (page_source : string) (pats : list string)
    (st : hstate) : result (option datetime) * hstate :=
  match pats with
  | [] => (Ok None, st)
  | p :: rest =>
      match re_search pf p page_source with
      | Raise e => (Raise e, st)
      | Ok None => scan_json pf page_source rest st
      | Ok (Some []) => (Raise IndexError, st)
      | Ok (Some (None :: _)) =>
          scan_json pf page_source rest
                    (mk_hstate None (_etag st) (_page_content st) (sent st))
      | Ok (Some (Some value :: _)) =>
          let st1 := set_raw value st in
          match parse pf value with
          | Raise e => (Raise e, st1)
          | Ok (Some d) => (Ok (Some d), st1)
          | Ok None => scan_json pf page_source rest st1
          end
      end
  end.

(** The stages after the page has loaded. *)
Definition extract (pf : platform) (now : datetime) (cfg : gmap string cval)
    (b : browser) (st : hstate) : result (option datetime) * hstate :=
  match as_str (default (CStr "") (cfg !! "selector")) with
  | Raise e => (Raise e, st)
  | Ok selectors =>
      match on_page pf b (map Str.strip (Scrape.split_char "," selectors)) st with
      | (Some d, st') => (Ok (Some d), st')
      | (None, st') =>
          let page_text :=
            match br_body_text b with
            | Ok t => Ok t
            | Raise _ => br_page_source b
            end in
          match page_text with
          | Raise e => (Raise e, st')
          | Ok t =>
              match scan_patterns pf now t text_patterns st' with
              | (Ok None, st'') =>
                  match br_page_source b with
                  | Raise e => (Raise e, st'')
                  | Ok src => scan_json pf src json_patterns st''
                  end
              | other => other
              end
          end
      end
  end.

(** Everything after the imports is under [try ... except Exception:
    return None]; [driver.quit()] is guarded too. *)
Definition selenium_fetch_current_timestamp (pf : platform) (now : datetime)
    (br : option browser) (h : handler) : result (option datetime) * hstate :=
  if negb (opt_truthy (h_config h !! "data_url")) then (Ok None, hstate_init)
  else
    match br with
    | None => (Ok None, hstate_init)
    | Some b =>
        match br_start b with
        | Raise _ => (Ok None, hstate_init)
        | Ok _ =>
            match br_get b with
            | Raise _ => (Ok None, hstate_init)
            | Ok _ =>
                match extract pf now (h_config h) b hstate_init with
                | (Raise _, st) => (Ok None, st)
                | ok => ok
                end
            end
        end
    end.

End Main.

(** ** A reference platform

    A concrete platform on which the model runs: UTC as local time, no
    [dateutil], and a decoder for JSON texts (objects, arrays, strings
    with the simple escapes, numbers, [true], [false], [null], [NaN] and
    the infinities) that follows [json.loads].  The page and regex
    services are those of a platform without BeautifulSoup, with a
    regex engine that finds nothing. *)

Module Reference.

Fixpoint dict_set (k : string) (v : json) (d : list (string * json))
  : list (string * json) :=
  match d with
  | [] => [(k, v)]
  | (k', v') :: r =>
      if String.eqb k' k then (k', v) :: r else (k', v') :: dict_set k v r
  end.

Definition skip_ws (s : string) : string :=
  snd (Str.span (fun c => Ascii.eqb c " " || Ascii.eqb c (ascii_of_nat 9)
                          || Ascii.eqb c (ascii_of_nat 10)
                          || Ascii.eqb c (ascii_of_nat 13)) s).

(** A string body after the opening quote: characters up to the
    closing quote; control characters are rejected. *)
Fixpoint string_body (fuel : nat) (s : string) : option (string * string) :=
  match fuel with
  | O => None
  | S fuel' =>
      match s with
      | EmptyString => None
      | String c r =>
          if Ascii.eqb c (ascii_of_nat 34) then Some (EmptyString, r)
          else if Ascii.eqb c "\" then
            match r with
            | String e r' =>
                let plain (x : ascii) :=
                  match string_body fuel' r' with
                  | Some (b, rest) => Some (String x b, rest)
                  | None => None
                  end in
                if Ascii.eqb e (ascii_of_nat 34) then plain (ascii_of_nat 34)
                else if Ascii.eqb e "\" then plain "\"%char
                else if Ascii.eqb e "/" then plain "/"%char
                else if Ascii.eqb e "b" then plain (ascii_of_nat 8)
                else if Ascii.eqb e "f" then plain (ascii_of_nat 12)
                else if Ascii.eqb e "n" then plain (ascii_of_nat 10)
                else if Ascii.eqb e "r" then plain (ascii_of_nat 13)
                else if Ascii.eqb e "t" then plain (ascii_of_nat 9)
                else None
            | EmptyString => None
            end
          else if (nat_of_ascii c <? 32)%nat then None
          else
            match string_body fuel' r with
            | Some (b, rest) => Some (String c b, rest)
            | None => None
            end
      end
  end.

(** A number: an optional minus sign, an integer part without leading
    zero, an optional fraction and an optional exponent; an [int] when
    there is neither fraction nor exponent. *)
Definition number_token (s : string) : option (json * string) :=
  let '(neg, s1) :=
    match s with
    | String "-" r => (true, r)
    | _ => (false, s)
    end in
  let '(ip, r1) := Str.span Text.is_digit s1 in
  let ip_ok :=
    match ip with
    | EmptyString => false
    | String "0" (String _ _) => false
    | _ => true
    end in
  if negb ip_ok then None else
  let '(fp, r2) :=
    match r1 with
    | String "." r' =>
        match Str.span Text.is_digit r' with
        | (EmptyString, _) => (EmptyString, r1)
        | (ds, rest) => (String "." ds, rest)
        end
    | _ => (EmptyString, r1)
    end in
  let '(ep, r3) :=
    match r2 with
    | String c r' =>
        if Ascii.eqb (Text.lower_char c) "e" then
          let '(sg, r'') :=
            match r' with
            | String "+" x => ("+", x)
            | String "-" x => ("-", x)
            | _ => ("", r')
            end in
          match Str.span Text.is_digit r'' with
          | (EmptyString, _) => (EmptyString, r2)
          | (ds, rest) => ("e" +:+ sg +:+ ds, rest)
          end
        else (EmptyString, r2)
    | EmptyString => (EmptyString, r2)
    end in
  match fp, ep with
  | EmptyString, EmptyString =>
      Some (JNum (NInt (if neg then - Str.digits_val ip else Str.digits_val ip)), r3)
  | _, _ =>
      match PyFloat.of_string ((if neg then "-" else "") +:+ ip +:+ fp +:+ ep) with
      | Ok f => Some (JNum (NFloat f), r3)
      | Raise _ => None
      end
  end.

Fixpoint value (fuel : nat) (s : string) : option (json * string) :=
  match fuel with
  | O => None
  | S fuel' =>
      let s := skip_ws s in
      match s with
      | EmptyString => None
      | String c r =>
          if Ascii.eqb c (ascii_of_nat 34) then
            match string_body (String.length r) r with
            | Some (b, rest) => Some (JStr b, rest)
            | None => None
            end
          else if Ascii.eqb c "{" then
            match skip_ws r with
            | String "}" rest => Some (JDict [], rest)
            | r0 =>
                (fix members (n : nat) (acc : list (string * json)) (t : string)
                   : option (json * string) :=
                   match n with
                   | O => None
                   | S n' =>
                       match skip_ws t with
                       | String q t1 =>
                           if negb (Ascii.eqb q (ascii_of_nat 34)) then None else
                           match string_body (String.length t1) t1 with
                           | Some (k, t2) =>
                               match skip_ws t2 with
                               | String ":" t3 =>
                                   match value fuel' t3 with
                                   | Some (v, t4) =>
                                       let acc' := dict_set k v acc in
                                       match skip_ws t4 with
                                       | String "," t5 => members n' acc' t5
                                       | String "}" t5 => Some (JDict acc', t5)
                                       | _ => None
                                       end
                                   | None => None
                                   end
                               | _ => None
                               end
                           | None => None
                           end
                       | EmptyString => None
                       end
                   end) fuel' [] r0
            end
          else if Ascii.eqb c "[" then
            match skip_ws r with
            | String "]" rest => Some (JList [], rest)
            | r0 =>
                (fix items (n : nat) (acc : list json) (t : string)
                   : option (json * string) :=
                   match n with
                   | O => None
                   | S n' =>
                       match value fuel' t with
                       | Some (v, t1) =>
                           match skip_ws t1 with
                           | String "," t2 => items n' (acc ++ [v]) t2
                           | String "]" t2 => Some (JList (acc ++ [v]), t2)
                           | _ => None
                           end
                       | None => None
                       end
                   end) fuel' [] r0
            end
          else
            match Str.strip_prefix "null" s with
            | Some rest => Some (JNull, rest)
            | None =>
            match Str.strip_prefix "true" s with
            | Some rest => Some (JBool true, rest)
            | None =>
            match Str.strip_prefix "false" s with
            | Some rest => Some (JBool false, rest)
            | None =>
            match Str.strip_prefix "NaN" s with
            | Some rest => Some (JNum (NFloat NaN), rest)
            | None =>
            match Str.strip_prefix "Infinity" s with
            | Some rest => Some (JNum (NFloat PosInf), rest)
            | None =>
            match Str.strip_prefix "-Infinity" s with
            | Some rest => Some (JNum (NFloat NegInf), rest)
            | None => number_token s
            end end end end end end
      end
  end.

Definition json_loads (s : string) : result json :=
  match value (S (String.length s)) s with
  | Some (v, rest) =>
      match skip_ws rest with
      | EmptyString => Ok v
      | _ => Raise JSONDecodeError
      end
  | None => Raise JSONDecodeError
  end.

(** [str(v)] of the floats that are not finite. *)
Definition repr (v : json) : string :=
  match v with
  | JNum (NFloat PosInf) => "inf"
  | JNum (NFloat NegInf) => "-inf"
  | JNum (NFloat NaN) => "nan"
  | _ => "..."
  end.

Definition pf : platform :=
  mk_platform (fun _ => 0) None [] json_loads repr
              (fun _ _ => Raise (OtherException "ParseError"))
              (fun _ _ => Ok None) (fun _ _ => Ok []) None
              (fun _ => Raise ValueError).

End Reference.

(** The current instant obtained by the check of [id], if any: the
    value returned by [fetch_current_timestamp] of the handler that the
    registry builds for [id]. *)
Definition current_instant (w : world) (s : Sentinel) (id : string)
  : option datetime :=
  match get_handler (registry s) id with
  | Ok (Some h) =>
      match fo_value (w_fetch w h) with
      | Ok (Some t) => Some t
      | _ => None
      end
  | _ => None
  end.

(** ** Sample data used by the examples *)

Definition to_outcome (r : result (option datetime) * hstate) : fetch_outcome :=
  mk_fetch_outcome (fst r) (_raw_timestamp (snd r)) (_etag (snd r))
                   (_page_content (snd r)).

(** A world in which every handler is the package [APIHandler] talking
    to [net]. *)
Definition api_world (pf : platform) (net : network) (now : datetime) (ok : bool)
  : world :=
  mk_world pf now ok (fun h => to_outcome (API.fetch_current_timestamp pf net h)).

Module Sample.

Definition instant : datetime := mk_datetime 2025 1 15 10 30 0 0.
Definition now : datetime := mk_datetime 2025 6 1 12 0 0 250000.

Definition json_object (key value : string) : string :=
  "{" +:+ Repr.dq +:+ key +:+ Repr.dq +:+ ": " +:+ value +:+ "}".

(** One source, [src], read through the JSON API. *)
Definition registry : SourceRegistry :=
  mk_SourceRegistry
    {[ "src" := {[ "method" := CStr "api";
                   "data_url" := CStr "https://example.org/meta";
                   "import_name" := CStr "Example" ]} ]}
    ∅.

(** A state in which [instant] is stored for [src]. *)
Definition stored : StateManager :=
  update_timestamp now true (StateManager_init None) "src" instant None None.

Definition sentinel : Sentinel := mk_Sentinel registry stored None.

(** [instant] as an aware datetime in UTC: what
    [parsedate_to_datetime] returns for the header
    [Wed, 15 Jan 2025 10:30:00 GMT]. *)
Definition instant_utc : datetime := with_utcoffset instant (Some 0).

(** A state in which [instant_utc] is stored for [src]: the entry holds
    the text [2025-01-15T10:30:00+00:00]. *)
Definition stored_utc : StateManager :=
  update_timestamp now true (StateManager_init None) "src" instant_utc
                   (Some "Wed, 15 Jan 2025 10:30:00 GMT") None.

Definition sentinel_utc : Sentinel := mk_Sentinel registry stored_utc None.

(** A server that answers every request with the given JSON body. *)
Definition serve (body : string) : network :=
  fun _ _ => Response (mk_response 200 body []).

(** The body [{"updated_at": 1e400}]. *)
Definition overflow_body : string := json_object "updated_at" "1e400".

(** The body [{"updated_at": 100000000000000000000000000000}]. *)
Definition huge_body : string :=
  json_object "updated_at" "100000000000000000000000000000".

(** The body [{"updated_at": 1750000000}] (2025-06-15 15:06:40 UTC). *)
Definition fresh_body : string := json_object "updated_at" "1750000000".

(** A verifier whose service replies with the given text. *)
Definition replying (reply : string) : GroqVerifier :=
  mk_GroqVerifier (Some (fun _ => Ok (Some reply))).

(** The handler the registry builds for [src]. *)
Definition api_handler : handler :=
  mk_handler APIHandler
    {[ "method" := CStr "api";
       "data_url" := CStr "https://example.org/meta";
       "import_name" := CStr "Example";
       "dcid" := CStr "src" ]}
    ∅.

(** The same source, configured with [http_method: POST]. *)
Definition post_handler : handler :=
  mk_handler APIHandler
    {[ "method" := CStr "api";
       "data_url" := CStr "https://example.org/meta";
       "http_method" := CStr "POST";
       "dcid" := CStr "src" ]}
    ∅.

(** A server that answers 405 to GET and serves [fresh_body] to every
    other method. *)
Definition get_not_allowed : network :=
  fun _ m =>
    if String.eqb m "GET" then Response (mk_response 405 "" [])
    else Response (mk_response 200 fresh_body []).

(** A server that refuses every request with 405. *)
Definition refuse_all : network :=
  fun _ _ => Response (mk_response 405 "" []).

(** No server can be reached. *)
Definition offline : network := fun _ _ => NetError.

(** The reference platform with a regex engine whose [findall]
    returns the given matches for every pattern. *)
Definition with_findall (ms : list string) : platform :=
  mk_platform (local_utcoffset Reference.pf) (dateutil Reference.pf)
              (tznames Reference.pf) (json_loads Reference.pf)
              (py_repr Reference.pf) (xml_find Reference.pf)
              (re_search Reference.pf) (fun _ _ => Ok ms)
              (BeautifulSoup Reference.pf) (parsedate_to_datetime Reference.pf).

(** A source scraped with the browser, with one selector. *)
Definition selenium_handler : handler :=
  mk_handler SeleniumHandler
    {[ "method" := CStr "selenium";
       "data_url" := CStr "https://example.org/page";
       "selector" := CStr ".updated";
       "dcid" := CStr "page" ]}
    ∅.

(** A page on which the selector finds one element with the given
    text, and whose body has no text. *)
Definition page (element_text : string) : browser :=
  mk_browser (Ok tt) (Ok tt) (Ok tt) (Ok "<html></html>")
             (fun _ => Ok [element_text]) (Ok "") (Ok tt).

End Sample.

(** Every GET fails in transport or with an error status. *)
Definition transport_fails (net : network) : Prop :=
  forall i, match net i "GET" with
            | NetError => True
            | Response r => status_is_error r = true
            end.

(** [a] is an initial segment of [b]. *)
Definition is_prefix (a b : list string) : Prop := exists rest, b = a ++ rest.

(** Every request is refused with 405. *)
Definition always_405 (net : network) : Prop :=
  forall i m, exists r, net i m = Response r /\ status_code r = 405.

(** * Further definitions *)

(** [Sentinel.check_all_sources]: [ids] is [registry.list_sources()]
    (the keys of the configuration, in file order); the [k]-th check runs
    in the world [w k] (the clock and the network move on between two
    checks); an exception that escapes one check ends the loop. *)
Fixpoint check_all_from (w : nat -> world) (k : nat) (s : Sentinel)
    (ids : list string) : result (list CheckResult) * StateManager :=
  match ids with
  | [] => (Ok [], state_manager s)
  | id :: rest =>
      match check_for_updates (w k) s id with
      | (Raise e, sm) => (Raise e, sm)
      | (Ok r, sm) =>
          match check_all_from w (S k) (mk_Sentinel (registry s) sm (verifier s)) rest with
          | (Ok rs, sm') => (Ok (r :: rs), sm')
          | (Raise e, sm') => (Raise e, sm')
          end
      end
  end.

Definition check_all_sources (w : nat -> world) (s : Sentinel) (ids : list string)
  : result (list CheckResult) * StateManager :=
  check_all_from w 0 s ids.

(** The sentinel after a check: the same registry and verifier, the
    state manager the check left. *)
Definition after_check (w : world) (s : Sentinel) (id : string) : Sentinel :=
  mk_Sentinel (registry s) (snd (check_for_updates w s id)) (verifier s).

(** [CheckResult.is_success]: [self.error is None]. *)
Definition is_success (r : CheckResult) : bool :=
  match error r with None => true | Some _ => false end.

(** [CheckResult.status]: ['error'] for a non-empty error text, else
    ['updated'] or ['unchanged']. *)
Definition status (r : CheckResult) : string :=
  if match error r with Some e => Text.truthy e | None => false end then "error"
  else if changed r then "updated" else "unchanged".

(** The truth value of [r.error]: a non-empty text. *)
Definition has_error (r : CheckResult) : bool :=
  match error r with Some e => Text.truthy e | None => false end.

(** The summary line of scripts/run_check.py: the numbers of updated,
    unchanged and failed sources, the second one by subtraction. *)
Definition summary (results : list CheckResult) : Z * Z * Z :=
  let updated := Z.of_nat (length (List.filter changed results)) in
  let errors := Z.of_nat (length (List.filter has_error results)) in
  (updated, Z.of_nat (length results) - updated - errors, errors).

Module SampleState.

(** A state in which [Sample.instant] is stored for [src] together with
    the header it was read from and an ETag. *)
Definition stored_with_raw : StateManager :=
  update_timestamp Sample.now true (StateManager_init None) "src" Sample.instant
                   (Some "Wed, 15 Jan 2025 10:30:00 GMT") (Some "v1").

(** A state in which [Sample.instant] is stored for another source,
    [other]. *)
Definition stored_elsewhere : StateManager :=
  update_timestamp Sample.now true (StateManager_init None) "other" Sample.instant
                   None None.

(** A configuration whose only source gives a list as its method. *)
Definition list_method_registry : SourceRegistry :=
  mk_SourceRegistry
    {[ "src" := {[ "method" := CList ["api"; "cli"];
                   "data_url" := CStr "https://example.org/meta" ]} ]}
    ∅.

End SampleState.

(** A value stored in [data] under one of [fields], at a place the
    search of [_find_timestamp_value] can reach: a key of an object, a
    member of an object, the first item of an array. *)
Inductive reachable (fields : list cval) (v : json) : json -> Prop :=
| reachable_key (d : list (string * json)) (f : string) :
    In (CStr f) fields -> dict_get f d = Some v -> reachable fields v (JDict d)
| reachable_member (d : list (string * json)) (k : string) (x : json) :
    In (k, x) d -> reachable fields v x -> reachable fields v (JDict d)
| reachable_first (x : json) (l : list json) :
    reachable fields v x -> reachable fields v (JList (x :: l)).

(** Size of a decoded value, for inductions on nested values. *)
Fixpoint json_size (v : json) : nat :=
  match v with
  | JList l => S (list_sum (map json_size l))
  | JDict d => S (list_sum (map (fun kv => json_size (snd kv)) d))
  | _ => 1%nat
  end.

(** The invariant: the handler returned [d] and recorded as raw
    timestamp a text that the parser reads as [d]. *)
Definition raw_parses_to (parse : string -> result (option datetime))
    (d : datetime) (st : hstate) : Prop :=
  exists c, _raw_timestamp st = Some c /\ Text.truthy c = true /\
            parse c = Ok (Some d).


(** [c] does not occur in [s]. *)
Definition no_char (c : ascii) (s : string) : Prop :=
  Text.all_chars (fun a => negb (Ascii.eqb a c)) s = true.

Module SamplePages.

(** A parsed page whose only dated element is [<time>text</time>]. *)
Definition time_soup (element_text : string) : soup :=
  mk_soup (fun _ => Ok []) [mk_element element_text []] (fun _ => [])
          (fun _ _ => None).

(** The reference platform with BeautifulSoup installed; every page
    parses to the given document. *)
Definition with_soup (sp : soup) : platform :=
  mk_platform (local_utcoffset Reference.pf) (dateutil Reference.pf)
              (tznames Reference.pf) (json_loads Reference.pf)
              (py_repr Reference.pf) (xml_find Reference.pf)
              (re_search Reference.pf) (re_findall Reference.pf)
              (Some (fun _ => Ok sp)) (parsedate_to_datetime Reference.pf).

(** A source scraped with BeautifulSoup. *)
Definition bs4_handler : handler :=
  mk_handler BS4Handler
    {[ "method" := CStr "beautifulsoup";
       "data_url" := CStr "https://example.org/page";
       "dcid" := CStr "page" ]}
    ∅.

(** A page like [Sample.page] whose driver fails to quit. *)
Definition quit_fails (element_text : string) : browser :=
  mk_browser (Ok tt) (Ok tt) (Ok tt) (Ok "<html></html>")
             (fun _ => Ok [element_text]) (Ok "") (Raise OSError).

(** The reference platform with a [dateutil] that overflows on every
    text. *)
Definition dateutil_overflows : platform :=
  mk_platform (local_utcoffset Reference.pf) (Some (fun _ => Raise OverflowError))
              (tznames Reference.pf) (json_loads Reference.pf)
              (py_repr Reference.pf) (xml_find Reference.pf)
              (re_search Reference.pf) (re_findall Reference.pf)
              (BeautifulSoup Reference.pf) (parsedate_to_datetime Reference.pf).

End SamplePages.

(** ** handlers/http_handler.py *)

Module HTTP.

(** The last resort of [fetch_current_timestamp]: the [Date] header. *)
Definition from_date (pf : platform) (r : response) (st : hstate)
  : result (option datetime) * hstate :=
  match Main.header_get "Date" (headers r) with
  | Some date_header =>
      if Text.truthy date_header then
        let st1 := set_raw date_header st in
        match parsedate_to_datetime pf date_header with
        | Ok d => (Ok (Some d), st1)
        | Raise e =>
            if Main.parsedate_caught e then (Ok None, st1) else (Raise e, st1)
        end
      else (Ok None, st)
  | None => (Ok None, st)
  end.

(** What follows a missing or unreadable [Last-Modified]: the [ETag] is
    recorded, then the [Date] header is tried. *)
Definition from_etag_and_date (pf : platform) (r : response) (st : hstate)
  : result (option datetime) * hstate :=
  let st1 :=
    match Main.header_get "ETag" (headers r) with
    | Some etag => if Text.truthy etag then set_etag etag st else st
    | None => st
    end in
  from_date pf r st1.

(** What is done with a successful response; only [ValueError] and
    [TypeError] of [parsedate_to_datetime] are caught. *)
Definition from_response (pf : platform) (r : response) (st : hstate)
  : result (option datetime) * hstate :=
  match Main.header_get "Last-Modified" (headers r) with
  | Some last_modified =>
      if Text.truthy last_modified then
        let st1 := set_raw last_modified st in
        match parsedate_to_datetime pf last_modified with
        | Ok d => (Ok (Some d), st1)
        | Raise e =>
            if Main.parsedate_caught e then from_etag_and_date pf r st1
            else (Raise e, st1)
        end
      else from_etag_and_date pf r st
  | None => from_etag_and_date pf r st
  end.

(** The retry loop with [n] attempts left.  Every request is a HEAD. *)
Fixpoint attempts (pf : platform) (net : network) (n : nat) (st : hstate)
  : result (option datetime) * hstate :=
  match n with
  | O => (Ok None, st)
  | S n' =>
      match send net "HEAD" st with
      | (NetError, st1) => attempts pf net n' st1
      | (Response r, st1) =>
          if status_is_error r then attempts pf net n' st1
          else from_response pf r st1
      end
  end.

Definition fetch_current_timestamp (pf : platform) (net : network) (h : handler)
  : result (option datetime) * hstate :=
  if negb (opt_truthy (h_config h !! "data_url")) then (Ok None, hstate_init)
  else
    match py_range (max_retries h) with
    | Raise e => (Raise e, hstate_init)
    | Ok n => attempts pf net n hstate_init
    end.

End HTTP.

(** ** handlers/cli_handler.py *)

(** [subprocess.run(...)]: the command times out, the call raises
    something else, or the command ends with a return code and its
    output. *)
Inductive run_outcome : Type :=
| TimeoutExpired
| RunError (e : exn)
| Completed (returncode : Z) (stdout : string).

Module CLI.

(** The text after the first [c] of [s]: [s.split(c, 1)[1]], [None]
    where that index does not exist. *)
Fixpoint after_first (c : ascii) (s : string) : option string :=
  match s with
  | EmptyString => None
  | String a r => if Ascii.eqb a c then Some r else after_first c r
  end.

(** The first line whose lower-cased form starts with [name]. *)
Fixpoint find_line (name : string) (lines : list string) : option string :=
  match lines with
  | [] => None
  | line :: rest =>
      match Str.strip_prefix name (Text.lower line) with
      | Some _ => Some line
      | None => find_line name rest
      end
  end.

(** What is done with a header line that was found: the value is read
    by [parsedate_to_datetime], and by the date parser if that raises
    [ValueError] or [TypeError]. *)
Definition header_result (pf : platform) (line : string) (st : hstate)
  : result (option datetime) * hstate :=
  match after_first ":" line with
  | None => (Raise IndexError, st)
  | Some rest =>
      let value := Str.strip rest in
      let st1 := set_raw value st in
      match parsedate_to_datetime pf value with
      | Ok d => (Ok (Some d), st1)
      | Raise e =>
          if Main.parsedate_caught e then (DateParser.parse pf value, st1)
          else (Raise e, st1)
      end
  end.

Definition lines (output : string) : list string :=
  Scrape.split_char (ascii_of_nat 10) (Str.strip output).

Definition _parse_headers (pf : platform) (output : string) (st : hstate)
  : result (option datetime) * hstate :=
  match find_line "last-modified:" (lines output) with
  | Some line => header_result pf line st
  | None =>
      match find_line "date:" (lines output) with
      | Some line => header_result pf line st
      | None => (Ok None, st)
      end
  end.

(** The command line handed to the shell. *)
Definition full_command (cfg : gmap string cval) : string :=
  Repr.cval_str (default (CStr "curl -sI") (cfg !! "command")) +:+ " " +:+
  Repr.dq +:+ Repr.cval_str (default (CStr "") (cfg !! "data_url")) +:+ Repr.dq.

(** [fetch_current_timestamp]: everything from the call of the shell on
    is under [try ... except Exception: return None]. *)
Definition fetch_current_timestamp (pf : platform) (run : string -> run_outcome)
    (h : handler) : result (option datetime) * hstate :=
  if negb (opt_truthy (h_config h !! "data_url")) then (Ok None, hstate_init)
  else
    match run (full_command (h_config h)) with
    | TimeoutExpired => (Ok None, hstate_init)
    | RunError _ => (Ok None, hstate_init)
    | Completed returncode stdout =>
        if negb (returncode =? 0) then (Ok None, hstate_init)
        else
          match _parse_headers pf stdout hstate_init with
          | (Raise _, st) => (Ok None, st)
          | ok => ok
          end
    end.

End CLI.

(** Every HEAD request fails in transport or with an error status. *)
Definition head_fails (net : network) : Prop :=
  forall i, match net i "HEAD" with
            | NetError => True
            | Response r => status_is_error r = true
            end.

(** The [Last-Modified] header of [r] is missing, empty, or rejected by
    [parsedate_to_datetime]. *)
Definition last_modified_unusable (pf : platform) (r : response) : Prop :=
  match Main.header_get "Last-Modified" (headers r) with
  | Some last_modified =>
      last_modified = "" \/ exists e, parsedate_to_datetime pf last_modified = Raise e
  | None => True
  end.

Module SampleHeaders.

(** The reference platform with a [parsedate_to_datetime] that reads
    the fixed-length date of RFC 7231 ([Wed, 15 Jan 2025 10:30:00 GMT]),
    as an aware datetime in UTC, and raises [ValueError] on everything
    else. *)
Definition with_parsedate : platform :=
  mk_platform (local_utcoffset Reference.pf) (dateutil Reference.pf)
              (tznames Reference.pf) (json_loads Reference.pf)
              (py_repr Reference.pf) (xml_find Reference.pf)
              (re_search Reference.pf) (re_findall Reference.pf)
              (BeautifulSoup Reference.pf)
              (fun s =>
                 match Strptime.strptime Reference.pf s "%a, %d %b %Y %H:%M:%S GMT" with
                 | Some d => Ok (with_utcoffset d (Some 0))
                 | None => Raise ValueError
                 end).

(** A source read with HEAD requests. *)
Definition http_handler : handler :=
  mk_handler HTTPHandler
    {[ "method" := CStr "http_head";
       "data_url" := CStr "https://example.org/data.csv";
       "dcid" := CStr "file" ]}
    ∅.

(** A server that answers every request with the given headers. *)
Definition serve_headers (hs : list (string * string)) : network :=
  fun _ _ => Response (mk_response 200 "" hs).

(** A source read with curl. *)
Definition cli_handler : handler :=
  mk_handler CLIHandler
    {[ "method" := CStr "cli";
       "data_url" := CStr "https://example.org/data.csv";
       "dcid" := CStr "file" ]}
    ∅.

Definition crlf : string :=
  String (ascii_of_nat 13) (String (ascii_of_nat 10) EmptyString).

(** The output of [curl -sI] for a file last modified on 15 January
    2025. *)
Definition curl_output : string :=
  "HTTP/1.1 200 OK" +:+ crlf +:+
  "Date: Sun, 01 Jun 2025 12:00:00 GMT" +:+ crlf +:+
  "Last-Modified: Wed, 15 Jan 2025 10:30:00 GMT" +:+ crlf +:+ crlf.

(** A shell in which every command succeeds with the given output. *)
Definition shell (output : string) : string -> run_outcome :=
  fun _ => Completed 0 output.

End SampleHeaders.

(** The loop of [Strptime.match_tokens] over the alternatives of one
    token, as a function of its own. *)
Fixpoint first_match (pf : platform) (ts : list Strptime.tok)
    (l : list (Strptime.fields * string)) : option (Strptime.fields * string) :=
  match l with
  | [] => None
  | (f', r) :: l' =>
      match Strptime.match_tokens pf ts f' r with
      | Some res => Some res
      | None => first_match pf ts l'
      end
  end.

(** A token that cannot start at a digit: a blank, or a literal that is
    no digit. *)
Definition rejects_digits (t : Strptime.tok) : bool :=
  match t with
  | Strptime.TLit c =>
      forallb (fun k => negb (Ascii.eqb (Text.lower_char (Text.digit_char k))
                                         (Text.lower_char c)))
              [0; 1; 2; 3; 4; 5; 6; 7; 8; 9]
  | Strptime.TSpace => true
  | Strptime.TDir _ => false
  end.

(** [DateParser.format_datetime(dt)] with the default format,
    ["%Y-%m-%d %H:%M:%S"]. *)
Definition format_datetime (d : datetime) : string := Main.strftime_seconds d.

(** [dt.replace(microsecond=0)]. *)
Definition whole_second (d : datetime) : datetime :=
  mk_datetime_tz (year d) (month d) (day d) (hour d) (minute d) (second d) 0
                 (utcoffset d).

(** Every blank of [s] is a single space followed by a character that
    is no blank. *)
Fixpoint single_spaced (s : string) : bool :=
  match s with
  | EmptyString => true
  | String c r =>
      (if Text.is_space c
       then Ascii.eqb c " " &&
            match r with
            | String c' _ => negb (Text.is_space c')
            | EmptyString => false
            end
       else true) && single_spaced r
  end.

(** A text that starts with a digit, ends with a character that is
    neither a blank nor a [T], and is single-spaced: the cleaning step
    has nothing to remove from it. *)
Definition bare (s : string) : Prop :=
  (exists k r, 0 <= k < 10 /\ s = String (Text.digit_char k) r) /\
  (exists c r, Str.rev s = String c r /\ Text.is_space c = false /\
               Ascii.eqb "T" c = false) /\
  single_spaced s = true.

(** The labels [_clean_date_string] removes, as they are usually
    written. *)
Definition labels : list string :=
  ["Last Updated: "; "Last Modified: "; "Updated: "; "Modified: "; "Date: ";
   "As of: "].

(** What [dateutil] does with a text does not stand in the way of the
    reading [d]: it is not installed, it reads the text as [d], or it
    rejects it with an exception [parse] catches. *)
Definition dateutil_agrees (pf : platform) (s : string) (d : datetime) : Prop :=
  match dateutil pf with
  | None => True
  | Some p =>
      p s = Ok d \/ exists e, p s = Raise e /\ DateParser.dateutil_caught e = true
  end.

(** ** utils/groq_verifier.py: [verify_with_headers] *)

Module HeaderVerifier.

(** ["\n".join(f"{k}: {v}" ...)] over the headers. *)
Definition headers_str (http_headers : list (string * string)) : string :=
  String.concat Repr.nl (map (fun kv => fst kv +:+ ": " +:+ snd kv) http_headers).

Definition prompt (extracted_timestamp : string)
    (http_headers : list (string * string)) (source_name : string) : string :=
  "Verify if this extracted timestamp matches the HTTP headers." +:+ Repr.nl +:+
  Repr.nl +:+
  "**Source:** " +:+ source_name +:+ Repr.nl +:+
  "**Extracted Timestamp:** " +:+ extracted_timestamp +:+ Repr.nl +:+
  Repr.nl +:+
  "**HTTP Headers:**" +:+ Repr.nl +:+
  "```" +:+ Repr.nl +:+ headers_str http_headers +:+ Repr.nl +:+ "```" +:+ Repr.nl +:+
  Repr.nl +:+
  "Check if the extracted timestamp matches the " +:+ Repr.dq +:+ "Last-Modified" +:+
  Repr.dq +:+ " header or other date-related headers." +:+ Repr.nl +:+
  "Respond in JSON format: {" +:+ Repr.dq +:+ "is_verified" +:+ Repr.dq +:+ ": bool, " +:+
  Repr.dq +:+ "confidence" +:+ Repr.dq +:+ ": float, " +:+
  Repr.dq +:+ "reasoning" +:+ Repr.dq +:+ ": str, " +:+
  Repr.dq +:+ "correct_timestamp" +:+ Repr.dq +:+ ": str or null}".

(** [verify_with_headers]: every exception of the service call and of
    [_parse_response] is caught. *)
Definition verify_with_headers (pf : platform) (v : GroqVerifier)
    (extracted_timestamp : string) (http_headers : list (string * string))
    (source_name : string) : result verification :=
  match client v with
  | None =>
      Ok (Verifier.unknown "Groq client not available" "GROQ_API_KEY not configured")
  | Some create =>
      match rbind (create (prompt extracted_timestamp http_headers source_name))
                  (Verifier._parse_response pf) with
      | Ok r => Ok r
      | Raise e => Ok (Verifier.unknown (Repr.exn_str e) (Repr.exn_str e))
      end
  end.

End HeaderVerifier.

(** * Properties *)

(** ** The order on datetimes *)

Lemma lex_compare_refl (a : list Z) : lex_compare a a = Eq.
Proof.
  induction a as [|x a IH]; simpl; [reflexivity|].
  rewrite Z.compare_refl. exact IH.
Qed.

Lemma lex_compare_antisym (a b : list Z) :
  lex_compare a b = CompOpp (lex_compare b a).
Proof.
  revert b. induction a as [|x a IH]; intros [|y b]; simpl; try reflexivity.
  rewrite (Z.compare_antisym y x).
  destruct (y ?= x); simpl; auto.
Qed.

Lemma lex_compare_eq (a b : list Z) :
  length a = length b -> lex_compare a b = Eq -> a = b.
Proof.
  revert b. induction a as [|x a IH]; intros [|y b] Hlen H; simpl in *;
    try discriminate; [reflexivity|].
  destruct (Z.compare_spec x y) as [-> | |]; try discriminate.
  f_equal. apply IH; congruence.
Qed.

Lemma lex_compare_lt_trans (a b c : list Z) :
  lex_compare a b = Lt -> lex_compare b c = Lt -> lex_compare a c = Lt.
Proof.
  revert b c.
  induction a as [|x a IH]; intros [|y b] [|z c]; simpl; try discriminate; auto.
  intros H1 H2.
  destruct (Z.compare_spec x y) as [Hxy|Hxy|Hxy]; try discriminate;
    destruct (Z.compare_spec y z) as [Hyz|Hyz|Hyz]; try discriminate;
    destruct (Z.compare_spec x z) as [Hxz|Hxz|Hxz]; try lia; eauto.
Qed.

Lemma datetime_compare_fields (a b : datetime) :
  datetime_compare a b = Eq -> datetime_fields a = datetime_fields b.
Proof. intros H. now apply lex_compare_eq in H. Qed.

Lemma datetime_compare_eq (a b : datetime) :
  datetime_compare a b = Eq -> utcoffset a = utcoffset b -> a = b.
Proof.
  intros H Ho. apply datetime_compare_fields in H.
  destruct a, b. unfold datetime_fields in H. simpl in *. congruence.
Qed.

(** [datetime_lt] is a strict total order: "strictly earlier". *)
Lemma datetime_lt_irrefl (a : datetime) : ~ datetime_lt a a.
Proof.
  unfold datetime_lt, datetime_compare. rewrite lex_compare_refl. discriminate.
Qed.

Lemma datetime_lt_trans (a b c : datetime) :
  datetime_lt a b -> datetime_lt b c -> datetime_lt a c.
Proof. apply lex_compare_lt_trans. Qed.

Lemma datetime_lt_cases (a b : datetime) :
  datetime_lt a b \/ datetime_fields a = datetime_fields b \/ datetime_lt b a.
Proof.
  unfold datetime_lt.
  destruct (datetime_compare a b) eqn:E.
  - right; left. now apply datetime_compare_fields.
  - now left.
  - right; right. unfold datetime_compare in *.
    rewrite lex_compare_antisym, E. reflexivity.
Qed.

Lemma datetime_lt_total (a b : datetime) :
  utcoffset a = utcoffset b ->
  datetime_lt a b \/ a = b \/ datetime_lt b a.
Proof.
  intros Ho. unfold datetime_lt.
  destruct (datetime_compare a b) eqn:E.
  - right; left. now apply datetime_compare_eq.
  - now left.
  - right; right. unfold datetime_compare in *.
    rewrite lex_compare_antisym, E. reflexivity.
Qed.

Lemma datetime_gtb_lt (c s : datetime) :
  datetime_gtb c s = true <-> datetime_lt s c.
Proof.
  unfold datetime_gtb, datetime_lt, datetime_compare.
  rewrite (lex_compare_antisym (datetime_fields s)).
  destruct (lex_compare (datetime_fields c) (datetime_fields s)); simpl;
    split; intros; congruence.
Qed.

Lemma datetime_gtb_irrefl (c : datetime) : datetime_gtb c c = false.
Proof.
  unfold datetime_gtb, datetime_compare. now rewrite lex_compare_refl.
Qed.

(** *** The order of datetimes is the order of instants *)

Lemma year_length (y : Z) :
  days_before_year (y + 1) - days_before_year y = 365 + (if is_leap y then 1 else 0).
Proof.
  unfold days_before_year, is_leap. cbv zeta.
  replace (y + 1 - 1) with y by lia.
  destruct (y mod 4 =? 0) eqn:E4; destruct (y mod 100 =? 0) eqn:E100;
    destruct (y mod 400 =? 0) eqn:E400; simpl;
    rewrite ?Z.eqb_eq, ?Z.eqb_neq in *;
    Z.div_mod_to_equations; lia.
Qed.

Lemma days_before_year_mono (y1 y2 : Z) :
  y1 <= y2 -> days_before_year y1 <= days_before_year y2.
Proof.
  unfold days_before_year. cbv zeta. intros H.
  Z.div_mod_to_equations. lia.
Qed.

Ltac months :=
  unfold days_before_month;
  repeat match goal with
         | |- context [Z.to_nat ?e] =>
             let v := eval vm_compute in (Z.to_nat e) in change (Z.to_nat e) with v
         end;
  cbv -[is_leap Z.add Z.le Z.lt].

Lemma month_cases (m : Z) :
  1 <= m <= 12 ->
  m = 1 \/ m = 2 \/ m = 3 \/ m = 4 \/ m = 5 \/ m = 6 \/ m = 7 \/ m = 8 \/ m = 9
  \/ m = 10 \/ m = 11 \/ m = 12.
Proof. lia. Qed.

Lemma days_before_next_month (y m1 m2 : Z) :
  1 <= m1 -> m1 < m2 -> m2 <= 12 ->
  days_before_month y m1 + days_in_month y m1 <= days_before_month y m2.
Proof.
  intros H1 H12 H2.
  destruct (month_cases m1 ltac:(lia)) as [-> | [-> | [-> | [-> | [-> | [-> | [-> | [-> | [-> | [-> | [-> | ->]]]]]]]]]]];
  destruct (month_cases m2 ltac:(lia)) as [-> | [-> | [-> | [-> | [-> | [-> | [-> | [-> | [-> | [-> | [-> | ->]]]]]]]]]]];
  try lia; months; destruct (is_leap y); lia.
Qed.

Lemma days_in_year_bound (y m : Z) :
  1 <= m <= 12 ->
  0 <= days_before_month y m /\
  days_before_month y m + days_in_month y m <= 365 + (if is_leap y then 1 else 0).
Proof.
  intros H.
  destruct (month_cases m H) as [-> | [-> | [-> | [-> | [-> | [-> | [-> | [-> | [-> | [-> | [-> | ->]]]]]]]]]]];
  months; destruct (is_leap y); lia.
Qed.

Lemma valid_datetime_fields (d : datetime) :
  valid_datetime d ->
  (1 <= year d <= 9999) /\ (1 <= month d <= 12) /\
  (1 <= day d <= days_in_month (year d) (month d)) /\
  (0 <= hour d < 24) /\ (0 <= minute d < 60) /\ (0 <= second d < 60) /\
  (0 <= microsecond d < 1000000).
Proof.
  unfold valid_datetime, valid_datetimeb, valid_fieldsb. intros H.
  apply andb_prop in H. destruct H as [H _].
  repeat (apply andb_prop in H; destruct H as [H ?]). lia.
Qed.

Lemma toordinal_lt (a b : datetime) :
  valid_datetime a -> valid_datetime b ->
  year a < year b \/
  (year a = year b /\
   (month a < month b \/ (month a = month b /\ day a < day b))) ->
  toordinal a < toordinal b.
Proof.
  intros Ha Hb H.
  apply valid_datetime_fields in Ha, Hb.
  destruct Ha as (_ & Hma & Hda & _), Hb as (_ & Hmb & Hdb & _).
  unfold toordinal.
  destruct H as [Hy | [Hy [Hm | [Hm Hd]]]].
  - pose proof (days_in_year_bound (year a) (month a) Hma) as [_ Hla].
    pose proof (days_in_year_bound (year b) (month b) Hmb) as [Hlb _].
    pose proof (year_length (year a)) as Hlen.
    pose proof (days_before_year_mono (year a + 1) (year b) ltac:(lia)).
    lia.
  - rewrite Hy.
    pose proof (days_before_next_month (year b) (month a) (month b)
                  ltac:(lia) Hm ltac:(lia)).
    rewrite Hy in Hda. lia.
  - rewrite Hy, Hm. lia.
Qed.

Lemma microseconds_of_fields (a b : datetime) :
  datetime_fields a = datetime_fields b -> microseconds_of a = microseconds_of b.
Proof.
  unfold datetime_fields, microseconds_of, toordinal.
  now intros [= -> -> -> -> -> -> ->].
Qed.

(** On valid datetimes the order of the fields is the order of the
    local times on the (proleptic Gregorian) time line. *)
Lemma datetime_lt_microseconds (a b : datetime) :
  valid_datetime a -> valid_datetime b ->
  (datetime_lt a b <-> microseconds_of a < microseconds_of b).
Proof.
  assert (Hfwd : forall a b, valid_datetime a -> valid_datetime b ->
                   datetime_lt a b -> microseconds_of a < microseconds_of b).
  { clear a b. intros a b Ha Hb H.
    pose proof (toordinal_lt a b Ha Hb) as Hord.
    apply valid_datetime_fields in Ha, Hb.
    unfold datetime_lt, datetime_compare, datetime_fields in H.
    unfold microseconds_of.
    assert (Hsame : year a = year b -> month a = month b -> day a = day b ->
                    toordinal a = toordinal b).
    { unfold toordinal. intros -> -> ->. reflexivity. }
    simpl in H.
    destruct (Z.compare_spec (year a) (year b)); try discriminate;
      [|specialize (Hord ltac:(lia)); lia].
    destruct (Z.compare_spec (month a) (month b)); try discriminate;
      [|specialize (Hord ltac:(lia)); lia].
    destruct (Z.compare_spec (day a) (day b)); try discriminate;
      [|specialize (Hord ltac:(lia)); lia].
    rewrite (Hsame ltac:(assumption) ltac:(assumption) ltac:(assumption)).
    destruct (Z.compare_spec (hour a) (hour b)); try discriminate; [|lia].
    destruct (Z.compare_spec (minute a) (minute b)); try discriminate; [|lia].
    destruct (Z.compare_spec (second a) (second b)); try discriminate; [|lia].
    destruct (Z.compare_spec (microsecond a) (microsecond b)); try discriminate.
    lia. }
  intros Ha Hb. split; [apply Hfwd; assumption|].
  intros Hlt.
  destruct (datetime_lt_cases a b) as [H | [H | H]]; [exact H| |].
  - apply microseconds_of_fields in H. lia.
  - apply Hfwd in H; [lia|assumption|assumption].
Qed.

Lemma datetime_compare_microseconds (a b : datetime) :
  valid_datetime a -> valid_datetime b ->
  datetime_compare a b = Z.compare (microseconds_of a) (microseconds_of b).
Proof.
  intros Ha Hb. symmetry.
  destruct (datetime_lt_cases a b) as [H | [H | H]].
  - pose proof (proj1 (datetime_lt_microseconds a b Ha Hb) H).
    unfold datetime_lt in H. rewrite H. now apply Z.compare_lt_iff.
  - pose proof (microseconds_of_fields a b H) as Hm.
    unfold datetime_compare. rewrite H, lex_compare_refl.
    now apply Z.compare_eq_iff.
  - pose proof (proj1 (datetime_lt_microseconds b a Hb Ha) H).
    unfold datetime_lt, datetime_compare in *.
    rewrite lex_compare_antisym, H. simpl. now apply Z.compare_gt_iff.
Qed.

(** Two valid datetimes that are both naive or both aware are ordered
    as the instants they denote. *)
Lemma datetime_cmp_instant (a b : datetime) :
  valid_datetime a -> valid_datetime b ->
  (utcoffset a = None <-> utcoffset b = None) ->
  datetime_cmp a b = Ok (Z.compare (instant_of a) (instant_of b)).
Proof.
  intros Ha Hb Hsame. unfold datetime_cmp, instant_of.
  destruct (utcoffset a) as [oa|] eqn:Ea, (utcoffset b) as [ob|] eqn:Eb; simpl.
  - destruct (Z.eqb_spec oa ob) as [->|Hne]; [|reflexivity].
    rewrite (datetime_compare_microseconds a b Ha Hb). f_equal.
    rewrite (Z.compare_sub (_ - ob)), (Z.compare_sub (microseconds_of a)).
    f_equal. lia.
  - destruct Hsame as [_ H]. now specialize (H eq_refl).
  - destruct Hsame as [H _]. now specialize (H eq_refl).
  - rewrite (datetime_compare_microseconds a b Ha Hb), !Z.sub_0_r. reflexivity.
Qed.

Lemma datetime_cmp_mixed (a b : datetime) :
  ~ (utcoffset a = None <-> utcoffset b = None) ->
  datetime_cmp a b = Raise TypeError.
Proof.
  intros H. unfold datetime_cmp.
  destruct (utcoffset a), (utcoffset b); try reflexivity; exfalso; apply H;
    split; congruence.
Qed.

Lemma datetime_cmp_refl (a : datetime) : datetime_cmp a a = Ok Eq.
Proof.
  unfold datetime_cmp, datetime_compare.
  destruct (utcoffset a); [rewrite Z.eqb_refl|]; now rewrite lex_compare_refl.
Qed.

Lemma datetime_gt_instant (a b : datetime) :
  valid_datetime a -> valid_datetime b ->
  (utcoffset a = None <-> utcoffset b = None) ->
  datetime_gt a b = Ok (instant_of b <? instant_of a).
Proof.
  intros Ha Hb Hsame. unfold datetime_gt.
  rewrite (datetime_cmp_instant a b Ha Hb Hsame). simpl. f_equal.
  rewrite Z.ltb_compare, (Z.compare_antisym (instant_of a)).
  now destruct (instant_of a ?= instant_of b).
Qed.

Lemma datetime_gt_naive (a b : datetime) :
  utcoffset a = None -> utcoffset b = None ->
  datetime_gt a b = Ok (datetime_gtb a b).
Proof.
  intros Ha Hb. unfold datetime_gt, datetime_cmp. now rewrite Ha, Hb.
Qed.

(** ** C1: the comparison policy *)



(** ** [isoformat] and [fromisoformat] *)

Lemma append_cons (c : ascii) (s r : string) :
  String c s +:+ r = String c (s +:+ r).
Proof. reflexivity. Qed.

Lemma append_nil (r : string) : "" +:+ r = r.
Proof. reflexivity. Qed.

Lemma append_nil_r (s : string) : s +:+ "" = s.
Proof.
  induction s as [|c s IH]; [reflexivity|]. rewrite append_cons. now rewrite IH.
Qed.

Lemma append_assoc (a b c : string) : a +:+ (b +:+ c) = (a +:+ b) +:+ c.
Proof.
  induction a as [|x a IH]; [reflexivity|]. rewrite !append_cons. now rewrite IH.
Qed.

Ltac str_norm := repeat (rewrite append_cons || rewrite append_nil).

Lemma digit_char_spec (d : Z) :
  0 <= d < 10 ->
  Text.is_digit (Text.digit_char d) = true /\
  Text.digit_val (Text.digit_char d) = d /\
  Text.digit_char d <> "Z"%char.
Proof.
  intros H.
  assert (d = 0 \/ d = 1 \/ d = 2 \/ d = 3 \/ d = 4 \/ d = 5 \/ d = 6 \/ d = 7
          \/ d = 8 \/ d = 9) as Hd by lia.
  repeat (destruct Hd as [-> | Hd]; [repeat split; discriminate || reflexivity|]).
  subst; repeat split; discriminate || reflexivity.
Qed.

Lemma take_digits_acc_fmt (w : nat) (acc n : Z) (rest : string) :
  0 <= n ->
  Text.take_digits_acc w acc (Text.fmt_digits w n +:+ rest)
  = Some (acc * 10 ^ Z.of_nat w + n mod 10 ^ Z.of_nat w, rest).
Proof.
  intros Hn. revert acc.
  induction w as [|w IH]; intros acc.
  - simpl. rewrite Z.mod_1_r. do 2 f_equal. lia.
  - cbn [Text.fmt_digits]. rewrite append_cons. cbn [Text.take_digits_acc].
    set (d := (n / 10 ^ Z.of_nat w) mod 10).
    assert (0 <= d < 10) as Hd by (apply Z.mod_pos_bound; lia).
    destruct (digit_char_spec d Hd) as (-> & -> & _).
    rewrite IH. do 2 f_equal.
    rewrite Nat2Z.inj_succ, Z.pow_succ_r by lia.
    assert (0 < 10 ^ Z.of_nat w) as Hp by (apply Z.pow_pos_nonneg; lia).
    rewrite (Z.mul_comm 10 (10 ^ Z.of_nat w)).
    rewrite Z.rem_mul_r by lia.
    subst d. ring.
Qed.

Lemma take_digits_fmt (w : nat) (n : Z) (rest : string) :
  0 <= n < 10 ^ Z.of_nat w ->
  Text.take_digits w (Text.fmt_digits w n +:+ rest) = Some (n, rest).
Proof.
  intros H. unfold Text.take_digits.
  rewrite take_digits_acc_fmt by lia.
  rewrite Z.mod_small by lia. reflexivity.
Qed.

Lemma take_digits_fmt2 (n : Z) (rest : string) :
  0 <= n < 100 -> Text.take_digits 2 (Text.fmt_digits 2 n +:+ rest) = Some (n, rest).
Proof. intros H. apply take_digits_fmt. change (10 ^ Z.of_nat 2) with 100. lia. Qed.

Lemma take_digits_fmt4 (n : Z) (rest : string) :
  0 <= n < 10000 -> Text.take_digits 4 (Text.fmt_digits 4 n +:+ rest) = Some (n, rest).
Proof. intros H. apply take_digits_fmt. change (10 ^ Z.of_nat 4) with 10000. lia. Qed.

Lemma take_digits_fmt6 (n : Z) (rest : string) :
  0 <= n < 1000000 ->
  Text.take_digits 6 (Text.fmt_digits 6 n +:+ rest) = Some (n, rest).
Proof. intros H. apply take_digits_fmt. change (10 ^ Z.of_nat 6) with 1000000. lia. Qed.

Lemma replace_char_app (c : ascii) (b s t : string) :
  Text.replace_char c b (s +:+ t) = Text.replace_char c b s +:+ Text.replace_char c b t.
Proof.
  induction s as [|a s IH]; [reflexivity|].
  rewrite append_cons. cbn [Text.replace_char].
  destruct (Ascii.eqb a c); rewrite IH.
  - apply append_assoc.
  - reflexivity.
Qed.

Lemma replace_char_fmt_digits (b : string) (w : nat) (n : Z) :
  Text.replace_char "Z" b (Text.fmt_digits w n) = Text.fmt_digits w n.
Proof.
  induction w as [|w IH]; [reflexivity|].
  cbn [Text.fmt_digits Text.replace_char].
  rewrite IH.
  destruct (digit_char_spec ((n / 10 ^ Z.of_nat w) mod 10)) as (_ & _ & Hz).
  { apply Z.mod_pos_bound; lia. }
  apply Ascii.eqb_neq in Hz. now rewrite Hz.
Qed.

Lemma replace_Z_isoformat_fields (b : string) (d : datetime) :
  Text.replace_char "Z" b (isoformat_fields d) = isoformat_fields d.
Proof.
  unfold isoformat_fields.
  repeat (rewrite replace_char_app; rewrite ?replace_char_fmt_digits).
  destruct (microsecond d =? 0); [reflexivity|].
  rewrite replace_char_app, replace_char_fmt_digits. reflexivity.
Qed.

Lemma replace_Z_format_offset (b : string) (off : option Z) :
  Text.replace_char "Z" b (_format_offset off) = _format_offset off.
Proof.
  destruct off as [o|]; [|reflexivity]. unfold _format_offset. cbv zeta.
  repeat (rewrite replace_char_app; rewrite ?replace_char_fmt_digits).
  assert (forall x : bool, Text.replace_char "Z" b (if x then "-" else "+")
                           = if x then "-" else "+") as -> by (now intros []).
  destruct (_ && _); [reflexivity|].
  repeat (rewrite replace_char_app; rewrite ?replace_char_fmt_digits).
  destruct (_ =? 0); [reflexivity|].
  rewrite replace_char_app, replace_char_fmt_digits. reflexivity.
Qed.

(** No [Z] occurs in the ISO form of a datetime. *)
Lemma replace_Z_isoformat (b : string) (d : datetime) :
  Text.replace_char "Z" b (isoformat d) = isoformat d.
Proof.
  unfold isoformat.
  now rewrite replace_char_app, replace_Z_isoformat_fields, replace_Z_format_offset.
Qed.

Lemma truthy_isoformat (d : datetime) : Text.truthy (isoformat d) = true.
Proof. reflexivity. Qed.

(** The ISO form of a naive datetime has no offset part. *)
Lemma isoformat_naive (d : datetime) :
  utcoffset d = None -> isoformat d = isoformat_fields d.
Proof. intros H. unfold isoformat. rewrite H. apply append_nil_r. Qed.

Lemma valid_datetime_ranges (d : datetime) :
  valid_datetime d ->
  1 <= year d <= 9999 /\ 1 <= month d <= 12 /\ 1 <= day d <= 31 /\
  0 <= hour d < 24 /\ 0 <= minute d < 60 /\ 0 <= second d < 60 /\
  0 <= microsecond d < 1000000.
Proof.
  unfold valid_datetime, valid_datetimeb, valid_fieldsb. intros H.
  apply andb_prop in H. destruct H as [H _].
  repeat (apply andb_prop in H; destruct H as [H ?]).
  assert (days_in_month (year d) (month d) <= 31).
  { unfold days_in_month.
    repeat match goal with |- context [if ?b then _ else _] => destruct b end; lia. }
  lia.
Qed.

Lemma option_bind_Some {A B : Type} (f : A -> option B) (x : A) :
  Some x ≫= f = f x.
Proof. reflexivity. Qed.

Lemma parse_isoformat_time_fmt (h mi s us : Z) :
  0 <= h < 24 -> 0 <= mi < 60 -> 0 <= s < 60 -> 0 <= us < 1000000 ->
  _parse_hh_mm_ss_ff
    (Text.fmt_digits 2 h +:+ ":" +:+ Text.fmt_digits 2 mi +:+ ":" +:+
     Text.fmt_digits 2 s +:+
     (if us =? 0 then "" else "." +:+ Text.fmt_digits 6 us))
  = Some (h, mi, s, us).
Proof.
  intros Hh Hmi Hs Hus. unfold _parse_hh_mm_ss_ff. str_norm.
  rewrite take_digits_fmt2, option_bind_Some by lia. cbv beta iota.
  change (Ascii.eqb ":" ":") with true. cbn [negb]. cbv iota.
  rewrite take_digits_fmt2, option_bind_Some by lia. cbv beta iota.
  change (Ascii.eqb ":" ":") with true. cbn [negb]. cbv iota.
  rewrite take_digits_fmt2, option_bind_Some by lia. cbv beta iota.
  destruct (us =? 0) eqn:E.
  - apply Z.eqb_eq in E. rewrite E. reflexivity.
  - unfold parse_isoformat_fraction.
    change (Ascii.eqb "." ".") with true. cbv iota.
    change (String.length (Text.fmt_digits 6 us) =? 3)%nat with false.
    change (String.length (Text.fmt_digits 6 us) =? 6)%nat with true.
    cbv iota.
    rewrite <- (append_nil_r (Text.fmt_digits 6 us)).
    rewrite take_digits_fmt6 by lia. reflexivity.
Qed.

Lemma parse_hh_mm_fmt (h mi : Z) :
  0 <= h < 24 -> 0 <= mi < 60 ->
  _parse_hh_mm_ss_ff (Text.fmt_digits 2 h +:+ ":" +:+ Text.fmt_digits 2 mi)
  = Some (h, mi, 0, 0).
Proof.
  intros Hh Hmi. unfold _parse_hh_mm_ss_ff. str_norm.
  rewrite take_digits_fmt2, option_bind_Some by lia. cbv beta iota.
  change (Ascii.eqb ":" ":") with true. cbn [negb]. cbv iota.
  rewrite <- (append_nil_r (Text.fmt_digits 2 mi)).
  rewrite take_digits_fmt2, option_bind_Some by lia. reflexivity.
Qed.

Lemma no_char_app (c : ascii) (a b : string) :
  no_char c (a +:+ b) <-> no_char c a /\ no_char c b.
Proof.
  unfold no_char. induction a as [|x a IH].
  - rewrite append_nil. cbn [Text.all_chars]. tauto.
  - rewrite append_cons. cbn [Text.all_chars]. rewrite !andb_true_iff, IH. tauto.
Qed.

Lemma no_char_fmt_digits (c : ascii) (w : nat) (n : Z) :
  Text.is_digit c = false -> no_char c (Text.fmt_digits w n).
Proof.
  intros Hc. unfold no_char. induction w as [|w IH]; [reflexivity|].
  cbn [Text.fmt_digits Text.all_chars]. rewrite IH, andb_true_r.
  destruct (digit_char_spec ((n / 10 ^ Z.of_nat w) mod 10)) as (Hd & _ & _).
  { apply Z.mod_pos_bound; lia. }
  destruct (Ascii.eqb_spec (Text.digit_char ((n / 10 ^ Z.of_nat w) mod 10)) c)
    as [E|_]; [|reflexivity].
  rewrite E in Hd. congruence.
Qed.

(** The time part of an ISO text holds digits, colons and a dot. *)
Lemma no_char_time (c : ascii) (h mi s us : Z) :
  Text.is_digit c = false -> c <> ":"%char -> c <> "."%char ->
  no_char c (Text.fmt_digits 2 h +:+ ":" +:+ Text.fmt_digits 2 mi +:+ ":" +:+
             Text.fmt_digits 2 s +:+
             (if us =? 0 then "" else "." +:+ Text.fmt_digits 6 us)).
Proof.
  intros Hd Hc Hp.
  assert (no_char c ":") as Hcolon.
  { unfold no_char. cbn [Text.all_chars].
    destruct (Ascii.eqb_spec ":" c); [congruence|reflexivity]. }
  assert (no_char c ".") as Hdot.
  { unfold no_char. cbn [Text.all_chars].
    destruct (Ascii.eqb_spec "." c); [congruence|reflexivity]. }
  repeat (apply no_char_app; split);
    try apply no_char_fmt_digits; try assumption.
  destruct (us =? 0); [reflexivity|].
  apply no_char_app. split; [assumption|now apply no_char_fmt_digits].
Qed.

Lemma no_char_offset (c : ascii) (hh mm ss us : Z) (short : bool) :
  Text.is_digit c = false -> c <> ":"%char -> c <> "."%char ->
  no_char c (Text.fmt_digits 2 hh +:+ ":" +:+ Text.fmt_digits 2 mm +:+
             (if short then ""
              else ":" +:+ Text.fmt_digits 2 ss +:+
                   (if us =? 0 then "" else "." +:+ Text.fmt_digits 6 us))).
Proof.
  intros Hd Hc Hp.
  destruct short.
  - rewrite append_nil_r.
    repeat (apply no_char_app; split); try (now apply no_char_fmt_digits).
    unfold no_char. cbn [Text.all_chars].
    destruct (Ascii.eqb_spec ":" c); [congruence|reflexivity].
  - exact (no_char_time c hh mm ss us Hd Hc Hp).
Qed.

Lemma split_at_none (c : ascii) (s : string) : no_char c s -> split_at c s = None.
Proof.
  unfold no_char. induction s as [|a s IH]; [reflexivity|].
  cbn [Text.all_chars split_at]. intros H. apply andb_prop in H as [Ha Hs].
  apply negb_true_iff in Ha. rewrite Ha, IH by assumption. reflexivity.
Qed.

Lemma split_at_app (c : ascii) (a b : string) :
  no_char c a -> split_at c (a +:+ String c b) = Some (a, b).
Proof.
  unfold no_char. induction a as [|x a IH].
  - intros _. rewrite append_nil. cbn [split_at]. now rewrite Ascii.eqb_refl.
  - rewrite append_cons. cbn [Text.all_chars split_at]. intros H.
    apply andb_prop in H as [Hx Ha]. apply negb_true_iff in Hx.
    rewrite Hx, IH by assumption. reflexivity.
Qed.

(** The parts of a valid offset, as [_format_offset] prints them. *)
Lemma offset_parts (a : Z) :
  0 <= a < day_us ->
  0 <= a / 3600000000 < 24 /\
  0 <= (a mod 3600000000) / 60000000 < 60 /\
  0 <= (a mod 60000000) / 1000000 < 60 /\
  0 <= a mod 1000000 < 1000000 /\
  (((a / 3600000000) * 60 + (a mod 3600000000) / 60000000) * 60
   + (a mod 60000000) / 1000000) * 1000000 + a mod 1000000 = a.
Proof. unfold day_us. intros H. Z.div_mod_to_equations. lia. Qed.

(** [parse_isoformat_offset] reads back what [_format_offset] prints
    after the sign. *)
Lemma parse_isoformat_offset_fmt (o : Z) :
  - day_us < o < day_us ->
  let a := Z.abs o in
  parse_isoformat_offset (o <? 0)
    (Text.fmt_digits 2 (a / 3600000000) +:+ ":" +:+
     Text.fmt_digits 2 ((a mod 3600000000) / 60000000) +:+
     (if ((a mod 60000000) / 1000000 =? 0) && (a mod 1000000 =? 0) then ""
      else ":" +:+ Text.fmt_digits 2 ((a mod 60000000) / 1000000) +:+
           (if a mod 1000000 =? 0 then ""
            else "." +:+ Text.fmt_digits 6 (a mod 1000000))))
  = Some o.
Proof.
  intros Ho a.
  destruct (offset_parts a ltac:(subst a; lia)) as (Hh & Hm & Hs & Hu & Hsum).
  set (hh := a / 3600000000) in *. set (mm := (a mod 3600000000) / 60000000) in *.
  set (ss := (a mod 60000000) / 1000000) in *. set (us := a mod 1000000) in *.
  assert (Hres : forall td, td = a ->
            (if td =? 0 then Some 0
             else if day_us <=? td then None
             else Some (if o <? 0 then - td else td)) = Some o).
  { intros td ->. destruct (Z.eqb_spec a 0) as [E|E]; [f_equal; subst a; lia|].
    destruct (Z.leb_spec day_us a); [subst a; lia|].
    destruct (Z.ltb_spec o 0); f_equal; subst a; lia. }
  unfold parse_isoformat_offset.
  destruct ((ss =? 0) && (us =? 0)) eqn:E0.
  - apply andb_prop in E0 as [Es Eu]. apply Z.eqb_eq in Es, Eu.
    rewrite append_nil_r.
    change (String.length (Text.fmt_digits 2 hh +:+ ":" +:+ Text.fmt_digits 2 mm))
      with 5%nat.
    cbn [Nat.eqb orb negb].
    rewrite parse_hh_mm_fmt, option_bind_Some by assumption. cbv beta iota zeta.
    apply Hres. rewrite <- Hsum, Es, Eu. ring.
  - destruct (us =? 0) eqn:Eu.
    + apply Z.eqb_eq in Eu.
      change (String.length (Text.fmt_digits 2 hh +:+ ":" +:+ Text.fmt_digits 2 mm
                              +:+ ":" +:+ Text.fmt_digits 2 ss +:+ ""))
        with 8%nat.
      cbn [Nat.eqb orb negb].
      pose proof (parse_isoformat_time_fmt hh mm ss 0 Hh Hm Hs ltac:(lia)) as Hp.
      change (0 =? 0) with true in Hp. cbv iota in Hp.
      rewrite Hp, option_bind_Some. cbv beta iota zeta.
      apply Hres. rewrite <- Hsum, Eu. ring.
    + change (String.length (Text.fmt_digits 2 hh +:+ ":" +:+ Text.fmt_digits 2 mm
                              +:+ ":" +:+ Text.fmt_digits 2 ss +:+ "." +:+
                              Text.fmt_digits 6 us))
        with 15%nat.
      cbn [Nat.eqb orb negb].
      pose proof (parse_isoformat_time_fmt hh mm ss us Hh Hm Hs Hu) as Hp.
      rewrite Eu in Hp.
      rewrite Hp, option_bind_Some. cbv beta iota zeta.
      now apply Hres.
Qed.

(** [_parse_isoformat_time] reads back the time and the offset of an
    ISO text. *)
Lemma parse_isoformat_time_offset (h mi s us : Z) (off : option Z) :
  0 <= h < 24 -> 0 <= mi < 60 -> 0 <= s < 60 -> 0 <= us < 1000000 ->
  match off with Some o => - day_us < o < day_us | None => True end ->
  _parse_isoformat_time
    ((Text.fmt_digits 2 h +:+ ":" +:+ Text.fmt_digits 2 mi +:+ ":" +:+
      Text.fmt_digits 2 s +:+
      (if us =? 0 then "" else "." +:+ Text.fmt_digits 6 us))
     +:+ _format_offset off)
  = Some (h, mi, s, us, off).
Proof.
  intros Hh Hmi Hs Hus Hoff.
  pose proof (parse_isoformat_time_fmt h mi s us Hh Hmi Hs Hus) as Ht.
  pose proof (no_char_time "-" h mi s us eq_refl ltac:(discriminate)
                ltac:(discriminate)) as Hminus.
  pose proof (no_char_time "+" h mi s us eq_refl ltac:(discriminate)
                ltac:(discriminate)) as Hplus.
  set (tstr := Text.fmt_digits 2 h +:+ _) in *.
  unfold _parse_isoformat_time.
  destruct off as [o|].
  - pose proof (parse_isoformat_offset_fmt o Hoff) as Hp. cbv zeta in Hp.
    unfold _format_offset. cbv zeta.
    set (rest := Text.fmt_digits 2 (Z.abs o / 3600000000) +:+ _) in *.
    destruct (o <? 0) eqn:Eneg.
    + change ("-" +:+ rest) with (String "-" rest).
      rewrite (split_at_app "-" tstr rest Hminus).
      rewrite Ht, option_bind_Some. cbv beta iota.
      rewrite Hp. reflexivity.
    + change ("+" +:+ rest) with (String "+" rest).
      assert (no_char "-" rest) as Hrest
        by (subst rest; now apply no_char_offset).
      rewrite (split_at_none "-" (tstr +:+ String "+" rest)).
      2:{ apply no_char_app. split; [exact Hminus|].
          unfold no_char in *. cbn [Text.all_chars]. now rewrite Hrest. }
      rewrite (split_at_app "+" tstr rest Hplus).
      rewrite Ht, option_bind_Some. cbv beta iota.
      rewrite Hp. reflexivity.
  - unfold _format_offset. rewrite append_nil_r.
    rewrite (split_at_none "-" tstr Hminus), (split_at_none "+" tstr Hplus).
    rewrite Ht. reflexivity.
Qed.

Lemma valid_datetime_offset (d : datetime) :
  valid_datetime d ->
  match utcoffset d with Some o => - day_us < o < day_us | None => True end.
Proof.
  unfold valid_datetime, valid_datetimeb, valid_utcoffsetb. intros H.
  apply andb_prop in H as [_ H].
  destruct (utcoffset d) as [o|]; [|exact I].
  apply andb_prop in H as [H1 H2]. lia.
Qed.

Lemma valid_datetime_naive_fields (d : datetime) :
  valid_datetime d -> valid_fieldsb d = true.
Proof.
  unfold valid_datetime, valid_datetimeb. intros H. now apply andb_prop in H as [H _].
Qed.

(** [fromisoformat] inverts [isoformat] on every datetime the
    constructors accept, naive or aware. *)
Lemma fromisoformat_isoformat (d : datetime) :
  valid_datetime d -> fromisoformat (isoformat d) = Some d.
Proof.
  intros Hv.
  pose proof (valid_datetime_ranges d Hv) as (Hy & Hm & Hd & Hh & Hmi & Hs & Hus).
  pose proof (parse_isoformat_time_offset _ _ _ _ (utcoffset d) Hh Hmi Hs Hus
                (valid_datetime_offset d Hv)) as Ht.
  unfold fromisoformat, parse_isoformat_date, isoformat, isoformat_fields.
  rewrite <- !append_assoc. rewrite <- !append_assoc in Ht.
  set (tstr := Text.fmt_digits 2 (hour d) +:+ _) in *.
  assert (exists c r, tstr = String c r) as (c & r & Htstr)
    by (subst tstr; cbn [Text.fmt_digits]; rewrite append_cons; eauto).
  str_norm.
  rewrite take_digits_fmt4, option_bind_Some by lia. cbv beta iota.
  cbn [expect_char]. change (Ascii.eqb "-" "-") with true. cbv iota.
  rewrite option_bind_Some.
  rewrite take_digits_fmt2, option_bind_Some by lia. cbv beta iota.
  cbn [expect_char]. change (Ascii.eqb "-" "-") with true. cbv iota.
  rewrite option_bind_Some.
  rewrite take_digits_fmt2, option_bind_Some by lia. cbv beta iota.
  rewrite option_bind_Some. cbv beta iota.
  rewrite Htstr. rewrite <- Htstr. rewrite Ht, option_bind_Some. cbv beta iota.
  unfold datetime_new. apply valid_datetime_naive_fields in Hv.
  destruct d. unfold valid_fieldsb, mk_datetime, with_utcoffset in *.
  simpl in *. rewrite Hv. reflexivity.
Qed.

(** ** The state manager *)

Lemma _state_save_state (ok : bool) (sm : StateManager) :
  _state (_save_state ok sm) = _state sm.
Proof. unfold _save_state. destruct ok; reflexivity. Qed.

Lemma set_if_truthy_lookup_ne (key k : string) (v : option string)
    (e : gmap string sval) :
  key <> k -> set_if_truthy key v e !! k = e !! k.
Proof.
  intros Hne. unfold set_if_truthy.
  destruct v as [s|]; [|reflexivity].
  destruct (Text.truthy s); [|reflexivity].
  now rewrite lookup_insert_ne.
Qed.

(** The entry written by [update_timestamp]. *)
Lemma update_timestamp_entry (now : datetime) (ok : bool) (sm : StateManager)
    (id : string) (t : datetime) (raw etag : option string) :
  exists e,
    _state (update_timestamp now ok sm id t raw etag) !! id = Some e /\
    e !! "timestamp" = Some (SStr (isoformat t)) /\
    e !! "last_check" = Some (SStr (isoformat now)) /\
    (forall r, raw = Some r -> Text.truthy r = true ->
               e !! "raw_value" = Some (SStr r)) /\
    (forall g, etag = Some g -> Text.truthy g = true ->
               e !! "etag" = Some (SStr g)).
Proof.
  unfold update_timestamp. rewrite _state_save_state. cbn [_state].
  eexists. split; [apply lookup_insert_eq|].
  split; [|split; [|split]].
  - rewrite !set_if_truthy_lookup_ne by discriminate.
    rewrite lookup_insert_ne by discriminate. apply lookup_insert_eq.
  - rewrite !set_if_truthy_lookup_ne by discriminate. apply lookup_insert_eq.
  - intros r -> Hr. rewrite set_if_truthy_lookup_ne by discriminate.
    unfold set_if_truthy. rewrite Hr. apply lookup_insert_eq.
  - intros g -> Hg. unfold set_if_truthy at 1. rewrite Hg. apply lookup_insert_eq.
Qed.

(** Other sources are not touched by [update_timestamp]. *)
Lemma update_timestamp_other (now : datetime) (ok : bool) (sm : StateManager)
    (id id' : string) (t : datetime) (raw etag : option string) :
  id <> id' ->
  _state (update_timestamp now ok sm id t raw etag) !! id' = _state sm !! id'.
Proof.
  intros Hne. unfold update_timestamp. rewrite _state_save_state. cbn [_state].
  now rewrite lookup_insert_ne.
Qed.

Lemma get_last_timestamp_update (now : datetime) (ok : bool) (sm : StateManager)
    (id : string) (t : datetime) (raw etag : option string) :
  valid_datetime t ->
  get_last_timestamp (update_timestamp now ok sm id t raw etag) id = Some t.
Proof.
  intros Hv.
  destruct (update_timestamp_entry now ok sm id t raw etag) as (e & He & Hts & _).
  unfold get_last_timestamp. cbv zeta. rewrite He.
  cbn [from_option Datatypes.id]. rewrite Hts.
  rewrite truthy_isoformat, replace_Z_isoformat.
  now apply fromisoformat_isoformat.
Qed.

Lemma get_last_timestamp_clear (ok : bool) (sm : StateManager) (id : string) :
  get_last_timestamp (clear_state ok sm id) id = None.
Proof.
  unfold get_last_timestamp, clear_state. cbv zeta.
  destruct (_state sm !! id) as [e|] eqn:E.
  - rewrite _state_save_state. cbn [_state]. rewrite lookup_delete_eq. reflexivity.
  - rewrite E. reflexivity.
Qed.

(** ** C7: update then read, clear then read *)



(** ** The verifier *)

Lemma verify_timestamp_ok (pf : platform) (v : GroqVerifier) (a b c d : string) :
  exists r, Verifier.verify_timestamp pf v a b c d = Ok r.
Proof.
  unfold Verifier.verify_timestamp.
  destruct (client v) as [create|]; [|eauto].
  cbv zeta. destruct (rbind _ _); eauto.
Qed.

Lemma unknown_is_unknown (reasoning err : string) :
  Verifier.is_unknown (Verifier.unknown reasoning err).
Proof. unfold Verifier.is_unknown, Verifier.unknown. simpl. eauto 10. Qed.

(** The verification step returns a result that differs from the one it
    was given in the verification fields only. *)
Lemma verify_step_ok (w : world) (s : Sentinel) (h : handler) (o : fetch_outcome)
    (name url : cval) (cur : option datetime) (res : CheckResult) :
  exists r,
    verify_step w s h o name url cur res = Ok r /\
    dcid r = dcid res /\ changed r = changed res /\
    current_timestamp r = current_timestamp res /\
    previous_timestamp r = previous_timestamp res /\
    raw_timestamp r = raw_timestamp res /\ error r = error res.
Proof.
  unfold verify_step.
  destruct (verifier s) as [v|]; [|eauto 10].
  destruct cur as [t|]; [|eauto 10].
  destruct (client v) eqn:Hc; [|eauto 10].
  destruct (verify_timestamp_ok (w_platform w) v
              (str_or (fo_raw_timestamp o) (Repr.datetime_str t))
              (let p := handler_page_content h o in
               if Text.truthy p then p
               else str_or (fo_raw_timestamp o) (Repr.datetime_str t))
              (Repr.cval_str name) (Repr.cval_str url)) as (vr & Hvr).
  cbv zeta in Hvr |- *. rewrite Hvr. cbn [rbind].
  eexists. split; [reflexivity|]. simpl. auto 10.
Qed.

(** ** The orchestrator *)

Lemma get_handler_config (r : SourceRegistry) (id : string) (h : handler) :
  get_handler r id = Ok (Some h) -> config_falsy (get_source r id) = false.
Proof.
  unfold get_handler. destruct (config_falsy (get_source r id)); [discriminate|auto].
Qed.

(** When the comparison raises, it raises [TypeError], and it does so
    exactly for a naive and an aware instant. *)
Lemma compare_with_stored_raises (current stored : option datetime) (e : exn) :
  compare_with_stored current stored = Raise e <->
  e = TypeError /\
  exists c s, current = Some c /\ stored = Some s /\
              ~ (utcoffset c = None <-> utcoffset s = None).
Proof.
  split.
  - destruct current as [c|], stored as [s|]; try discriminate.
    simpl. unfold datetime_gt, datetime_cmp.
    destruct (utcoffset c) eqn:Ec, (utcoffset s) eqn:Es; simpl;
      try (destruct (_ =? _)); try discriminate;
      intros [= <-]; (split; [reflexivity|]); exists c, s;
      (split; [reflexivity|]); (split; [reflexivity|]);
      rewrite Ec, Es; intros [H1 H2]; try (now specialize (H1 eq_refl));
      now specialize (H2 eq_refl).
  - intros (-> & c & s & -> & -> & H). simpl. unfold datetime_gt.
    now rewrite datetime_cmp_mixed.
Qed.

(** The shape of a check whose handler was resolved, whose fetch
    returned [cur] and in which the comparison with the stored instant
    gave [chg]. *)
Lemma check_for_updates_fetched (w : world) (s : Sentinel) (id : string)
    (h : handler) (cur : option datetime) (chg : bool) :
  get_handler (registry s) id = Ok (Some h) ->
  fo_value (w_fetch w h) = Ok cur ->
  compare_with_stored cur (get_last_timestamp (state_manager s) id) = Ok chg ->
  exists r,
    check_for_updates w s id =
      (Ok r,
       match cur with
       | Some t =>
           update_timestamp (w_now w) (w_write_ok w) (state_manager s) id t
             (fo_raw_timestamp (w_fetch w h)) (handler_etag h (w_fetch w h))
       | None => state_manager s
       end) /\
    changed r = chg /\
    current_timestamp r = cur /\
    previous_timestamp r = get_last_timestamp (state_manager s) id /\
    error r = None.
Proof.
  intros Hh Hf Hcmp. unfold check_for_updates.
  rewrite (get_handler_config _ _ _ Hh), Hh. cbv zeta. rewrite Hf, Hcmp.
  match goal with
  | |- context [verify_step ?w ?s ?h ?o ?n ?u ?c ?res] =>
      destruct (verify_step_ok w s h o n u c res)
        as (r & -> & _ & Hc & Hcur & Hprev & _ & Herr)
  end.
  exists r. split; [reflexivity|]. simpl in *. auto.
Qed.

(** A check in which the comparison with the stored instant raises:
    the exception leaves the check and the state is as it was. *)
Lemma check_for_updates_incomparable (w : world) (s : Sentinel) (id : string)
    (h : handler) (cur : option datetime) (e : exn) :
  get_handler (registry s) id = Ok (Some h) ->
  fo_value (w_fetch w h) = Ok cur ->
  compare_with_stored cur (get_last_timestamp (state_manager s) id) = Raise e ->
  check_for_updates w s id = (Raise e, state_manager s).
Proof.
  intros Hh Hf Hcmp. unfold check_for_updates.
  rewrite (get_handler_config _ _ _ Hh), Hh. cbv zeta. now rewrite Hf, Hcmp.
Qed.

(** A check that does not reach a fetched value leaves the state as it
    was; when it returns a result, the result is unchanged-with-error. *)
Lemma check_for_updates_not_fetched (w : world) (s : Sentinel) (id : string) :
  match get_handler (registry s) id with
  | Ok (Some h) =>
      match fo_value (w_fetch w h) with
      | Raise _ => True
      | Ok _ => False
      end
  | _ => True
  end ->
  snd (check_for_updates w s id) = state_manager s /\
  forall r, fst (check_for_updates w s id) = Ok r ->
            changed r = false /\ current_timestamp r = None /\
            previous_timestamp r = None /\ error r <> None.
Proof.
  unfold check_for_updates.
  destruct (config_falsy (get_source (registry s) id)) eqn:Hc.
  - intros _. split; [reflexivity|]. intros r [= <-]. simpl. auto.
  - cbv zeta. destruct (get_handler (registry s) id) as [[h|]|e].
    + destruct (fo_value (w_fetch w h)); [contradiction|].
      intros _. split; [reflexivity|]. intros r [= <-]. simpl. auto.
    + intros _. split; [reflexivity|]. intros r [= <-]. simpl. auto.
    + intros _. split; [reflexivity|]. intros r [=].
Qed.

(** ** C2: the state is written exactly when a current instant exists *)

(** C2, as stated, fails: the stored instant of [src] is aware (the
    entry holds [2025-01-15T10:30:00+00:00]) and the handler now obtains
    a naive instant.  The comparison, which comes before the update,
    raises [TypeError]: the instant that was obtained is not persisted,
    the state is as it was before the check. *)
Lemma check_persists_counterexample :
  let w := api_world Reference.pf (Sample.serve Sample.fresh_body) Sample.now true in
  (default ∅ (_state (state_manager Sample.sentinel_utc) !! "src")) !! "timestamp"
  = Some (SStr "2025-01-15T10:30:00+00:00") /\
  get_last_timestamp (state_manager Sample.sentinel_utc) "src"
  = Some Sample.instant_utc /\
  current_instant w Sample.sentinel_utc "src"
  = Some (mk_datetime 2025 6 15 15 6 40 0) /\
  check_for_updates w Sample.sentinel_utc "src"
  = (Raise TypeError, state_manager Sample.sentinel_utc) /\
  get_last_timestamp (snd (check_for_updates w Sample.sentinel_utc "src")) "src"
  <> Some (mk_datetime 2025 6 15 15 6 40 0).
Proof. vm_compute. repeat split; discriminate. Qed.

(** C2, amended. When the handler produced a current instant that can
    be compared with the stored one (nothing is stored, or both are
    naive, or both aware), the state after the check is the one
    [update_timestamp] gives for that instant, the raw value and the
    ETag of the handler (so the entry holds the instant and a fresh
    [last_check]), whatever the value of [changed].  When the current
    instant and the stored one cannot be compared (one is naive, the
    other aware), the check raises [TypeError] and the state is the one
    before the check.  When the handler produced no instant, the state
    is the one before the check and a returned result has
    [changed = false]. *)
Theorem check_persists_iff_current (w : world) (s : Sentinel) (id : string) :
  match current_instant w s id with
  | Some t =>
      match compare_with_stored (Some t) (get_last_timestamp (state_manager s) id) with
      | Ok chg =>
          (exists h,
             get_handler (registry s) id = Ok (Some h) /\
             snd (check_for_updates w s id) =
               update_timestamp (w_now w) (w_write_ok w) (state_manager s) id t
                 (fo_raw_timestamp (w_fetch w h)) (handler_etag h (w_fetch w h))) /\
          (exists e,
             _state (snd (check_for_updates w s id)) !! id = Some e /\
             e !! "timestamp" = Some (SStr (isoformat t)) /\
             e !! "last_check" = Some (SStr (isoformat (w_now w)))) /\
          (exists r,
             fst (check_for_updates w s id) = Ok r /\
             current_timestamp r = Some t /\
             changed r = chg)
      | Raise e =>
          e = TypeError /\
          (exists st,
             get_last_timestamp (state_manager s) id = Some st /\
             ~ (utcoffset t = None <-> utcoffset st = None)) /\
          check_for_updates w s id = (Raise TypeError, state_manager s)
      end
  | None =>
      snd (check_for_updates w s id) = state_manager s /\
      (forall r, fst (check_for_updates w s id) = Ok r -> changed r = false)
  end.
Proof.
  unfold current_instant.
  destruct (get_handler (registry s) id) as [[h|]|e] eqn:Hh.
  - destruct (fo_value (w_fetch w h)) as [[t|]|e] eqn:Hf.
    + destruct (compare_with_stored (Some t) _) as [chg|e] eqn:Hcmp.
      * destruct (check_for_updates_fetched w s id h (Some t) chg Hh Hf Hcmp)
          as (r & Hout & Hc & Hcur & _).
        rewrite Hout. cbn [fst snd].
        split; [eauto|]. split; [|eauto].
        destruct (update_timestamp_entry (w_now w) (w_write_ok w) (state_manager s)
                    id t (fo_raw_timestamp (w_fetch w h))
                    (handler_etag h (w_fetch w h)))
          as (e & He & Hts & Hlc & _).
        eauto.
      * pose proof (check_for_updates_incomparable w s id h (Some t) e Hh Hf Hcmp)
          as Hout.
        apply compare_with_stored_raises in Hcmp
          as (-> & c & st & [= <-] & Hst & Hmixed).
        split; [reflexivity|]. split; [eauto|exact Hout].
    + destruct (check_for_updates_fetched w s id h None false Hh Hf eq_refl)
        as (r & Hout & Hc & _).
      rewrite Hout. cbn [fst snd]. split; [reflexivity|].
      intros r' [= <-]. exact Hc.
    + destruct (check_for_updates_not_fetched w s id) as (Hs & Hr).
      { rewrite Hh, Hf. exact I. }
      split; [exact Hs|]. intros r Hfst. now apply Hr.
  - destruct (check_for_updates_not_fetched w s id) as (Hs & Hr).
    { now rewrite Hh. }
    split; [exact Hs|]. intros r Hfst. now apply Hr.
  - destruct (check_for_updates_not_fetched w s id) as (Hs & Hr).
    { now rewrite Hh. }
    split; [exact Hs|]. intros r Hfst. now apply Hr.
Qed.

(** An unchanged source is still persisted: the stored instant stays and
    [last_check] moves to the time of the check. *)
Example unchanged_is_persisted :
  let w := api_world Reference.pf (Sample.serve Sample.fresh_body) Sample.now true in
  let s1 := mk_Sentinel Sample.registry
              (snd (check_for_updates w Sample.sentinel "src")) None in
  let later := mk_datetime 2025 7 1 8 0 0 0 in
  let w2 := api_world Reference.pf (Sample.serve Sample.fresh_body) later true in
  option_map changed
    (match fst (check_for_updates w2 s1 "src") with Ok r => Some r | _ => None end)
    = Some false /\
  (default ∅ (_state (snd (check_for_updates w2 s1 "src")) !! "src")) !! "last_check"
    = Some (SStr "2025-07-01T08:00:00").
Proof. vm_compute. split; reflexivity. Qed.

(** ** C3: unknown source ids *)

(** C3. For a source id that the configuration does not have, the check
    returns (it does not raise) an error result, with [changed = false],
    no timestamps and the message "Source not found: id", and the state
    manager is the one before the check, in memory and on disk. *)
Theorem unknown_source_error_result (w : world) (s : Sentinel) (id : string) :
  sources (registry s) !! id = None ->
  exists r,
    check_for_updates w s id = (Ok r, state_manager s) /\
    changed r = false /\
    error r = Some ("Source not found: " +:+ id) /\
    current_timestamp r = None /\ previous_timestamp r = None.
Proof.
  intros Hn. unfold check_for_updates, get_source. rewrite Hn. cbn [config_falsy].
  eexists. split; [reflexivity|]. simpl. auto.
Qed.

Lemma unknown_source_error_result_witness :
  sources (registry Sample.sentinel) !! "nowhere" = None /\
  exists r,
    check_for_updates
      (api_world Reference.pf (Sample.serve Sample.fresh_body) Sample.now true)
      Sample.sentinel "nowhere" = (Ok r, state_manager Sample.sentinel) /\
    changed r = false /\
    error r = Some ("Source not found: " +:+ "nowhere") /\
    current_timestamp r = None /\ previous_timestamp r = None.
Proof.
  assert (sources (registry Sample.sentinel) !! "nowhere" = None) as H
    by (vm_compute; reflexivity).
  split; [exact H|].
  exact (unknown_source_error_result
           (api_world Reference.pf (Sample.serve Sample.fresh_body) Sample.now true)
           Sample.sentinel "nowhere" H).
Defined.

(** ** C10: the previous timestamp of a result *)

(** C10, as stated, fails: [src] is configured and has a stored instant,
    its handler raises while fetching, and the result returned for the
    check carries no previous timestamp. *)
Lemma previous_timestamp_counterexample :
  let w := api_world Reference.pf (Sample.serve Sample.overflow_body)
                     Sample.now true in
  is_Some (sources (registry Sample.sentinel) !! "src") /\
  get_last_timestamp (state_manager Sample.sentinel) "src" = Some Sample.instant /\
  exists r,
    fst (check_for_updates w Sample.sentinel "src") = Ok r /\
    previous_timestamp r = None /\
    previous_timestamp r <> get_last_timestamp (state_manager Sample.sentinel) "src".
Proof.
  cbv zeta. split; [|split].
  - vm_compute. eauto.
  - vm_compute. reflexivity.
  - eexists. split; [vm_compute; reflexivity|].
    split; [reflexivity|]. vm_compute. discriminate.
Qed.

(** C10, amended. For every check in which the registry resolves a
    handler, the fetch returns without raising and the comparison of the
    current instant with the stored one does not raise, the result's
    [previous_timestamp] is what [get_last_timestamp] gave on the state
    before the check, and not the current value, although the state
    after the check holds the current value.  When the comparison
    raises (a naive and an aware instant), the check raises and returns
    no result. *)
Theorem previous_timestamp_is_prior (w : world) (s : Sentinel) (id : string)
    (h : handler) (cur : option datetime) :
  get_handler (registry s) id = Ok (Some h) ->
  fo_value (w_fetch w h) = Ok cur ->
  match compare_with_stored cur (get_last_timestamp (state_manager s) id) with
  | Ok chg =>
      exists r,
        fst (check_for_updates w s id) = Ok r /\
        previous_timestamp r = get_last_timestamp (state_manager s) id /\
        current_timestamp r = cur /\
        changed r = chg /\
        (forall t, cur = Some t -> valid_datetime t ->
                   get_last_timestamp (snd (check_for_updates w s id)) id = Some t)
  | Raise e =>
      e = TypeError /\
      check_for_updates w s id = (Raise TypeError, state_manager s)
  end.
Proof.
  intros Hh Hf.
  destruct (compare_with_stored cur _) as [chg|e] eqn:Hcmp.
  - destruct (check_for_updates_fetched w s id h cur chg Hh Hf Hcmp)
      as (r & Hout & Hc & Hcur & Hprev & _).
    exists r. rewrite Hout. cbn [fst snd].
    repeat split; try assumption.
    intros t -> Hv. now apply get_last_timestamp_update.
  - pose proof (check_for_updates_incomparable w s id h cur e Hh Hf Hcmp) as Hout.
    apply compare_with_stored_raises in Hcmp as (-> & _). auto.
Qed.

Lemma previous_timestamp_is_prior_witness :
  let w := api_world Reference.pf (Sample.serve Sample.fresh_body) Sample.now true in
  exists r,
    fst (check_for_updates w Sample.sentinel "src") = Ok r /\
    previous_timestamp r = Some Sample.instant /\
    current_timestamp r = Some (mk_datetime 2025 6 15 15 6 40 0) /\
    get_last_timestamp (snd (check_for_updates w Sample.sentinel "src")) "src"
      = Some (mk_datetime 2025 6 15 15 6 40 0).
Proof.
  cbv zeta.
  set (w := api_world Reference.pf (Sample.serve Sample.fresh_body) Sample.now true).
  set (h := mk_handler APIHandler
              (<["dcid" := CStr "src"]>
                 {[ "method" := CStr "api";
                    "data_url" := CStr "https://example.org/meta";
                    "import_name" := CStr "Example" ]}) ∅).
  assert (get_handler (registry Sample.sentinel) "src" = Ok (Some h)) as Hh
    by (vm_compute; reflexivity).
  assert (fo_value (w_fetch w h) = Ok (Some (mk_datetime 2025 6 15 15 6 40 0))) as Hf
    by (vm_compute; reflexivity).
  destruct (previous_timestamp_is_prior w Sample.sentinel "src" h _ Hh Hf)
    as (r & Hr & Hprev & Hcur & Hnew).
  exists r. split; [exact Hr|]. split.
  - rewrite Hprev. vm_compute. reflexivity.
  - split; [exact Hcur|]. apply Hnew; reflexivity.
Defined.

(** ** C9: the verifier is advisory *)

(** C9, as stated, fails: a reply that is a JSON object without any of
    the expected fields is not turned into the "unknown" outcome; the
    verifier reports [is_verified = False] with an empty reasoning and
    no error.  A reply whose [is_verified] is not a truth value is
    passed on as it is. *)
Lemma malformed_reply_counterexample :
  (exists r,
     Verifier.verify_timestamp Reference.pf (Sample.replying "{}")
       "2025-01-15" "Updated: 2025-01-15" "Example" "https://example.org/meta" = Ok r /\
     v_is_verified r = JBool false /\ v_reasoning r = JStr "" /\ v_error r = None /\
     ~ Verifier.is_unknown r) /\
  (exists r,
     Verifier.verify_timestamp Reference.pf
       (Sample.replying (Sample.json_object "is_verified" "[]"))
       "2025-01-15" "Updated: 2025-01-15" "Example" "https://example.org/meta" = Ok r /\
     v_is_verified r = JList [] /\ v_error r = None /\ ~ Verifier.is_unknown r).
Proof.
  split.
  - eexists. split; [vm_compute; reflexivity|].
    split; [reflexivity|]. split; [reflexivity|]. split; [reflexivity|].
    intros (H & _). discriminate H.
  - eexists. split; [vm_compute; reflexivity|].
    split; [reflexivity|]. split; [reflexivity|].
    intros (H & _). discriminate H.
Qed.

Lemma verify_timestamp_call_raises (pf : platform) (v : GroqVerifier)
    (create : string -> result (option string)) (a b c d : string) (e : exn) :
  client v = Some create ->
  create (Verifier.request_prompt a b c d) = Raise e ->
  Verifier.verify_timestamp pf v a b c d
  = Ok (Verifier.unknown ("API call failed: " +:+ Repr.exn_str e) (Repr.exn_str e)).
Proof.
  intros Hc He. unfold Verifier.verify_timestamp. rewrite Hc. cbv zeta.
  rewrite He. reflexivity.
Qed.

Lemma verify_timestamp_unparsed (pf : platform) (v : GroqVerifier)
    (create : string -> result (option string)) (a b c d text : string) :
  client v = Some create ->
  create (Verifier.request_prompt a b c d) = Ok (Some text) ->
  Verifier.brace_span text = None \/
  (exists m, Verifier.brace_span text = Some m /\
             json_loads pf m = Raise JSONDecodeError) ->
  Verifier.verify_timestamp pf v a b c d = Ok (Verifier.fallback text).
Proof.
  intros Hc Ht Hbad. unfold Verifier.verify_timestamp. rewrite Hc. cbv zeta.
  rewrite Ht. cbn [rbind]. unfold Verifier._parse_response.
  destruct Hbad as [-> | (m & -> & Hm)]; [reflexivity|].
  rewrite Hm. reflexivity.
Qed.

(** The verifier of a sentinel has no influence on the state after a
    check, nor on the fields of the result other than the verification
    fields. *)
Lemma check_for_updates_verifier_irrelevant (w : world) (s : Sentinel)
    (id : string) (ver' : option GroqVerifier) :
  let s' := mk_Sentinel (registry s) (state_manager s) ver' in
  snd (check_for_updates w s' id) = snd (check_for_updates w s id) /\
  (forall e, fst (check_for_updates w s id) = Raise e ->
             fst (check_for_updates w s' id) = Raise e) /\
  forall r, fst (check_for_updates w s id) = Ok r ->
    exists r', fst (check_for_updates w s' id) = Ok r' /\
               changed r' = changed r /\
               current_timestamp r' = current_timestamp r /\
               previous_timestamp r' = previous_timestamp r /\
               error r' = error r.
Proof.
  cbv zeta.
  set (s' := mk_Sentinel (registry s) (state_manager s) ver').
  destruct (get_handler (registry s) id) as [[h|]|e] eqn:Hh;
    [destruct (fo_value (w_fetch w h)) as [cur|e] eqn:Hf|..].
  - destruct (compare_with_stored cur (get_last_timestamp (state_manager s) id))
      as [chg|e] eqn:Hcmp.
    + destruct (check_for_updates_fetched w s id h cur chg Hh Hf Hcmp)
        as (r & -> & Hc & Hcur & Hprev & Herr).
      destruct (check_for_updates_fetched w s' id h cur chg Hh Hf Hcmp)
        as (r' & -> & Hc' & Hcur' & Hprev' & Herr').
      cbn [fst snd state_manager s'] in *. split; [reflexivity|].
      split; [intros e [=]|].
      intros r0 [= <-]. exists r'. split; [reflexivity|]. repeat split; congruence.
    + rewrite (check_for_updates_incomparable w s id h cur e Hh Hf Hcmp).
      rewrite (check_for_updates_incomparable w s' id h cur e Hh Hf Hcmp).
      split; [reflexivity|]. split; [auto|intros r [=]].
  - unfold check_for_updates. cbn [registry state_manager s'].
    destruct (config_falsy (get_source (registry s) id)).
    + split; [reflexivity|]. split; [intros e' [=]|]. intros r [= <-]. eauto 10.
    + cbv zeta. rewrite Hh, Hf. split; [reflexivity|]. split; [intros e' [=]|].
      intros r [= <-]. eauto 10.
  - unfold check_for_updates. cbn [registry state_manager s'].
    destruct (config_falsy (get_source (registry s) id)).
    + split; [reflexivity|]. split; [intros e' [=]|]. intros r [= <-]. eauto 10.
    + cbv zeta. rewrite Hh. split; [reflexivity|]. split; [intros e' [=]|].
      intros r [= <-]. eauto 10.
  - unfold check_for_updates. cbn [registry state_manager s'].
    destruct (config_falsy (get_source (registry s) id)).
    + split; [reflexivity|]. split; [intros e' [=]|]. intros r [= <-]. eauto 10.
    + cbv zeta. rewrite Hh. split; [reflexivity|]. split; [auto|intros r [=]].
Qed.

(** What [verify_timestamp] does with a reply that has a text: the
    "unknown" outcome, unless the text between the first and the last
    brace decodes to a JSON object whose [confidence] [float()] accepts;
    then the fields of the object are returned, without an error. *)
Lemma verify_timestamp_reply (pf : platform) (v : GroqVerifier)
    (create : string -> result (option string)) (a b c d text : string) :
  client v = Some create ->
  create (Verifier.request_prompt a b c d) = Ok (Some text) ->
  match Verifier.brace_span text with
  | Some m =>
      match json_loads pf m with
      | Ok (JDict o) =>
          match Verifier.py_float (default (JNum (NInt 0)) (dict_get "confidence" o)) with
          | Ok conf =>
              Verifier.verify_timestamp pf v a b c d
              = Ok (mk_verification
                      (default (JBool false) (dict_get "is_verified" o))
                      (NFloat conf)
                      (default (JStr "") (dict_get "reasoning" o))
                      (default JNull (dict_get "correct_timestamp" o))
                      None)
          | Raise _ =>
              exists r, Verifier.verify_timestamp pf v a b c d = Ok r /\
                        Verifier.is_unknown r
          end
      | _ =>
          exists r, Verifier.verify_timestamp pf v a b c d = Ok r /\
                    Verifier.is_unknown r
      end
  | None =>
      exists r, Verifier.verify_timestamp pf v a b c d = Ok r /\
                Verifier.is_unknown r
  end.
Proof.
  intros Hc Ht. unfold Verifier.verify_timestamp. rewrite Hc. cbv zeta.
  rewrite Ht. cbn [rbind]. unfold Verifier._parse_response.
  destruct (Verifier.brace_span text) as [m|].
  - destruct (json_loads pf m) as [[| | | | |o]|e]; cbn [rbind];
      try (eexists; split; [reflexivity|apply unknown_is_unknown]).
    + destruct (Verifier.py_float _) as [conf|e]; cbn [rbind]; [reflexivity|].
      destruct e; eexists; (split; [reflexivity|apply unknown_is_unknown]).
    + destruct e; eexists; (split; [reflexivity|apply unknown_is_unknown]).
  - eexists. split; [reflexivity|apply unknown_is_unknown].
Qed.

(** C9, amended. [verify_timestamp] never raises.  It returns the
    "unknown" outcome when the client is unavailable, when the service
    call raises, when the reply has no content, when the reply holds no
    brace-delimited text or one that is not JSON, when the decoded
    value is not an object and when [float()] rejects the [confidence]
    of the object.  A reply that decodes to an object whose
    [confidence] (0 when absent) [float()] accepts is not turned into
    the "unknown" outcome: its fields are returned, absent ones with
    their defaults, and without an error.  In a check, the verifier
    changes neither the state that is persisted nor the [changed] flag,
    the timestamps or the error of the result. *)
Theorem verifier_is_advisory (pf : platform) (v : GroqVerifier) (a b c d : string)
    (w : world) (s : Sentinel) (id : string) (ver' : option GroqVerifier) :
  (exists r, Verifier.verify_timestamp pf v a b c d = Ok r) /\
  (client v = None ->
   exists r, Verifier.verify_timestamp pf v a b c d = Ok r /\ Verifier.is_unknown r) /\
  (forall create e,
     client v = Some create ->
     create (Verifier.request_prompt a b c d) = Raise e ->
     exists r, Verifier.verify_timestamp pf v a b c d = Ok r /\ Verifier.is_unknown r) /\
  (forall create,
     client v = Some create ->
     create (Verifier.request_prompt a b c d) = Ok None ->
     exists r, Verifier.verify_timestamp pf v a b c d = Ok r /\ Verifier.is_unknown r) /\
  (forall create text,
     client v = Some create ->
     create (Verifier.request_prompt a b c d) = Ok (Some text) ->
     Verifier.brace_span text = None \/
     (exists m, Verifier.brace_span text = Some m /\
                json_loads pf m = Raise JSONDecodeError) ->
     exists r, Verifier.verify_timestamp pf v a b c d = Ok r /\ Verifier.is_unknown r) /\
  (forall create text,
     client v = Some create ->
     create (Verifier.request_prompt a b c d) = Ok (Some text) ->
     match Verifier.brace_span text with
     | Some m =>
         match json_loads pf m with
         | Ok (JDict o) =>
             match Verifier.py_float
                     (default (JNum (NInt 0)) (dict_get "confidence" o)) with
             | Ok conf =>
                 Verifier.verify_timestamp pf v a b c d
                 = Ok (mk_verification
                         (default (JBool false) (dict_get "is_verified" o))
                         (NFloat conf)
                         (default (JStr "") (dict_get "reasoning" o))
                         (default JNull (dict_get "correct_timestamp" o))
                         None)
             | Raise _ =>
                 exists r, Verifier.verify_timestamp pf v a b c d = Ok r /\
                           Verifier.is_unknown r
             end
         | _ =>
             exists r, Verifier.verify_timestamp pf v a b c d = Ok r /\
                       Verifier.is_unknown r
         end
     | None =>
         exists r, Verifier.verify_timestamp pf v a b c d = Ok r /\
                   Verifier.is_unknown r
     end) /\
  (let s' := mk_Sentinel (registry s) (state_manager s) ver' in
   snd (check_for_updates w s' id) = snd (check_for_updates w s id) /\
   (forall e, fst (check_for_updates w s id) = Raise e ->
              fst (check_for_updates w s' id) = Raise e) /\
   forall r, fst (check_for_updates w s id) = Ok r ->
     exists r', fst (check_for_updates w s' id) = Ok r' /\
                changed r' = changed r /\
                current_timestamp r' = current_timestamp r /\
                previous_timestamp r' = previous_timestamp r /\
                error r' = error r).
Proof.
  split; [apply verify_timestamp_ok|].
  split.
  { intros Hc. unfold Verifier.verify_timestamp. rewrite Hc.
    eexists. split; [reflexivity|]. apply unknown_is_unknown. }
  split.
  { intros create e Hc He.
    rewrite (verify_timestamp_call_raises pf v create a b c d e Hc He).
    eexists. split; [reflexivity|]. apply unknown_is_unknown. }
  split.
  { intros create Hc He. unfold Verifier.verify_timestamp. rewrite Hc. cbv zeta.
    rewrite He. cbn [rbind Verifier._parse_response].
    eexists. split; [reflexivity|]. apply unknown_is_unknown. }
  split.
  { intros create text Hc Ht Hbad.
    rewrite (verify_timestamp_unparsed pf v create a b c d text Hc Ht Hbad).
    eexists. split; [reflexivity|]. apply unknown_is_unknown. }
  split; [intros create text; apply verify_timestamp_reply|].
  apply check_for_updates_verifier_irrelevant.
Qed.

Lemma verifier_is_advisory_witness :
  let v := Sample.replying "I cannot tell." in
  let w := api_world Reference.pf (Sample.serve Sample.fresh_body) Sample.now true in
  (exists r,
     Verifier.verify_timestamp Reference.pf v "2025-01-15" "page" "Example" "url"
       = Ok r /\ Verifier.is_unknown r) /\
  snd (check_for_updates w (mk_Sentinel Sample.registry Sample.stored (Some v)) "src")
  = snd (check_for_updates w Sample.sentinel "src").
Proof.
  cbv zeta.
  pose proof (verifier_is_advisory Reference.pf (Sample.replying "I cannot tell.")
                "2025-01-15" "page" "Example" "url"
                (api_world Reference.pf (Sample.serve Sample.fresh_body)
                           Sample.now true)
                Sample.sentinel "src" (Some (Sample.replying "I cannot tell.")))
    as (_ & _ & _ & _ & Hreply & _ & Hstate & _).
  split; [|exact Hstate].
  apply (Hreply (fun _ => Ok (Some "I cannot tell.")) "I cannot tell.");
    [reflexivity|reflexivity|].
  left. vm_compute. reflexivity.
Defined.

(** ** C6: unix epoch strings *)

(** What [_try_unix_timestamp] does with the digits and dots of its
    argument: nothing numeric gives none; a value above 1e12 is read as
    milliseconds, a value above 1e9 as seconds, anything else is
    rejected; a value that [float] or [fromtimestamp] refuses gives
    none. *)
Lemma try_unix_timestamp_spec (pf : platform) (s : string) :
  let numeric := Str.filter DateParser.is_digit_or_dot s in
  DateParser._try_unix_timestamp pf s =
    match numeric with
    | EmptyString => Ok None
    | _ =>
        match PyFloat.of_string numeric with
        | Raise _ => Ok None
        | Ok value =>
            if float_gtb value (inject_Z (10 ^ 12)) then
              match Timestamp.fromtimestamp pf (float_div value 1000) with
              | Ok d => Ok (Some d)
              | Raise _ => Ok None
              end
            else if float_gtb value (inject_Z (10 ^ 9)) then
              match Timestamp.fromtimestamp pf value with
              | Ok d => Ok (Some d)
              | Raise _ => Ok None
              end
            else Ok None
        end
    end.
Proof.
  cbv zeta. unfold DateParser._try_unix_timestamp.
  destruct (Str.filter DateParser.is_digit_or_dot s) as [|c r] eqn:E;
    [reflexivity|].
  cbn [Text.truthy negb].
  assert (forall x, PyFloat.of_string x = Raise ValueError \/
                    exists v, PyFloat.of_string x = Ok v) as Hof.
  { intros x. unfold PyFloat.of_string.
    repeat match goal with
           | |- context [let '(_, _) := ?p in _] => destruct p
           | |- context [if ?b then _ else _] => destruct b
           | |- context [match ?o with Some _ => _ | None => _ end] => destruct o
           end; eauto. }
  assert (forall x, match Timestamp.fromtimestamp pf x with
                    | Ok _ => True
                    | Raise e => DateParser.unix_caught e = true
                    end) as Hft.
  { intros x. unfold Timestamp.fromtimestamp, datetime_new.
    repeat match goal with
           | |- context [match ?y with Finite _ => _ | _ => _ end] => destruct y
           | |- context [let '(_, _) := ?p in _] => destruct p
           | |- context [if ?b then _ else _] => destruct b
           end; simpl; auto. }
  destruct (Hof (String c r)) as [-> | (v & ->)]; [reflexivity|].
  cbn [rbind].
  destruct (float_gtb v (inject_Z (10 ^ 12))).
  - pose proof (Hft (float_div v 1000)) as H.
    destruct (Timestamp.fromtimestamp pf (float_div v 1000)); cbn [rbind];
      [reflexivity|now rewrite H].
  - destruct (float_gtb v (inject_Z (10 ^ 9))); [|reflexivity].
    pose proof (Hft v) as H.
    destruct (Timestamp.fromtimestamp pf v); cbn [rbind];
      [reflexivity|now rewrite H].
Qed.

(** [fromtimestamp] depends on its argument through the number of
    microseconds only. *)
Lemma fromtimestamp_microseconds (pf : platform) (q1 q2 : Q) :
  Timestamp.round_half_even (q1 * inject_Z 1000000)
  = Timestamp.round_half_even (q2 * inject_Z 1000000) ->
  Timestamp.fromtimestamp pf (Finite q1) = Timestamp.fromtimestamp pf (Finite q2).
Proof. intros H. unfold Timestamp.fromtimestamp. rewrite H. reflexivity. Qed.

Lemma try_unix_timestamp_seconds (pf : platform) :
  DateParser._try_unix_timestamp pf "1705315800"
  = match Timestamp.fromtimestamp pf (Finite (inject_Z 1705315800)) with
    | Ok d => Ok (Some d)
    | Raise _ => Ok None
    end.
Proof.
  rewrite try_unix_timestamp_spec. cbv zeta.
  generalize (Timestamp.fromtimestamp pf). intros f. vm_compute. reflexivity.
Qed.

Lemma try_unix_timestamp_millis (pf : platform) :
  DateParser._try_unix_timestamp pf "1705315800000"
  = match Timestamp.fromtimestamp pf
            (float_div (Finite (inject_Z 1705315800000)) 1000) with
    | Ok d => Ok (Some d)
    | Raise _ => Ok None
    end.
Proof.
  rewrite try_unix_timestamp_spec. cbv zeta.
  generalize (Timestamp.fromtimestamp pf). intros f. vm_compute. reflexivity.
Qed.

(** On its own, the epoch step reads the seconds string and the
    milliseconds string as the same instant, on every platform. *)
Lemma try_unix_timestamp_seconds_millis (pf : platform) :
  DateParser._try_unix_timestamp pf "1705315800"
  = DateParser._try_unix_timestamp pf "1705315800000".
Proof.
  rewrite try_unix_timestamp_seconds, try_unix_timestamp_millis.
  cbn [float_div].
  rewrite (fromtimestamp_microseconds pf (inject_Z 1705315800)
             (inject_Z 1705315800000 / inject_Z 1000)%Q); [reflexivity|].
  vm_compute. reflexivity.
Qed.

(** Without [dateutil], or with one that rejects the text with a
    [ValueError], [parse] never reaches the epoch step on "1705315800":
    the compact template [%Y%m%d%H%M%S] reads it as 1705-03-15 08:00:00. *)
Lemma parse_unix_seconds_shadowed (pf : platform) :
  match dateutil pf with
  | None => True
  | Some p => p "1705315800" = Raise ValueError
  end ->
  DateParser.parse pf "1705315800" = Ok (Some (mk_datetime 1705 3 15 8 0 0 0)).
Proof.
  intros H. unfold DateParser.parse.
  change (DateParser._clean_date_string "1705315800") with "1705315800".
  cbn [Text.truthy negb].
  assert (DateParser.parse_after_dateutil pf "1705315800"
          = Ok (Some (mk_datetime 1705 3 15 8 0 0 0))) as Hp
    by (vm_compute; reflexivity).
  destruct (dateutil pf) as [p|]; [rewrite H|]; cbn [DateParser.dateutil_caught];
    exact Hp.
Qed.

(** C6. The code at the failing input: on a platform without
    [dateutil], [parse] gives 1705-03-15 08:00:00 for the seconds string
    and 2024-01-15 10:50:00 (UTC) for the milliseconds string, two
    different instants, although the epoch step alone maps both to the
    second one. *)
Theorem parse_unix_seconds_millis_differ :
  DateParser.parse Reference.pf "1705315800"
    = Ok (Some (mk_datetime 1705 3 15 8 0 0 0)) /\
  DateParser.parse Reference.pf "1705315800000"
    = Ok (Some (mk_datetime 2024 1 15 10 50 0 0)) /\
  DateParser._try_unix_timestamp Reference.pf "1705315800"
    = Ok (Some (mk_datetime 2024 1 15 10 50 0 0)) /\
  DateParser.parse Reference.pf "1705315800"
    <> DateParser.parse Reference.pf "1705315800000".
Proof.
  split; [vm_compute; reflexivity|].
  split; [vm_compute; reflexivity|].
  split; [vm_compute; reflexivity|].
  vm_compute. discriminate.
Qed.

(** ** C4: what a fetch catches *)

(** C4. The code at the failing input: the API handler receives the
    JSON body [{"updated_at": 1e400}], the number decodes to infinity
    and [datetime.fromtimestamp] raises [OverflowError].  The
    [try ... except (ValueError, OSError)] that [_parse_timestamp_value]
    puts around the call to return none does not name it (the one of
    [DateParser._try_unix_timestamp] does, and gives none for the same
    value), and the exception leaves [fetch_current_timestamp].  The
    same happens with an integer too large for [time_t]. *)
Theorem api_fetch_overflow_escapes :
  json_loads Reference.pf Sample.overflow_body
  = Ok (JDict [("updated_at", JNum (NFloat PosInf))]) /\
  API._parse_timestamp_value Reference.pf (JNum (NFloat PosInf))
  = Raise OverflowError /\
  API.timestamp_caught OverflowError = false /\
  DateParser.unix_caught OverflowError = true /\
  fst (API.fetch_current_timestamp Reference.pf (Sample.serve Sample.overflow_body)
         Sample.api_handler) = Raise OverflowError /\
  raises (fst (API.fetch_current_timestamp Reference.pf
                 (Sample.serve Sample.overflow_body) Sample.api_handler)) /\
  fst (API.fetch_current_timestamp Reference.pf (Sample.serve Sample.huge_body)
         Sample.api_handler) = Raise OverflowError.
Proof.
  assert (fst (API.fetch_current_timestamp Reference.pf
                 (Sample.serve Sample.overflow_body) Sample.api_handler)
          = Raise OverflowError) as H by (vm_compute; reflexivity).
  split; [vm_compute; reflexivity|]. split; [reflexivity|].
  split; [reflexivity|]. split; [reflexivity|].
  split; [exact H|]. split; [rewrite H; exact I|].
  vm_compute. reflexivity.
Qed.

Lemma api_attempts_transport_fails (pf : platform) (net : network)
    (cfg : gmap string cval) (n : nat) (st : hstate) :
  transport_fails net -> fst (API.attempts pf net cfg n st) = Ok None.
Proof.
  intros Hnet. revert st.
  induction n as [|n IH]; intros st; [reflexivity|].
  cbn [API.attempts]. unfold send.
  pose proof (Hnet (length (sent st))) as H.
  destruct (net (length (sent st)) "GET") as [|r]; [apply IH|].
  rewrite H. apply IH.
Qed.

Lemma bs4_attempts_transport_fails (pf : platform)
    (make_soup : string -> result soup) (net : network)
    (cfg : gmap string cval) (n : nat) (st : hstate) :
  transport_fails net -> fst (BS4.attempts pf make_soup net cfg n st) = Ok None.
Proof.
  intros Hnet. revert st.
  induction n as [|n IH]; intros st; [reflexivity|].
  cbn [BS4.attempts]. unfold send.
  pose proof (Hnet (length (sent st))) as H.
  destruct (net (length (sent st)) "GET") as [|r]; [apply IH|].
  rewrite H. apply IH.
Qed.

Lemma api_fetch_transport_fails (pf : platform) (net : network) (h : handler)
    (n : nat) :
  transport_fails net -> py_range (max_retries h) = Ok n ->
  fst (API.fetch_current_timestamp pf net h) = Ok None.
Proof.
  intros Hnet Hn. unfold API.fetch_current_timestamp.
  destruct (negb _); [reflexivity|]. rewrite Hn.
  now apply api_attempts_transport_fails.
Qed.

Lemma bs4_fetch_transport_fails (pf : platform) (net : network) (h : handler)
    (n : nat) :
  transport_fails net -> py_range (max_retries h) = Ok n ->
  fst (BS4.fetch_current_timestamp pf net h) = Ok None.
Proof.
  intros Hnet Hn. unfold BS4.fetch_current_timestamp.
  destruct (negb _); [reflexivity|].
  destruct (BeautifulSoup pf); [|reflexivity]. rewrite Hn.
  now apply bs4_attempts_transport_fails.
Qed.

(** [range(max_retries)] is outside the [try]: a [max_retries] that is
    not an integer makes the fetch raise [TypeError]. *)
Lemma api_fetch_max_retries (pf : platform) (net : network) (h : handler) (e : exn) :
  opt_truthy (h_config h !! "data_url") = true ->
  py_range (max_retries h) = Raise e ->
  API.fetch_current_timestamp pf net h = (Raise TypeError, hstate_init).
Proof.
  intros Hu He. unfold API.fetch_current_timestamp. rewrite Hu. cbn [negb].
  unfold py_range in *. destruct (max_retries h); try discriminate; reflexivity.
Qed.

Lemma api_json_decode_error (pf : platform) (cfg : gmap string cval)
    (content : string) (st : hstate) :
  json_loads pf content = Raise JSONDecodeError ->
  API._parse_json_response pf cfg content st = (Ok None, st).
Proof. intros H. unfold API._parse_json_response. now rewrite H. Qed.

Lemma api_xml_never_raises (pf : platform) (cfg : gmap string cval)
    (content : string) (st : hstate) :
  exists r, fst (API._parse_xml_response pf cfg content st) = Ok r.
Proof.
  unfold API._parse_xml_response.
  destruct (API.fields_to_check cfg []) as [fields|e]; [|simpl; eauto].
  destruct (API.xml_fields pf content _ st) as [[r|e] st']; simpl; eauto.
Qed.

(** An exception that leaves a fetch is turned into an error result by
    the orchestrator, and the state is not written. *)
Lemma check_for_updates_fetch_raises (w : world) (s : Sentinel) (id : string)
    (h : handler) (e : exn) :
  get_handler (registry s) id = Ok (Some h) ->
  fo_value (w_fetch w h) = Raise e ->
  exists r,
    check_for_updates w s id = (Ok r, state_manager s) /\
    changed r = false /\ current_timestamp r = None /\
    error r = Some (Repr.exn_str e).
Proof.
  intros Hh Hf. unfold check_for_updates.
  rewrite (get_handler_config _ _ _ Hh), Hh. cbv zeta. rewrite Hf.
  eexists. split; [reflexivity|]. simpl. auto.
Qed.

(** ** C5: the HTTP methods of the API handler *)


Lemma sent_set_raw (raw : string) (st : hstate) : sent (set_raw raw st) = sent st.
Proof. reflexivity. Qed.

Lemma api_xml_fields_sent (pf : platform) (content : string) (fields : list string)
    (st : hstate) :
  sent (snd (API.xml_fields pf content fields st)) = sent st.
Proof.
  induction fields as [|f fields IH]; [reflexivity|].
  cbn [API.xml_fields].
  destruct (xml_find pf content f) as [[txt|]|e]; try assumption; try reflexivity.
  destruct (Text.truthy txt); [reflexivity|assumption].
Qed.

Lemma api_parse_response_sent (pf : platform) (cfg : gmap string cval)
    (r : response) (st : hstate) :
  sent (snd (API._parse_response pf cfg r st)) = sent st.
Proof.
  unfold API._parse_response.
  destruct (default (CStr "json") (cfg !! "response_format")) as [f| | |];
    try reflexivity.
  destruct (String.eqb f "json").
  - unfold API._parse_json_response.
    destruct (json_loads pf (text r)) as [data|e]; [|destruct e; reflexivity].
    destruct (rbind _ _) as [v|e]; [|reflexivity].
    destruct (json_truthy v); reflexivity.
  - destruct (String.eqb f "xml"); [|reflexivity].
    unfold API._parse_xml_response.
    destruct (API.fields_to_check cfg []) as [fields|e]; [|reflexivity].
    pose proof (api_xml_fields_sent pf (text r) (map Repr.cval_str fields) st) as H.
    destruct (API.xml_fields pf (text r) (map Repr.cval_str fields) st)
      as [[v|e] st']; exact H.
Qed.

(** The package handler sends GET requests only, at most [n] of them. *)
Lemma api_attempts_sent (pf : platform) (net : network) (cfg : gmap string cval)
    (n : nat) (st : hstate) :
  exists k, (k <= n)%nat /\
    sent (snd (API.attempts pf net cfg n st)) = sent st ++ repeat "GET" k.
Proof.
  revert st. induction n as [|n IH]; intros st.
  - exists 0%nat. split; [lia|]. simpl. now rewrite app_nil_r.
  - cbn [API.attempts]. unfold send.
    assert (forall st1, sent st1 = sent st ++ ["GET"] ->
              exists k, (k <= S n)%nat /\
                sent (snd (API.attempts pf net cfg n st1))
                = sent st ++ repeat "GET" k) as Hrec.
    { intros st1 Hst1. destruct (IH st1) as (k & Hk & ->).
      exists (S k). split; [lia|]. rewrite Hst1, <- app_assoc. reflexivity. }
    destruct (net (length (sent st)) "GET") as [|r]; [now apply Hrec|].
    destruct (status_is_error r); [now apply Hrec|].
    exists 1%nat. split; [lia|]. now rewrite api_parse_response_sent.
Qed.

Lemma main_parse_json_sent (pf : platform) (cfg : gmap string cval)
    (content : string) (st : hstate) :
  sent (snd (Main._parse_json_response pf cfg content st)) = sent st.
Proof.
  unfold Main._parse_json_response.
  destruct (json_loads pf content) as [data|e]; [|destruct e; reflexivity].
  destruct (rbind _ _) as [v|e]; [|reflexivity].
  destruct (json_truthy v); [|reflexivity].
  match goal with |- context [match ?x with Ok _ => _ | Raise _ => _ end] =>
    destruct x end; reflexivity.
Qed.

Lemma main_head_result_sent (pf : platform) (r : response) (st : hstate) :
  sent (snd (Main.head_result pf r st)) = sent st.
Proof.
  unfold Main.head_result.
  destruct (Main.header_get _ _) as [lm|]; [|reflexivity].
  destruct (Text.truthy lm); [|reflexivity].
  destruct (parsedate_to_datetime pf lm) as [d|e]; [reflexivity|].
  destruct (Main.parsedate_caught e); reflexivity.
Qed.

(** The script sends the methods of its list in order, skipping the
    names that are not GET, HEAD or POST, and stops at some point. *)
Lemma main_try_methods_sent (pf : platform) (net : network)
    (cfg : gmap string cval) (ms : list string) (st : hstate) :
  exists l, is_prefix l (filter (fun m => Main.is_known_method m = true) ms) /\
    sent (snd (Main.try_methods pf net cfg ms st)) = sent st ++ l.
Proof.
  revert st. induction ms as [|m ms IH]; intros st.
  - exists []. split; [exists []; reflexivity|]. simpl. now rewrite app_nil_r.
  - cbn [Main.try_methods]. rewrite filter_cons.
    destruct (Main.is_known_method m) eqn:Hk; cbn [negb].
    + rewrite decide_True by reflexivity. unfold send.
      assert (forall st1, sent st1 = sent st ++ [m] ->
                exists l,
                  is_prefix l (m :: filter (fun m => Main.is_known_method m = true) ms) /\
                  sent (snd (Main.try_methods pf net cfg ms st1)) = sent st ++ l)
        as Hrec.
      { intros st1 Hst1. destruct (IH st1) as (l & (rest & Hl) & ->).
        exists (m :: l). split.
        - exists rest. rewrite Hl. reflexivity.
        - rewrite Hst1, <- app_assoc. reflexivity. }
      assert (is_prefix [m] (m :: filter (fun m => Main.is_known_method m = true) ms))
        as Hone by (eexists; reflexivity).
      destruct (net (length (sent st)) m) as [|r]; [now apply Hrec|].
      destruct (status_code r =? 405); [now apply Hrec|].
      destruct (status_is_error r); [now apply Hrec|].
      destruct (String.eqb m "HEAD").
      * exists [m]. split; [exact Hone|]. now rewrite main_head_result_sent.
      * exists [m]. split; [exact Hone|]. now rewrite main_parse_json_sent.
    + rewrite decide_False by discriminate. apply IH.
Qed.

(** When every request is refused with 405, every method of the list
    is tried. *)
Lemma main_try_methods_all_405 (pf : platform) (net : network)
    (cfg : gmap string cval) (ms : list string) (st : hstate) :
  always_405 net ->
  Main.try_methods pf net cfg ms st
  = (Ok None,
     mk_hstate (_raw_timestamp st) (_etag st) (_page_content st)
       (sent st ++ filter (fun m => Main.is_known_method m = true) ms)).
Proof.
  intros Hnet. revert st. induction ms as [|m ms IH]; intros st.
  - simpl. rewrite app_nil_r. now destruct st.
  - cbn [Main.try_methods]. rewrite filter_cons.
    destruct (Main.is_known_method m) eqn:Hk; cbn [negb].
    + rewrite decide_True by reflexivity. unfold send.
      destruct (Hnet (length (sent st)) m) as (r & -> & Hr).
      rewrite Hr. cbn [Z.eqb Pos.eqb]. rewrite IH.
      unfold log_request. cbn [_raw_timestamp _etag _page_content sent].
      now rewrite <- app_assoc.
    + rewrite decide_False by discriminate. apply IH.
Qed.



(** ** C8: sanity bounds in the browser handlers *)

(** C8, as stated, fails: the handler of the package returns the date of
    the first element that parses, be it of the year 1999 or of the year
    2999, long after the check; the handler of main.py does the same for
    an element found by a selector. *)
Lemma selenium_unbounded_counterexample :
  fst (Selenium.fetch_current_timestamp Reference.pf
         (Some (Sample.page "1999-01-15")) Sample.selenium_handler)
  = Ok (Some (mk_datetime 1999 1 15 0 0 0 0)) /\
  fst (Selenium.fetch_current_timestamp Reference.pf
         (Some (Sample.page "Last updated: December 31, 2999"))
         Sample.selenium_handler)
  = Ok (Some (mk_datetime 2999 12 31 0 0 0 0)) /\
  datetime_lt Sample.now (mk_datetime 2999 12 31 0 0 0 0) /\
  fst (Main.selenium_fetch_current_timestamp Reference.pf Sample.now
         (Some (Sample.page "1999-01-15")) Sample.selenium_handler)
  = Ok (Some (mk_datetime 1999 1 15 0 0 0 0)) /\
  Main.plausible Sample.now (mk_datetime 1999 1 15 0 0 0 0) = Ok false.
Proof.
  repeat (split; [vm_compute; reflexivity|]). vm_compute. reflexivity.
Qed.

(** A plausible candidate: its year is 2020 or later and [d <= now]
    holds; [now] being naive, as [datetime.now()] is, so is the
    candidate, and its fields are not greater than those of [now]. *)
Lemma plausible_bounds (now d : datetime) :
  Main.plausible now d = Ok true ->
  Main.year_floor <= year d /\ datetime_le d now = Ok true /\
  (utcoffset now = None -> utcoffset d = None /\ ~ datetime_lt now d).
Proof.
  unfold Main.plausible.
  destruct (Main.year_floor <=? year d) eqn:Hy; [|discriminate].
  intros H. split; [now apply Z.leb_le|]. split; [exact H|].
  intros Hn. unfold datetime_le, datetime_cmp in H. rewrite Hn in H.
  destruct (utcoffset d); [discriminate|]. split; [reflexivity|].
  simpl in H.
  unfold datetime_lt, datetime_compare in *.
  rewrite lex_compare_antisym.
  destruct (lex_compare (datetime_fields d) (datetime_fields now));
    simpl in *; congruence.
Qed.

Lemma main_scan_matches_plausible (pf : platform) (now : datetime)
    (ms : list string) (st st' : hstate) (d : datetime) :
  Main.scan_matches pf now ms st = (Ok (Some d), st') ->
  Main.plausible now d = Ok true.
Proof.
  induction ms as [|m ms IH]; cbn [Main.scan_matches]; [discriminate|].
  destruct (Main.parse pf m) as [[p|]|e]; try discriminate; try exact IH.
  destruct (Main.plausible now p) as [[|]|e] eqn:Hp;
    [|exact IH|discriminate].
  intros [= <- _]. exact Hp.
Qed.

Lemma main_scan_patterns_plausible (pf : platform) (now : datetime)
    (page_text : string) (pats : list string) (st st' : hstate) (d : datetime) :
  Main.scan_patterns pf now page_text pats st = (Ok (Some d), st') ->
  Main.plausible now d = Ok true.
Proof.
  revert st. induction pats as [|p pats IH]; intros st;
    cbn [Main.scan_patterns]; [discriminate|].
  destruct (re_findall pf p page_text) as [ms|e]; [|discriminate].
  destruct (Main.scan_matches pf now ms st) as [[[x|]|e] st1] eqn:Hm.
  - intros [= <- _]. eapply main_scan_matches_plausible; eauto.
  - apply IH.
  - discriminate.
Qed.

Lemma selenium_on_page_first (pf : platform) (b : browser) (sel : string)
    (rest : list string) (st : hstate) (t : string) (d : datetime) :
  br_find_elements b sel = Ok [t] ->
  Text.truthy (Str.strip t) = true ->
  DateParser.parse pf (Str.strip t) = Ok (Some d) ->
  Selenium.on_page pf b (sel :: rest) st = (Some d, set_raw (Str.strip t) st).
Proof.
  intros Hel Ht Hp. cbn [Selenium.on_page]. rewrite Hel.
  cbn [map Scrape.first_parsed]. rewrite Ht, Hp. reflexivity.
Qed.

(** C8, amended. A bound is applied in the handler of main.py, to the
    candidates of the regex scan of the page text: the scan returns a
    date only if its year is at least 2020 and it is not after the time
    of the check ([d <= now] holds; the clock being naive, so is the
    date, and its fields are not greater than those of the clock).  The
    handler of the package applies no bound: the selector step returns
    the date of the first element whose text the date parser accepts,
    whatever that date is. *)
Theorem selenium_candidate_bounds (pf : platform) (now : datetime)
    (page_text : string) (pats : list string) (st st' : hstate) (d : datetime)
    (b : browser) (sel : string) (rest : list string) (t : string) (d' : datetime) :
  (Main.scan_patterns pf now page_text pats st = (Ok (Some d), st') ->
   2020 <= year d /\ datetime_le d now = Ok true /\
   (utcoffset now = None -> utcoffset d = None /\ ~ datetime_lt now d)) /\
  (br_find_elements b sel = Ok [t] ->
   Text.truthy (Str.strip t) = true ->
   DateParser.parse pf (Str.strip t) = Ok (Some d') ->
   Selenium.on_page pf b (sel :: rest) st = (Some d', set_raw (Str.strip t) st)).
Proof.
  split.
  - intros H. apply (plausible_bounds now d).
    eapply main_scan_patterns_plausible; eauto.
  - apply selenium_on_page_first.
Qed.

Lemma selenium_candidate_bounds_witness :
  let pf := Sample.with_findall ["1999-01-15"; "2999-12-31"; "2024-06-01"] in
  Main.scan_patterns pf Sample.now "" Main.text_patterns hstate_init
    = (Ok (Some (mk_datetime 2024 6 1 0 0 0 0)), set_raw "2024-06-01" hstate_init) /\
  (2020 <= year (mk_datetime 2024 6 1 0 0 0 0) /\
   ~ datetime_lt Sample.now (mk_datetime 2024 6 1 0 0 0 0)) /\
  Selenium.on_page pf (Sample.page "1999-01-15") [".updated"] hstate_init
    = (Some (mk_datetime 1999 1 15 0 0 0 0), set_raw "1999-01-15" hstate_init).
Proof.
  cbv zeta.
  set (pf := Sample.with_findall ["1999-01-15"; "2999-12-31"; "2024-06-01"]).
  assert (Main.scan_patterns pf Sample.now "" Main.text_patterns hstate_init
          = (Ok (Some (mk_datetime 2024 6 1 0 0 0 0)),
             set_raw "2024-06-01" hstate_init)) as Hscan
    by (vm_compute; reflexivity).
  pose proof (selenium_candidate_bounds pf Sample.now "" Main.text_patterns
                hstate_init (set_raw "2024-06-01" hstate_init)
                (mk_datetime 2024 6 1 0 0 0 0)
                (Sample.page "1999-01-15") ".updated" [] "1999-01-15"
                (mk_datetime 1999 1 15 0 0 0 0)) as (Hb & Hsel).
  split; [exact Hscan|]. split.
  - destruct (Hb Hscan) as (Hy & _ & Hn). split; [exact Hy|]. now apply Hn.
  - apply Hsel; vm_compute; reflexivity.
Defined.

(** * Further properties *)

(** X1. [update_timestamp] overwrites [raw_value] and [etag] only with a
    non-empty text: an entry keeps the ones of an earlier check. *)
Theorem update_keeps_earlier_raw_value (now : datetime) (ok : bool)
    (sm : StateManager) (id : string) (T : datetime) (raw etag : option string)
    (e : gmap string sval) :
  _state sm !! id = Some e ->
  exists e',
    _state (update_timestamp now ok sm id T raw etag) !! id = Some e' /\
    (raw = None \/ raw = Some "" -> e' !! "raw_value" = e !! "raw_value") /\
    (etag = None \/ etag = Some "" -> e' !! "etag" = e !! "etag") /\
    (forall k, k <> "timestamp" -> k <> "last_check" -> k <> "raw_value" ->
               k <> "etag" -> e' !! k = e !! k).
Proof.
  intros He. unfold update_timestamp. rewrite _state_save_state. cbn [_state].
  rewrite He. cbn [from_option Datatypes.id].
  eexists. split; [apply lookup_insert_eq|].
  split; [|split].
  - intros Hraw. rewrite set_if_truthy_lookup_ne by discriminate.
    assert (set_if_truthy "raw_value" raw
              (<["last_check":=SStr (isoformat now)]>
                 (<["timestamp":=SStr (isoformat T)]> e))
            = <["last_check":=SStr (isoformat now)]>
                 (<["timestamp":=SStr (isoformat T)]> e)) as ->
      by (destruct Hraw as [-> | ->]; reflexivity).
    now rewrite !lookup_insert_ne by discriminate.
  - intros Hetag.
    assert (forall m, set_if_truthy "etag" etag m = m) as ->
      by (intros m; destruct Hetag as [-> | ->]; reflexivity).
    rewrite set_if_truthy_lookup_ne by discriminate.
    now rewrite !lookup_insert_ne by discriminate.
  - intros k H1 H2 H3 H4.
    rewrite !set_if_truthy_lookup_ne by congruence.
    now rewrite !lookup_insert_ne by congruence.
Qed.

Lemma update_keeps_earlier_raw_value_witness :
  exists e',
    _state (update_timestamp Sample.now true SampleState.stored_with_raw "src"
              (mk_datetime 2025 2 1 0 0 0 0) None None) !! "src" = Some e' /\
    e' !! "raw_value" = Some (SStr "Wed, 15 Jan 2025 10:30:00 GMT") /\
    e' !! "etag" = Some (SStr "v1").
Proof.
  destruct (update_keeps_earlier_raw_value Sample.now true SampleState.stored_with_raw
              "src" (mk_datetime 2025 2 1 0 0 0 0) None None
              (default ∅ (_state SampleState.stored_with_raw !! "src")))
    as (e' & He' & Hraw & Hetag & _).
  { vm_compute. reflexivity. }
  exists e'. split; [exact He'|].
  rewrite Hraw, Hetag by (left; reflexivity). vm_compute. split; reflexivity.
Defined.

(** The state a check leaves is the one before it or the one
    [update_timestamp] gives for the same source. *)
Lemma check_for_updates_state (w : world) (s : Sentinel) (id : string) :
  snd (check_for_updates w s id) = state_manager s \/
  exists t raw etag,
    snd (check_for_updates w s id)
    = update_timestamp (w_now w) (w_write_ok w) (state_manager s) id t raw etag.
Proof.
  unfold check_for_updates.
  destruct (config_falsy (get_source (registry s) id)); [left; reflexivity|].
  cbv zeta.
  destruct (get_handler (registry s) id) as [[h|]|e]; try (left; reflexivity).
  destruct (fo_value (w_fetch w h)) as [cur|e]; [|left; reflexivity].
  destruct (compare_with_stored cur _); [|left; reflexivity].
  destruct cur as [t|]; [|left; reflexivity].
  right. cbn [snd]. eauto.
Qed.

Lemma check_for_updates_other (w : world) (s : Sentinel) (id id' : string) :
  id <> id' ->
  _state (snd (check_for_updates w s id)) !! id' = _state (state_manager s) !! id'.
Proof.
  intros Hne.
  destruct (check_for_updates_state w s id) as [-> | (t & raw & etag & ->)];
    [reflexivity|].
  now apply update_timestamp_other.
Qed.

(** X2. A check of one source leaves the entries of all other sources as
    they were. *)
Theorem check_leaves_other_sources (w : world) (s : Sentinel) (id id' : string) :
  id <> id' ->
  get_state (snd (check_for_updates w s id)) id' = get_state (state_manager s) id' /\
  get_last_timestamp (snd (check_for_updates w s id)) id'
  = get_last_timestamp (state_manager s) id'.
Proof.
  intros Hne. pose proof (check_for_updates_other w s id id' Hne) as H.
  unfold get_state, get_last_timestamp. now rewrite H.
Qed.

Lemma check_leaves_other_sources_witness :
  get_last_timestamp
    (snd (check_for_updates
            (api_world Reference.pf (Sample.serve Sample.fresh_body) Sample.now true)
            (mk_Sentinel Sample.registry SampleState.stored_elsewhere None) "src"))
    "other"
  = Some Sample.instant.
Proof.
  destruct (check_leaves_other_sources
              (api_world Reference.pf (Sample.serve Sample.fresh_body) Sample.now true)
              (mk_Sentinel Sample.registry SampleState.stored_elsewhere None)
              "src" "other") as (_ & ->).
  - discriminate.
  - vm_compute. reflexivity.
Defined.

(** X3. [clear_state] removes the entry of one source and nothing
    else; when the source has no entry nothing happens, not even a
    write.  After it the next check that obtains an instant reports a
    change, with no previous timestamp. *)
Theorem clear_state_resets_one_source (w : world) (s : Sentinel) (ok : bool)
    (id : string) (h : handler) (t : datetime) :
  get_handler (registry s) id = Ok (Some h) ->
  fo_value (w_fetch w h) = Ok (Some t) ->
  let cleared := clear_state ok (state_manager s) id in
  _state cleared = delete id (_state (state_manager s)) /\
  (_state (state_manager s) !! id = None -> cleared = state_manager s) /\
  exists r,
    fst (check_for_updates w (mk_Sentinel (registry s) cleared (verifier s)) id) = Ok r /\
    changed r = true /\ previous_timestamp r = None /\ current_timestamp r = Some t.
Proof.
  intros Hh Hf cleared.
  split; [|split].
  - subst cleared. unfold clear_state.
    destruct (_state (state_manager s) !! id) eqn:E.
    + now rewrite _state_save_state.
    + symmetry. now apply delete_id.
  - intros Hn. subst cleared. unfold clear_state. now rewrite Hn.
  - assert (compare_with_stored (Some t) (get_last_timestamp cleared id) = Ok true)
      as Hcmp by (subst cleared; now rewrite get_last_timestamp_clear).
    destruct (check_for_updates_fetched w
                (mk_Sentinel (registry s) cleared (verifier s)) id h (Some t) true
                Hh Hf Hcmp)
      as (r & Hout & Hc & Hcur & Hprev & _).
    exists r. rewrite Hout. cbn [fst state_manager] in *.
    subst cleared. rewrite get_last_timestamp_clear in Hprev.
    auto.
Qed.

Lemma clear_state_resets_one_source_witness :
  exists r,
    fst (check_for_updates
           (api_world Reference.pf (Sample.serve Sample.fresh_body) Sample.now true)
           (mk_Sentinel Sample.registry (clear_state true Sample.stored "src") None)
           "src") = Ok r /\
    changed r = true /\ previous_timestamp r = None /\
    current_timestamp r = Some (mk_datetime 2025 6 15 15 6 40 0).
Proof.
  apply (clear_state_resets_one_source
           (api_world Reference.pf (Sample.serve Sample.fresh_body) Sample.now true)
           Sample.sentinel true "src" Sample.api_handler
           (mk_datetime 2025 6 15 15 6 40 0)).
  - vm_compute. reflexivity.
  - vm_compute. reflexivity.
Defined.

(** X4. The registry builds a handler exactly for a source whose
    [method] is one of the five known names; the class is the one of
    the name, and the configuration is the one of the source with
    [dcid] set to the id asked for. *)
Theorem get_handler_spec (r : SourceRegistry) (id : string) (h : handler) :
  get_handler r id = Ok (Some h) <->
  exists cfg m,
    sources r !! id = Some cfg /\ cfg !! "method" = Some (CStr m) /\
    ((m = "http_head" /\ h_class h = HTTPHandler) \/
     (m = "api" /\ h_class h = APIHandler) \/
     (m = "selenium" /\ h_class h = SeleniumHandler) \/
     (m = "beautifulsoup" /\ h_class h = BS4Handler) \/
     (m = "cli" /\ h_class h = CLIHandler)) /\
    h_config h = <["dcid" := CStr id]> cfg /\
    h_settings h = settings r.
Proof.
  unfold get_handler, get_source. split.
  - destruct (sources r !! id) as [cfg|] eqn:Hs; cbn [config_falsy]; [|discriminate].
    destruct (bool_decide (cfg = ∅)); [discriminate|].
    cbn [from_option Datatypes.id]. cbv zeta.
    destruct (cfg !! "method") as [[m|n|b|l]|] eqn:Hm; cbn [opt_truthy cval_truthy].
    + destruct (Text.truthy m); cbn [negb]; [|discriminate].
      cbn [HANDLER_MAP rbind].
      destruct (String.eqb m "http_head") eqn:E1;
        [apply String.eqb_eq in E1; intros [= <-]; exists cfg, m; cbn; auto 10|].
      destruct (String.eqb m "api") eqn:E2;
        [apply String.eqb_eq in E2; intros [= <-]; exists cfg, m; cbn; auto 10|].
      destruct (String.eqb m "selenium") eqn:E3;
        [apply String.eqb_eq in E3; intros [= <-]; exists cfg, m; cbn; auto 10|].
      destruct (String.eqb m "beautifulsoup") eqn:E4;
        [apply String.eqb_eq in E4; intros [= <-]; exists cfg, m; cbn; auto 10|].
      destruct (String.eqb m "cli") eqn:E5;
        [apply String.eqb_eq in E5; intros [= <-]; exists cfg, m; cbn; auto 10|].
      discriminate.
    + destruct (negb (negb (n =? 0))); discriminate.
    + destruct b; discriminate.
    + destruct l; discriminate.
    + discriminate.
  - intros (cfg & m & Hs & Hm & Hcls & Hcfg & Hset).
    rewrite Hs. cbn [config_falsy].
    assert (cfg <> ∅) as Hne.
    { intros ->. rewrite lookup_empty in Hm. discriminate. }
    rewrite bool_decide_eq_false_2 by exact Hne.
    cbn [from_option Datatypes.id]. cbv zeta. rewrite Hm.
    destruct h as [c hc hs]. cbn in Hcls, Hcfg, Hset. subst hc hs.
    destruct Hcls as [(-> & ->) | [(-> & ->) | [(-> & ->) | [(-> & ->) | (-> & ->)]]]];
      reflexivity.
Qed.

(** X5. A source whose [method] is a non-empty list makes the lookup in
    [HANDLER_MAP] raise [TypeError]; nothing around it catches it, so
    the check raises, the state is left as it was, and a batch that
    contains the source raises instead of returning results. *)
Theorem list_method_raises (w : world) (s : Sentinel) (id : string)
    (cfg : gmap string cval) (x : string) (l : list string) :
  sources (registry s) !! id = Some cfg ->
  cfg !! "method" = Some (CList (x :: l)) ->
  check_for_updates w s id = (Raise TypeError, state_manager s) /\
  forall (ws : nat -> world) before after,
    exists e, fst (check_all_sources ws s (before ++ id :: after)) = Raise e.
Proof.
  intros Hs Hm.
  assert (forall w' s', registry s' = registry s ->
            check_for_updates w' s' id = (Raise TypeError, state_manager s')) as Hraise.
  { intros w' s' Hr. unfold check_for_updates, get_handler, get_source.
    rewrite Hr, Hs. cbn [config_falsy].
    assert (cfg <> ∅) as Hne.
    { intros ->. rewrite lookup_empty in Hm. discriminate. }
    rewrite bool_decide_eq_false_2 by exact Hne.
    cbn [from_option Datatypes.id]. cbv zeta. rewrite Hm. reflexivity. }
  split; [now apply Hraise|].
  intros ws before after. unfold check_all_sources.
  assert (forall s' k, registry s' = registry s ->
            exists e, fst (check_all_from ws k s' (before ++ id :: after)) = Raise e)
    as Hall; [|now apply Hall].
  induction before as [|b before IH]; intros s' k Hr.
  - cbn [app check_all_from]. rewrite (Hraise (ws k) s' Hr). eauto.
  - cbn [app check_all_from].
    destruct (check_for_updates (ws k) s' b) as [[r|e] sm]; [|eauto].
    destruct (IH (mk_Sentinel (registry s') sm (verifier s')) (S k) Hr) as (e & He).
    destruct (check_all_from ws (S k) _ _) as [[rs|e'] sm'] eqn:E; cbn [fst] in *;
      [discriminate|eauto].
Qed.

Lemma list_method_raises_witness :
  check_for_updates
    (api_world Reference.pf (Sample.serve Sample.fresh_body) Sample.now true)
    (mk_Sentinel SampleState.list_method_registry Sample.stored None) "src"
  = (Raise TypeError, Sample.stored).
Proof.
  apply (list_method_raises
           (api_world Reference.pf (Sample.serve Sample.fresh_body) Sample.now true)
           (mk_Sentinel SampleState.list_method_registry Sample.stored None) "src"
           {[ "method" := CList ["api"; "cli"];
              "data_url" := CStr "https://example.org/meta" ]} "api" ["cli"]).
  - vm_compute. reflexivity.
  - vm_compute. reflexivity.
Defined.



Lemma check_for_updates_dcid (w : world) (s : Sentinel) (id : string) (r : CheckResult) :
  fst (check_for_updates w s id) = Ok r -> dcid r = id.
Proof.
  unfold check_for_updates.
  destruct (config_falsy (get_source (registry s) id)); [intros [= <-]; reflexivity|].
  cbv zeta.
  destruct (get_handler (registry s) id) as [[h|]|e]; cbn [fst];
    [|intros [= <-]; reflexivity|discriminate].
  destruct (fo_value (w_fetch w h)) as [cur|e]; cbn [fst];
    [|intros [= <-]; reflexivity].
  destruct (compare_with_stored cur _) as [chg|e]; cbn [fst]; [|discriminate].
  match goal with
  | |- context [verify_step ?w ?s ?h ?o ?n ?u ?c ?res] =>
      destruct (verify_step_ok w s h o n u c res) as (r' & -> & Hd & _)
  end.
  intros [= <-]. exact Hd.
Qed.

(** The result of a check depends on the state manager through the
    entry of the source only. *)
Lemma check_for_updates_local (w : world) (s s' : Sentinel) (id : string) :
  registry s' = registry s -> verifier s' = verifier s ->
  _state (state_manager s') !! id = _state (state_manager s) !! id ->
  fst (check_for_updates w s' id) = fst (check_for_updates w s id).
Proof.
  intros Hr Hv Hst. unfold check_for_updates. rewrite Hr.
  destruct (config_falsy (get_source (registry s) id)); [reflexivity|].
  cbv zeta.
  destruct (get_handler (registry s) id) as [[h|]|e]; try reflexivity.
  destruct (fo_value (w_fetch w h)) as [cur|e]; [|reflexivity].
  cbn [fst].
  assert (get_last_timestamp (state_manager s') id
          = get_last_timestamp (state_manager s) id) as ->
    by (unfold get_last_timestamp; now rewrite Hst).
  destruct (compare_with_stored cur _) as [chg|e]; [|reflexivity].
  unfold verify_step. now rewrite Hv.
Qed.

Lemma check_all_from_results (ws : nat -> world) (ids : list string) :
  forall (k : nat) (s : Sentinel) (rs : list CheckResult),
    fst (check_all_from ws k s ids) = Ok rs ->
    map dcid rs = ids /\
    (NoDup ids ->
     forall (j : nat) (id : string),
       ids !! j = Some id ->
       exists r, rs !! j = Some r /\
                 fst (check_for_updates (ws (k + j)%nat) s id) = Ok r).
Proof.
  induction ids as [|id0 rest IH]; intros k s rs.
  - cbn. intros [= <-]. split; [reflexivity|]. intros _ j id Hj. discriminate.
  - cbn [check_all_from].
    destruct (check_for_updates (ws k) s id0) as [[r0|e] sm] eqn:E0; [|discriminate].
    set (s1 := mk_Sentinel (registry s) sm (verifier s)).
    destruct (check_all_from ws (S k) s1 rest) as [[rs'|e] sm'] eqn:E1;
      cbn [fst]; [|discriminate].
    intros [= <-].
    destruct (IH (S k) s1 rs') as (Hmap & Hind); [now rewrite E1|].
    split.
    + cbn [map]. f_equal; [|exact Hmap].
      apply (check_for_updates_dcid (ws k) s). now rewrite E0.
    + intros Hnd j id Hj. apply NoDup_cons in Hnd as (Hnin & Hnd).
      destruct j as [|j].
      * cbn in Hj. injection Hj as <-. exists r0. split; [reflexivity|].
        rewrite Nat.add_0_r. now rewrite E0.
      * cbn in Hj. destruct (Hind Hnd j id Hj) as (r & Hr & Hchk).
        exists r. split; [exact Hr|].
        replace (k + S j)%nat with (S k + j)%nat by lia.
        rewrite <- Hchk. symmetry.
        apply check_for_updates_local; [reflexivity|reflexivity|].
        subst s1. cbn [state_manager].
        assert (id0 <> id) as Hne.
        { intros ->. apply Hnin. eapply list_elem_of_lookup_2. exact Hj. }
        pose proof (check_for_updates_other (ws k) s id0 id Hne) as Hg.
        rewrite E0 in Hg. exact Hg.
Qed.

(** X7. A batch returns one result per source, in the order of the
    sources, and (the ids of a configuration being distinct) each result
    is the one the source gets when it is checked on its own: checks of
    other sources do not influence it. *)
Theorem check_all_sources_results (ws : nat -> world) (s : Sentinel)
    (ids : list string) (rs : list CheckResult) :
  fst (check_all_sources ws s ids) = Ok rs ->
  map dcid rs = ids /\
  (NoDup ids ->
   forall (j : nat) (id : string),
     ids !! j = Some id ->
     exists r, rs !! j = Some r /\ fst (check_for_updates (ws j) s id) = Ok r).
Proof.
  intros H. exact (check_all_from_results ws ids 0 s rs H).
Qed.

Lemma check_all_sources_results_witness :
  exists rs,
    fst (check_all_sources
           (fun _ => api_world Reference.pf (Sample.serve Sample.fresh_body)
                               Sample.now true)
           Sample.sentinel ["src"; "nowhere"]) = Ok rs /\
    map dcid rs = ["src"; "nowhere"].
Proof.
  destruct (fst (check_all_sources
                   (fun _ => api_world Reference.pf (Sample.serve Sample.fresh_body)
                                       Sample.now true)
                   Sample.sentinel ["src"; "nowhere"])) as [rs|e] eqn:E.
  - exists rs. split; [reflexivity|].
    apply (check_all_sources_results
             (fun _ => api_world Reference.pf (Sample.serve Sample.fresh_body)
                                 Sample.now true)
             Sample.sentinel ["src"; "nowhere"] rs E).
  - exfalso. revert E. vm_compute. discriminate.
Defined.

(** A result either has no error, and then [changed] comes with a
    current timestamp, or it has one, and then nothing was fetched,
    compared or written. *)
Lemma check_for_updates_cases (w : world) (s : Sentinel) (id : string)
    (r : CheckResult) :
  fst (check_for_updates w s id) = Ok r ->
  (error r = None /\
   (changed r = true -> exists t, current_timestamp r = Some t)) \/
  (error r <> None /\ changed r = false /\ current_timestamp r = None /\
   previous_timestamp r = None /\
   snd (check_for_updates w s id) = state_manager s).
Proof.
  intros Hr.
  destruct (get_handler (registry s) id) as [[h|]|e] eqn:Hh.
  - destruct (fo_value (w_fetch w h)) as [cur|e] eqn:Hf.
    + destruct (compare_with_stored cur (get_last_timestamp (state_manager s) id))
        as [chg|e] eqn:Hcmp.
      * left.
        destruct (check_for_updates_fetched w s id h cur chg Hh Hf Hcmp)
          as (r' & Hout & Hc & Hcur & _ & Herr).
        rewrite Hout in Hr. cbn [fst] in Hr. injection Hr as <-.
        split; [exact Herr|]. intros Hch. rewrite Hc in Hch. subst chg.
        destruct cur as [t|]; [eauto|]. cbn in Hcmp. congruence.
      * rewrite (check_for_updates_incomparable w s id h cur e Hh Hf Hcmp) in Hr.
        discriminate.
    + right. destruct (check_for_updates_not_fetched w s id) as (Hs & Hn).
      { now rewrite Hh, Hf. }
      destruct (Hn r Hr) as (? & ? & ? & ?). auto.
  - right. destruct (check_for_updates_not_fetched w s id) as (Hs & Hn).
    { now rewrite Hh. }
    destruct (Hn r Hr) as (? & ? & ? & ?). auto.
  - right. destruct (check_for_updates_not_fetched w s id) as (Hs & Hn).
    { now rewrite Hh. }
    destruct (Hn r Hr) as (? & ? & ? & ?). auto.
Qed.

(** X8. What every result of a check satisfies: it carries the id that
    was asked for; [changed] comes with a current timestamp and without
    an error; an error comes without timestamps, with [changed = false]
    and with the state untouched; and [status] is 'updated' exactly for
    the results with [changed]. *)
Theorem check_result_invariant (w : world) (s : Sentinel) (id : string)
    (r : CheckResult) :
  fst (check_for_updates w s id) = Ok r ->
  dcid r = id /\
  (changed r = true ->
   error r = None /\ exists t, current_timestamp r = Some t) /\
  (is_success r = false ->
   changed r = false /\ current_timestamp r = None /\ previous_timestamp r = None /\
   snd (check_for_updates w s id) = state_manager s) /\
  (status r = "updated" <-> changed r = true).
Proof.
  intros Hr.
  split; [now apply (check_for_updates_dcid w s)|].
  pose proof (check_for_updates_cases w s id r Hr) as Hcases.
  unfold is_success, status.
  destruct Hcases as [(Herr & Hcur) | (Herr & Hch & Hcur & Hprev & Hst)].
  - rewrite Herr. split; [auto|]. split; [discriminate|].
    destruct (changed r); split; congruence.
  - destruct (error r) as [e|]; [|congruence].
    rewrite Hch. split; [discriminate|]. split; [auto|].
    destruct (Text.truthy e); split; discriminate.
Qed.

Lemma check_result_invariant_witness :
  exists r,
    fst (check_for_updates
           (api_world Reference.pf (Sample.serve Sample.fresh_body) Sample.now true)
           Sample.sentinel "src") = Ok r /\
    dcid r = "src" /\ (status r = "updated" <-> changed r = true).
Proof.
  destruct (fst (check_for_updates
                   (api_world Reference.pf (Sample.serve Sample.fresh_body)
                              Sample.now true)
                   Sample.sentinel "src")) as [r|e] eqn:E.
  - exists r. split; [reflexivity|].
    destruct (check_result_invariant
                (api_world Reference.pf (Sample.serve Sample.fresh_body)
                           Sample.now true)
                Sample.sentinel "src" r E) as (H1 & _ & _ & H2).
    split; assumption.
  - exfalso. revert E. vm_compute. discriminate.
Defined.

Lemma check_all_from_unchanged_errors (ws : nat -> world) (ids : list string) :
  forall k s rs,
    fst (check_all_from ws k s ids) = Ok rs ->
    Forall (fun r => has_error r = true -> changed r = false) rs.
Proof.
  induction ids as [|id0 rest IH]; intros k s rs.
  - cbn. intros [= <-]. constructor.
  - cbn [check_all_from].
    destruct (check_for_updates (ws k) s id0) as [[r0|e] sm] eqn:E0; [|discriminate].
    destruct (check_all_from ws (S k) _ rest) as [[rs'|e] sm'] eqn:E1;
      cbn [fst]; [|discriminate].
    intros [= <-]. constructor.
    + intros He. destruct (check_for_updates_cases (ws k) s id0 r0) as [(Hn & _)|(_ & Hc & _)].
      * now rewrite E0.
      * unfold has_error in He. rewrite Hn in He. discriminate.
      * exact Hc.
    + eapply IH. now rewrite E1.
Qed.

(** X9. The three numbers of the summary partition the batch: no
    result is counted twice, and the number of unchanged sources, which
    the script gets by subtraction, is the number of results that have
    neither a change nor an error. *)
Theorem summary_partitions_batch (ws : nat -> world) (s : Sentinel)
    (ids : list string) (rs : list CheckResult) :
  fst (check_all_sources ws s ids) = Ok rs ->
  let '(updated, unchanged, errors) := summary rs in
  unchanged
  = Z.of_nat (length (List.filter (fun r => negb (changed r) && negb (has_error r)) rs))
  /\ updated + unchanged + errors = Z.of_nat (length ids).
Proof.
  intros H. unfold check_all_sources in H.
  pose proof (check_all_from_unchanged_errors ws ids 0 s rs H) as Hinv.
  destruct (check_all_from_results ws ids 0 s rs H) as (Hmap & _).
  unfold summary. cbv zeta.
  assert (length ids = length rs) as -> by (rewrite <- Hmap; now rewrite length_map).
  clear H Hmap. split; [|lia].
  induction Hinv as [|r rs Hr Hrs IH]; [reflexivity|].
  cbn [List.filter length].
  destruct (changed r) eqn:Ec; destruct (has_error r) eqn:Ee; cbn [negb andb length].
  - specialize (Hr eq_refl). discriminate.
  - lia.
  - lia.
  - lia.
Qed.

Lemma summary_partitions_batch_witness :
  exists rs,
    fst (check_all_sources
           (fun _ => api_world Reference.pf (Sample.serve Sample.fresh_body)
                               Sample.now true)
           Sample.sentinel ["src"; "nowhere"]) = Ok rs /\
    summary rs = (1, 0, 1).
Proof.
  destruct (fst (check_all_sources
                   (fun _ => api_world Reference.pf (Sample.serve Sample.fresh_body)
                                       Sample.now true)
                   Sample.sentinel ["src"; "nowhere"])) as [rs|e] eqn:E.
  - exists rs. split; [reflexivity|].
    pose proof (summary_partitions_batch
                  (fun _ => api_world Reference.pf (Sample.serve Sample.fresh_body)
                                      Sample.now true)
                  Sample.sentinel ["src"; "nowhere"] rs E) as H.
    revert E H. vm_compute. intros [= <-]. reflexivity.
  - exfalso. revert E. vm_compute. discriminate.
Defined.

Lemma first_field_in (d : list (string * json)) (fields : list cval) (v : json) :
  API.first_field d fields = Ok (Some v) ->
  exists f, In (CStr f) fields /\ dict_get f d = Some v.
Proof.
  induction fields as [|f rest IH]; [discriminate|].
  cbn [API.first_field]. destruct f as [k|n|b|l]; try discriminate.
  - destruct (dict_get k d) eqn:E.
    + intros [= <-]. exists k. split; [now left|exact E].
    + intros H. destruct (IH H) as (f' & Hin & Hget).
      exists f'. split; [now right|exact Hget].
  - intros H. destruct (IH H) as (f' & Hin & Hget).
    exists f'. split; [now right|exact Hget].
  - intros H. destruct (IH H) as (f' & Hin & Hget).
    exists f'. split; [now right|exact Hget].
Qed.

Lemma first_field_raises (d : list (string * json)) (fields : list cval) (e : exn) :
  API.first_field d fields = Raise e ->
  e = TypeError /\ exists l, In (CList l) fields.
Proof.
  induction fields as [|f rest IH]; [discriminate|].
  cbn [API.first_field]. destruct f as [k|n|b|l].
  - destruct (dict_get k d); [discriminate|].
    intros H. destruct (IH H) as (-> & l & Hin). split; [reflexivity|].
    exists l. now right.
  - intros H. destruct (IH H) as (-> & l & Hin). split; [reflexivity|].
    exists l. now right.
  - intros H. destruct (IH H) as (-> & l & Hin). split; [reflexivity|].
    exists l. now right.
  - intros [= <-]. split; [reflexivity|]. exists l. now left.
Qed.

Lemma find_timestamp_value_reachable_size (fields : list cval) (n : nat) :
  forall data, (json_size data <= n)%nat ->
    match API._find_timestamp_value data fields with
    | Ok v => v = JNull \/ reachable fields v data
    | Raise e => e = TypeError /\ exists l, In (CList l) fields
    end.
Proof.
  induction n as [|n IH]; intros data Hsz.
  - destruct data; cbn in Hsz; lia.
  - destruct data as [| | | |l|d]; try (left; reflexivity).
    + destruct l as [|x l]; [left; reflexivity|].
      cbn [API._find_timestamp_value].
      assert (json_size x <= n)%nat as Hx by (cbn in Hsz; lia).
      specialize (IH x Hx).
      destruct (API._find_timestamp_value x fields) as [v|e]; [|exact IH].
      destruct IH as [H | H]; [now left|].
      right. apply reachable_first. exact H.
    + cbn [API._find_timestamp_value].
      destruct (API.first_field d fields) as [[v|]|e] eqn:Ef.
      * right. destruct (first_field_in d fields v Ef) as (f & Hin & Hget).
        eapply reachable_key; eassumption.
      * assert (forall l, (forall k x, In (k, x) l -> In (k, x) d) ->
                  match
                    (fix values (l : list (string * json)) : result json :=
                       match l with
                       | [] => Ok JNull
                       | (_, v) :: r =>
                           match API._find_timestamp_value v fields with
                           | Raise e => Raise e
                           | Ok res => if json_truthy res then Ok res else values r
                           end
                       end) l
                  with
                  | Ok res => res = JNull \/ reachable fields res (JDict d)
                  | Raise e => e = TypeError /\ exists l, In (CList l) fields
                  end) as Hvals.
        { induction l as [|[k x] l IHl]; intros Hsub; [left; reflexivity|].
          assert (In (k, x) d) as Hin by (apply Hsub; now left).
          assert (json_size x <= n)%nat as Hx.
          { cbn in Hsz.
            assert (json_size x <= list_sum (map (fun kv => json_size (snd kv)) d))%nat.
            { clear -Hin. induction d as [|[k' x'] d IHd]; [destruct Hin|].
              cbn [map snd]. change (list_sum (?a :: ?l)) with (a + list_sum l)%nat.
              destruct Hin as [[= -> ->]|Hin]; [apply Nat.le_add_r|].
              specialize (IHd Hin). etransitivity; [exact IHd|apply Nat.le_add_l]. }
            lia. }
          pose proof (IH x Hx) as Hrec.
          destruct (API._find_timestamp_value x fields) as [res|e]; [|exact Hrec].
          destruct (json_truthy res) eqn:Et.
          - destruct Hrec as [H | H].
            + rewrite H in Et. discriminate.
            + right. eapply reachable_member; [exact Hin|exact H].
          - apply IHl. intros k' x' Hin'. apply Hsub. now right. }
        apply (Hvals d). auto.
      * exact (first_field_raises d fields e Ef).
Qed.

(** X10. The value [_find_timestamp_value] returns is [None] or a value
    that the response holds under one of the requested fields; the
    search never makes a value up and never returns one stored under
    another key.  It raises only [TypeError], and only when one of the
    fields is a list (which is unhashable); with fields that are all
    texts it returns. *)
Theorem find_timestamp_value_sound (data : json) (fields : list cval) :
  match API._find_timestamp_value data fields with
  | Ok v => v = JNull \/ reachable fields v data
  | Raise e => e = TypeError /\ exists l, In (CList l) fields
  end /\
  ((forall f, In f fields -> exists k, f = CStr k) ->
   exists v, API._find_timestamp_value data fields = Ok v /\
             (v = JNull \/ reachable fields v data)).
Proof.
  pose proof (find_timestamp_value_reachable_size fields (json_size data) data (le_n _))
    as H.
  split; [exact H|].
  intros Hstr.
  destruct (API._find_timestamp_value data fields) as [v|e].
  - exists v. split; [reflexivity|exact H].
  - destruct H as (_ & l & Hin). destruct (Hstr _ Hin) as (k & Hk). discriminate.
Qed.

(** X11. A numeric timestamp in milliseconds and the same instant in
    seconds are read as the same datetime, for every instant between
    2001-09-09 (1e9 s, exclusive) and the year 33658 (1e12 s,
    inclusive). *)
Theorem api_seconds_millis_agree (pf : platform) (n : Z) :
  10 ^ 9 < n <= 10 ^ 12 ->
  API._parse_timestamp_value pf (JNum (NInt (1000 * n)))
  = API._parse_timestamp_value pf (JNum (NInt n)).
Proof.
  intros Hn. cbn [API._parse_timestamp_value float_of_number].
  unfold API.parse_number.
  assert (float_gtb (Finite (inject_Z (1000 * n))) (inject_Z (10 ^ 12)) = true) as ->.
  { cbn [float_gtb]. apply negb_true_iff. apply not_true_is_false.
    rewrite Qle_bool_iff. unfold Qle, inject_Z. cbn [Qnum Qden]. lia. }
  assert (float_gtb (Finite (inject_Z n)) (inject_Z (10 ^ 12)) = false) as ->.
  { cbn [float_gtb]. apply negb_false_iff.
    rewrite Qle_bool_iff. unfold Qle, inject_Z. cbn [Qnum Qden]. lia. }
  cbn [float_div].
  rewrite (fromtimestamp_microseconds pf (inject_Z (1000 * n) / inject_Z 1000)%Q
             (inject_Z n)); [reflexivity|].
  unfold Timestamp.round_half_even.
  change (Qnum (inject_Z (1000 * n) / inject_Z 1000 * inject_Z 1000000)%Q)
    with (1000 * n * 1 * 1000000).
  change (Z.pos (Qden (inject_Z (1000 * n) / inject_Z 1000 * inject_Z 1000000)%Q))
    with 1000.
  change (Qnum (inject_Z n * inject_Z 1000000)%Q) with (n * 1000000).
  change (Z.pos (Qden (inject_Z n * inject_Z 1000000)%Q)) with 1.
  cbv zeta.
  replace (1000 * n * 1 * 1000000) with (n * 1000000 * 1000) by ring.
  rewrite Z.div_mul, Z.mod_mul by lia.
  rewrite Z.div_1_r, Z.mod_1_r. reflexivity.
Qed.

Lemma api_seconds_millis_agree_witness :
  API._parse_timestamp_value Reference.pf (JNum (NInt 1705315800000))
  = API._parse_timestamp_value Reference.pf (JNum (NInt 1705315800)).
Proof.
  apply (api_seconds_millis_agree Reference.pf 1705315800). vm_compute.
  split; [reflexivity|discriminate].
Defined.

(** ** The raw timestamp of the scraping handlers *)

Lemma first_parsed_found (parse : string -> result (option datetime))
    (cands : list string) (st st' : hstate) (d : datetime) :
  Scrape.first_parsed parse cands st = (Ok (Some d), st') ->
  exists c, In c cands /\ Text.truthy c = true /\ parse c = Ok (Some d) /\
            st' = set_raw c st.
Proof.
  induction cands as [|c rest IH]; [discriminate|].
  cbn [Scrape.first_parsed].
  destruct (Text.truthy c) eqn:Et.
  - destruct (parse c) as [[d'|]|e] eqn:Ep.
    + intros [= <- <-]. exists c. auto using in_eq.
    + intros H. destruct (IH H) as (c' & ? & ? & ? & ?). exists c'. auto using in_cons.
    + discriminate.
  - intros H. destruct (IH H) as (c' & ? & ? & ? & ?). exists c'. auto using in_cons.
Qed.

Lemma raw_parses_to_first_parsed parse cands st st' d :
  Scrape.first_parsed parse cands st = (Ok (Some d), st') ->
  raw_parses_to parse d st'.
Proof.
  intros H. destruct (first_parsed_found _ _ _ _ _ H) as (c & _ & Ht & Hp & ->).
  exists c. auto.
Qed.

Lemma bs4_by_selectors_raw pf sp sels st st' d :
  BS4.by_selectors pf sp sels st = (Ok (Some d), st') ->
  raw_parses_to (DateParser.parse pf) d st'.
Proof.
  induction sels as [|sel rest IH]; [discriminate|].
  cbn [BS4.by_selectors].
  destruct (soup_select sp sel) as [elements|e]; [|exact IH].
  destruct (Scrape.first_parsed _ _ st) as [[[d'|]|e] st1] eqn:E; try exact IH.
  intros [= <- <-]. eapply raw_parses_to_first_parsed. exact E.
Qed.

Lemma bs4_search_patterns_raw pf html pats st st' d :
  BS4.search_patterns pf html pats st = (Ok (Some d), st') ->
  raw_parses_to (DateParser.parse pf) d st'.
Proof.
  induction pats as [|p rest IH]; [discriminate|].
  cbn [BS4.search_patterns].
  destruct (re_search pf p html) as [[[|[date_str|] gs]|]|e];
    try discriminate; try exact IH.
  destruct (Scrape.first_parsed _ _ st) as [[[d'|]|e] st1] eqn:E;
    try discriminate; try exact IH.
  intros [= <- <-]. eapply raw_parses_to_first_parsed. exact E.
Qed.

Lemma bs4_extract_timestamp_raw pf cfg sp html st st' d :
  BS4._extract_timestamp pf cfg sp html st = (Ok (Some d), st') ->
  raw_parses_to (DateParser.parse pf) d st'.
Proof.
  unfold BS4._extract_timestamp, BS4.or_else.
  destruct (BS4._find_by_selectors pf cfg sp st) as [[[d1|]|e1] st1] eqn:E1;
    [|clear E1|discriminate].
  { intros [= <- <-]. unfold BS4._find_by_selectors in E1. cbv zeta in E1.
    destruct (negb _); [discriminate|].
    destruct (as_str _); [|discriminate]. eapply bs4_by_selectors_raw. exact E1. }
  destruct (BS4._find_in_common_elements pf sp st1) as [[[d2|]|e2] st2] eqn:E2;
    [|clear E2|discriminate].
  { intros [= <- <-]. eapply raw_parses_to_first_parsed. exact E2. }
  destruct (BS4._find_in_meta_tags pf sp st2) as [[[d3|]|e3] st3] eqn:E3;
    [|clear E3|discriminate].
  { intros [= <- <-]. eapply raw_parses_to_first_parsed. exact E3. }
  unfold BS4._search_with_patterns. cbv zeta.
  destruct (negb _); [apply bs4_search_patterns_raw|].
  destruct (py_iter _); [apply bs4_search_patterns_raw|discriminate].
Qed.

(** X12. When the BeautifulSoup handler returns an instant, the raw
    timestamp it recorded is a non-empty text that [DateParser.parse]
    reads as that instant. *)
Theorem bs4_returns_parsed_raw (pf : platform) (net : network) (h : handler)
    (d : datetime) :
  fst (BS4.fetch_current_timestamp pf net h) = Ok (Some d) ->
  exists raw,
    _raw_timestamp (snd (BS4.fetch_current_timestamp pf net h)) = Some raw /\
    raw <> "" /\ DateParser.parse pf raw = Ok (Some d).
Proof.
  unfold BS4.fetch_current_timestamp.
  destruct (negb _); [discriminate|].
  destruct (BeautifulSoup pf) as [make_soup|]; [|discriminate].
  destruct (py_range (max_retries h)) as [n|e]; [|discriminate].
  generalize hstate_init.
  induction n as [|n IH]; intros st; [discriminate|].
  cbn [BS4.attempts]. unfold send.
  destruct (net (length (sent st)) "GET") as [|r]; [apply IH|].
  destruct (status_is_error r); [apply IH|].
  destruct (make_soup (text r)) as [sp|e]; [|discriminate].
  destruct (BS4._extract_timestamp pf (h_config h) sp (text r) _)
    as [res st'] eqn:E.
  cbn [fst snd]. intros ->.
  destruct (bs4_extract_timestamp_raw _ _ _ _ _ _ _ E) as (c & Hraw & Ht & Hp).
  exists c. split; [exact Hraw|]. split; [|exact Hp].
  intros ->. discriminate.
Qed.

Lemma bs4_returns_parsed_raw_witness :
  exists raw,
    _raw_timestamp
      (snd (BS4.fetch_current_timestamp
              (SamplePages.with_soup (SamplePages.time_soup "Updated: January 15, 2025"))
              (Sample.serve "<time>Updated: January 15, 2025</time>")
              SamplePages.bs4_handler)) = Some raw /\
    raw <> "" /\
    DateParser.parse
      (SamplePages.with_soup (SamplePages.time_soup "Updated: January 15, 2025")) raw
    = Ok (Some (mk_datetime 2025 1 15 0 0 0 0)).
Proof.
  apply (bs4_returns_parsed_raw
           (SamplePages.with_soup (SamplePages.time_soup "Updated: January 15, 2025"))
           (Sample.serve "<time>Updated: January 15, 2025</time>")
           SamplePages.bs4_handler (mk_datetime 2025 1 15 0 0 0 0)).
  vm_compute. reflexivity.
Defined.

Lemma selenium_on_page_raw pf br sels st st' d :
  Selenium.on_page pf br sels st = (Some d, st') ->
  raw_parses_to (DateParser.parse pf) d st'.
Proof.
  induction sels as [|sel rest IH]; [discriminate|].
  cbn [Selenium.on_page].
  destruct (br_find_elements br sel) as [texts|e]; [|exact IH].
  destruct (Scrape.first_parsed _ _ st) as [[[d'|]|e] st1] eqn:E; try exact IH.
  intros [= <- <-]. eapply raw_parses_to_first_parsed. exact E.
Qed.

Lemma parse_some_truthy pf c d :
  DateParser.parse pf c = Ok (Some d) -> Text.truthy c = true.
Proof.
  unfold DateParser.parse. destruct (Text.truthy c); [reflexivity|discriminate].
Qed.

Lemma selenium_search_text_raw pf page_text pats st st' d :
  Selenium.search_text pf page_text pats st = (Ok (Some d), st') ->
  raw_parses_to (DateParser.parse pf) d st'.
Proof.
  revert st. induction pats as [|p rest IH]; intros st; [discriminate|].
  cbn [Selenium.search_text].
  destruct (re_search pf p page_text) as [[[|[date_str|] gs]|]|e];
    try discriminate; try apply IH.
  destruct (DateParser.parse pf date_str) as [[d'|]|e] eqn:E;
    try discriminate; try apply IH.
  intros [= <- <-]. exists date_str.
  split; [reflexivity|]. split; [|exact E]. eapply parse_some_truthy. exact E.
Qed.

(** X13. When the Selenium handler returns an instant, the raw timestamp
    it recorded is a non-empty text that [DateParser.parse] reads as
    that instant. *)
Theorem selenium_returns_parsed_raw (pf : platform) (br : option browser)
    (h : handler) (d : datetime) :
  fst (Selenium.fetch_current_timestamp pf br h) = Ok (Some d) ->
  exists raw,
    _raw_timestamp (snd (Selenium.fetch_current_timestamp pf br h)) = Some raw /\
    raw <> "" /\ DateParser.parse pf raw = Ok (Some d).
Proof.
  assert (forall st, raw_parses_to (DateParser.parse pf) d st ->
            exists raw, _raw_timestamp st = Some raw /\ raw <> "" /\
                        DateParser.parse pf raw = Ok (Some d)) as Hfin.
  { intros st (c & Hraw & Ht & Hp). exists c. split; [exact Hraw|].
    split; [|exact Hp]. intros ->. discriminate. }
  unfold Selenium.fetch_current_timestamp.
  destruct (negb _); [discriminate|].
  destruct br as [b|]; [|discriminate].
  destruct (br_start b) as [[]|e0].
  2:{ destruct (Selenium.webdriver_caught e0); discriminate. }
  destruct (br_get b) as [[]|e1].
  2:{ destruct (br_quit b); [|discriminate].
      destruct (Selenium.webdriver_caught e1); discriminate. }
  destruct (br_wait_body b) as [[]|e2].
  2:{ destruct (br_quit b); [|discriminate].
      destruct (Selenium.webdriver_caught e2); discriminate. }
  destruct (br_page_source b) as [src|e3].
  2:{ destruct (br_quit b); [|discriminate].
      destruct (Selenium.webdriver_caught e3); discriminate. }
  destruct (Selenium._find_timestamp_on_page pf (h_config h) b _)
    as [[[d1|]|e4] st1] eqn:E1.
  - destruct (br_quit b); [|discriminate]. cbn [fst snd]. intros [= ->].
    apply Hfin. unfold Selenium._find_timestamp_on_page in E1. cbv zeta in E1.
    destruct (negb _); [discriminate|].
    destruct (as_str _) as [sels|e]; [|discriminate].
    destruct (Selenium.on_page pf b _ _) as [r0 st0] eqn:E0.
    injection E1 as -> ->. eapply selenium_on_page_raw. exact E0.
  - destruct (Selenium._search_page_for_date pf b st1) as [r st2] eqn:E2.
    destruct (br_quit b); [|discriminate]. cbn [fst snd]. intros [= ->].
    apply Hfin. unfold Selenium._search_page_for_date in E2.
    destruct (br_body_text b) as [page_text|e]; [|discriminate].
    destruct (Selenium.search_text pf page_text Selenium.date_patterns st1)
      as [[r'|e] st'] eqn:E3; [|discriminate].
    injection E2 as -> ->. eapply selenium_search_text_raw. exact E3.
  - destruct (br_quit b); [|discriminate].
    destruct (Selenium.webdriver_caught e4); discriminate.
Qed.

Lemma selenium_returns_parsed_raw_witness :
  exists raw,
    _raw_timestamp
      (snd (Selenium.fetch_current_timestamp Reference.pf
              (Some (Sample.page "Last updated: 2025-01-15"))
              Sample.selenium_handler)) = Some raw /\
    raw <> "" /\
    DateParser.parse Reference.pf raw = Ok (Some (mk_datetime 2025 1 15 0 0 0 0)).
Proof.
  apply (selenium_returns_parsed_raw Reference.pf
           (Some (Sample.page "Last updated: 2025-01-15"))
           Sample.selenium_handler (mk_datetime 2025 1 15 0 0 0 0)).
  vm_compute. reflexivity.
Defined.

Lemma as_str_raises (v : cval) (e : exn) :
  as_str v = Raise e -> e = AttributeError /\ forall s, v <> CStr s.
Proof.
  destruct v; cbn; try discriminate; intros [= <-]; split; try reflexivity;
    intros s0; discriminate.
Qed.



Lemma main_on_page_raw pf br sels st st' d :
  Main.on_page pf br sels st = (Some d, st') ->
  exists raw, _raw_timestamp st' = Some raw /\ Main.parse pf raw = Ok (Some d).
Proof.
  induction sels as [|sel rest IH]; [discriminate|].
  cbn [Main.on_page].
  destruct (negb (Text.truthy sel)); [exact IH|].
  destruct (br_find_elements br sel) as [texts|e]; [|exact IH].
  destruct (Scrape.first_parsed _ _ st) as [[[d'|]|e] st1] eqn:E; try exact IH.
  intros [= <- <-].
  destruct (first_parsed_found _ _ _ _ _ E) as (c & _ & _ & Hp & ->).
  exists c. split; [reflexivity|exact Hp].
Qed.

Lemma main_scan_matches_raw pf now ms st st' d :
  Main.scan_matches pf now ms st = (Ok (Some d), st') ->
  exists raw, _raw_timestamp st' = Some raw /\ Main.parse pf raw = Ok (Some d).
Proof.
  induction ms as [|date_str rest IH]; [discriminate|].
  cbn [Main.scan_matches].
  destruct (Main.parse pf date_str) as [[parsed|]|e] eqn:E;
    [|exact IH|discriminate].
  destruct (Main.plausible now parsed) as [[|]|e]; [|exact IH|discriminate].
  intros [= <- <-]. exists date_str. split; [reflexivity|exact E].
Qed.

Lemma main_scan_patterns_raw pf now page_text pats st st' d :
  Main.scan_patterns pf now page_text pats st = (Ok (Some d), st') ->
  exists raw, _raw_timestamp st' = Some raw /\ Main.parse pf raw = Ok (Some d).
Proof.
  revert st. induction pats as [|p rest IH]; intros st; [discriminate|].
  cbn [Main.scan_patterns].
  destruct (re_findall pf p page_text) as [ms|e]; [|discriminate].
  destruct (Main.scan_matches pf now ms st) as [[[d'|]|e] st1] eqn:E;
    [|apply IH|discriminate].
  intros [= <- <-]. eapply main_scan_matches_raw. exact E.
Qed.

Lemma main_scan_json_raw pf page_source pats st st' d :
  Main.scan_json pf page_source pats st = (Ok (Some d), st') ->
  exists raw, _raw_timestamp st' = Some raw /\ Main.parse pf raw = Ok (Some d).
Proof.
  revert st. induction pats as [|p rest IH]; intros st; [discriminate|].
  cbn [Main.scan_json].
  destruct (re_search pf p page_source) as [[[|[value|] gs]|]|e];
    try discriminate; try apply IH.
  destruct (Main.parse pf value) as [[d'|]|e] eqn:E;
    try discriminate; try apply IH.
  intros [= <- <-]. exists value. split; [reflexivity|exact E].
Qed.

Lemma main_extract_raw pf now cfg b st st' d :
  Main.extract pf now cfg b st = (Ok (Some d), st') ->
  exists raw, _raw_timestamp st' = Some raw /\ Main.parse pf raw = Ok (Some d).
Proof.
  unfold Main.extract.
  destruct (as_str _) as [selectors|e]; [|discriminate].
  destruct (Main.on_page pf b _ st) as [[d'|] st1] eqn:E1.
  - intros [= <- <-]. eapply main_on_page_raw. exact E1.
  - destruct (match br_body_text b with Ok t => Ok t | Raise _ => br_page_source b end)
      as [t|e]; [|discriminate].
    destruct (Main.scan_patterns pf now t Main.text_patterns st1)
      as [[[d'|]|e] st2] eqn:E2; [| |discriminate].
    + intros [= <- <-]. eapply main_scan_patterns_raw. exact E2.
    + destruct (br_page_source b) as [src|e]; [|discriminate].
      apply main_scan_json_raw.
Qed.

(** X15. The Selenium handler of main.py never raises: whatever the
    driver, the regex engine and the date parser do, it returns an
    instant or none.  When it returns an instant, the raw timestamp it
    recorded is a text that the date parser of main.py reads as that
    instant. *)
Theorem main_selenium_returns_parsed_raw (pf : platform) (now : datetime)
    (br : option browser) (h : handler) :
  exists r,
    fst (Main.selenium_fetch_current_timestamp pf now br h) = Ok r /\
    forall d, r = Some d ->
      exists raw,
        _raw_timestamp (snd (Main.selenium_fetch_current_timestamp pf now br h))
        = Some raw /\
        Main.parse pf raw = Ok (Some d).
Proof.
  unfold Main.selenium_fetch_current_timestamp.
  destruct (negb _); [exists None; split; [reflexivity|discriminate]|].
  destruct br as [b|]; [|exists None; split; [reflexivity|discriminate]].
  destruct (br_start b); [|exists None; split; [reflexivity|discriminate]].
  destruct (br_get b); [|exists None; split; [reflexivity|discriminate]].
  destruct (Main.extract pf now (h_config h) b hstate_init) as [[r|e] st] eqn:E.
  - exists r. split; [reflexivity|]. intros d ->. cbn [snd].
    eapply main_extract_raw. exact E.
  - exists None. split; [reflexivity|discriminate].
Qed.

(** ** The date parser *)

Lemma try_unix_timestamp_ok (pf : platform) (s : string) :
  exists r, DateParser._try_unix_timestamp pf s = Ok r.
Proof.
  rewrite try_unix_timestamp_spec. cbv zeta.
  destruct (Str.filter DateParser.is_digit_or_dot s) as [|c0 r0]; [eauto|].
  destruct (PyFloat.of_string _) as [x|]; [|eauto].
  destruct (float_gtb x (inject_Z (10 ^ 12))).
  - destruct (Timestamp.fromtimestamp pf (float_div x 1000)); eauto.
  - destruct (float_gtb x (inject_Z (10 ^ 9))); [|eauto].
    destruct (Timestamp.fromtimestamp pf x); eauto.
Qed.

(** X16. The only exceptions that leave [DateParser.parse] are those
    [dateutil] raises on the cleaned text, other than [ImportError],
    [ValueError] and [TypeError]; where [dateutil] is not installed
    [parse] never raises. *)
Theorem parse_raises_only_from_dateutil (pf : platform) (s : string) (e : exn) :
  DateParser.parse pf s = Raise e ->
  exists p,
    dateutil pf = Some p /\
    p (DateParser._clean_date_string s) = Raise e /\
    e <> ImportError /\ e <> ValueError /\ e <> TypeError.
Proof.
  unfold DateParser.parse.
  destruct (negb (Text.truthy s)); [discriminate|]. cbv zeta.
  assert (forall x, DateParser.parse_after_dateutil pf x <> Raise e) as Hafter.
  { intros x. unfold DateParser.parse_after_dateutil.
    destruct (DateParser.try_formats pf x DateParser.DATE_FORMATS); [discriminate|].
    destruct (try_unix_timestamp_ok pf x) as (r & ->). discriminate. }
  destruct (dateutil pf) as [p|].
  - destruct (p (DateParser._clean_date_string s)) as [d|e'] eqn:Ep; [discriminate|].
    destruct (DateParser.dateutil_caught e') eqn:Ec.
    + intros H. now apply Hafter in H.
    + intros [= ->]. exists p. split; [reflexivity|]. split; [exact Ep|].
      repeat split; intros ->; discriminate.
  - cbn [DateParser.dateutil_caught]. intros H. now apply Hafter in H.
Qed.

Lemma parse_raises_only_from_dateutil_witness :
  exists p,
    dateutil SamplePages.dateutil_overflows = Some p /\
    p (DateParser._clean_date_string "Updated: 99999999999999999999")
    = Raise OverflowError /\
    OverflowError <> ImportError /\ OverflowError <> ValueError /\
    OverflowError <> TypeError.
Proof.
  apply (parse_raises_only_from_dateutil SamplePages.dateutil_overflows
           "Updated: 99999999999999999999" OverflowError).
  vm_compute. reflexivity.
Defined.

(** ** The verifier: where the JSON answer is looked for *)

Lemma rev_acc_app (s acc : string) : Str.rev_acc s acc = Str.rev s +:+ acc.
Proof.
  unfold Str.rev. revert acc.
  induction s as [|c s IH]; intros acc; [reflexivity|].
  cbn [Str.rev_acc]. rewrite (IH (String c acc)), (IH (String c "")).
  rewrite <- append_assoc. reflexivity.
Qed.

Lemma rev_cons (c : ascii) (s : string) :
  Str.rev (String c s) = Str.rev s +:+ String c "".
Proof. unfold Str.rev at 1. cbn [Str.rev_acc]. apply rev_acc_app. Qed.

Lemma rev_app (a b : string) : Str.rev (a +:+ b) = Str.rev b +:+ Str.rev a.
Proof.
  induction a as [|c a IH].
  - rewrite append_nil. now rewrite append_nil_r.
  - rewrite append_cons, !rev_cons, IH. now rewrite append_assoc.
Qed.

Lemma rev_involutive (s : string) : Str.rev (Str.rev s) = s.
Proof.
  induction s as [|c s IH]; [reflexivity|].
  rewrite rev_cons, rev_app, IH. reflexivity.
Qed.

Lemma no_char_rev (c : ascii) (s : string) : no_char c (Str.rev s) <-> no_char c s.
Proof.
  induction s as [|x s IH]; [reflexivity|].
  rewrite rev_cons, no_char_app, IH.
  unfold no_char. cbn [Text.all_chars]. rewrite !andb_true_iff. tauto.
Qed.

(** [drop_until c s] splits [s] at the first [c]. *)
Lemma drop_until_spec (c : ascii) (s r : string) :
  Verifier.drop_until c s = Some r <->
  exists pre rest, s = pre +:+ String c rest /\ no_char c pre /\ r = String c rest.
Proof.
  induction s as [|a s IH].
  - cbn. split; [discriminate|].
    intros (pre & rest & H & _). destruct pre; discriminate.
  - cbn [Verifier.drop_until]. destruct (Ascii.eqb a c) eqn:E.
    + apply Ascii.eqb_eq in E. subst a. split.
      * intros [= <-]. exists "", s. repeat split.
      * intros (pre & rest & H & Hn & ->). destruct pre as [|x pre].
        -- rewrite append_nil in H. now rewrite H.
        -- rewrite append_cons in H. injection H as <- _.
           unfold no_char in Hn. cbn in Hn. rewrite Ascii.eqb_refl in Hn. discriminate.
    + rewrite IH. split.
      * intros (pre & rest & -> & Hn & ->). exists (String a pre), rest.
        rewrite append_cons. repeat split.
        unfold no_char in *. cbn [Text.all_chars]. now rewrite E, Hn.
      * intros (pre & rest & H & Hn & ->). destruct pre as [|x pre].
        -- rewrite append_nil in H. injection H as -> _.
           rewrite Ascii.eqb_refl in E. discriminate.
        -- rewrite append_cons in H. injection H as <- ->.
           exists pre, rest. repeat split.
           unfold no_char in *. cbn [Text.all_chars] in Hn.
           now apply andb_true_iff in Hn.
Qed.

(** X17. The text handed to the JSON decoder is the part of the reply
    from its first opening brace to its last closing brace; a reply
    without an opening brace, or without a closing brace after it, has
    none. *)
Theorem brace_span_spec (text m : string) :
  Verifier.brace_span text = Some m <->
  exists pre body post,
    text = pre +:+ "{" +:+ body +:+ "}" +:+ post /\
    no_char "{" pre /\ no_char "}" post /\
    m = "{" +:+ body +:+ "}".
Proof.
  unfold Verifier.brace_span. split.
  - destruct (Verifier.drop_until "{" text) as [[|c0 inner]|] eqn:E1; try discriminate.
    apply drop_until_spec in E1 as (pre & rest & -> & Hpre & [= -> ->]).
    destruct (Verifier.drop_until "}" (Str.rev rest)) as [r|] eqn:E2; [|discriminate].
    apply drop_until_spec in E2 as (q & r0 & Hrev & Hq & ->).
    intros [= <-].
    assert (rest = Str.rev r0 +:+ "}" +:+ Str.rev q) as ->.
    { rewrite <- (rev_involutive rest), Hrev, rev_app, rev_cons.
      now rewrite <- append_assoc. }
    exists pre, (Str.rev r0), (Str.rev q).
    split; [reflexivity|]. split; [exact Hpre|]. split; [now apply no_char_rev|].
    rewrite rev_cons. reflexivity.
  - intros (pre & body & post & -> & Hpre & Hpost & ->).
    assert (Verifier.drop_until "{" (pre +:+ "{" +:+ body +:+ "}" +:+ post)
            = Some (String "{" (body +:+ "}" +:+ post))) as ->.
    { apply drop_until_spec. exists pre, (body +:+ "}" +:+ post). auto. }
    assert (Verifier.drop_until "}" (Str.rev (body +:+ "}" +:+ post))
            = Some (String "}" (Str.rev body))) as ->.
    { apply drop_until_spec. exists (Str.rev post), (Str.rev body).
      split; [|split; [now apply no_char_rev|reflexivity]].
      rewrite rev_app, rev_app. cbn. rewrite <- append_assoc. reflexivity. }
    rewrite rev_cons, rev_involutive. reflexivity.
Qed.

(** ** The API handler: where the instant comes from *)

Lemma api_parse_json_response_spec pf cfg content st d st' :
  API._parse_json_response pf cfg content st = (Ok (Some d), st') ->
  exists data fields v,
    json_loads pf content = Ok data /\
    API.fields_to_check cfg API.default_fallback_fields = Ok fields /\
    reachable fields v data /\
    json_truthy v = true /\
    API._parse_timestamp_value pf v = Ok (Some d) /\
    st' = set_raw (API.value_str pf v) st.
Proof.
  unfold API._parse_json_response.
  destruct (json_loads pf content) as [data|e]; [|destruct e; discriminate].
  destruct (API.fields_to_check cfg API.default_fallback_fields) as [fields|e];
    [|discriminate].
  cbn [rbind].
  pose proof (find_timestamp_value_reachable_size fields (json_size data) data (le_n _))
    as Hfind.
  destruct (API._find_timestamp_value data fields) as [v|e]; [|discriminate].
  destruct (json_truthy v) eqn:Et; [|discriminate].
  intros [= Hp <-].
  exists data, fields, v.
  split; [reflexivity|]. split; [reflexivity|]. split; [|auto].
  destruct Hfind as [Hnull|Hr]; [|exact Hr].
  rewrite Hnull in Et. discriminate.
Qed.

(** X18. When the API handler, reading JSON, returns an instant, that
    instant is the reading of a value that a response to one of its GET
    requests holds under the configured timestamp field or one of the
    fallback fields; the raw timestamp is the text of that value and
    the page content is the body of that response. *)
Theorem api_returns_value_of_response (pf : platform) (net : network) (h : handler)
    (d : datetime) :
  default (CStr "json") (h_config h !! "response_format") = CStr "json" ->
  fst (API.fetch_current_timestamp pf net h) = Ok (Some d) ->
  exists i r data fields v,
    net i "GET" = Response r /\ status_is_error r = false /\
    json_loads pf (text r) = Ok data /\
    API.fields_to_check (h_config h) API.default_fallback_fields = Ok fields /\
    reachable fields v data /\
    API._parse_timestamp_value pf v = Ok (Some d) /\
    _raw_timestamp (snd (API.fetch_current_timestamp pf net h))
    = Some (API.value_str pf v) /\
    _page_content (snd (API.fetch_current_timestamp pf net h)) = Some (text r).
Proof.
  intros Hfmt. unfold API.fetch_current_timestamp.
  destruct (negb _); [discriminate|].
  destruct (py_range (max_retries h)) as [n|e]; [|discriminate].
  generalize hstate_init.
  induction n as [|n IH]; intros st; [discriminate|].
  cbn [API.attempts]. unfold send.
  destruct (net (length (sent st)) "GET") as [|r] eqn:En; [apply IH|].
  destruct (status_is_error r) eqn:Es; [apply IH|].
  unfold API._parse_response. rewrite Hfmt.
  change (String.eqb "json" "json") with true. cbv iota.
  destruct (API._parse_json_response pf (h_config h) (text r) _) as [res st'] eqn:E.
  cbn [fst snd]. intros ->.
  apply api_parse_json_response_spec in E
    as (data & fields & v & Hd & Hfs & Hr & _ & Hp & ->).
  exists (length (sent st)), r, data, fields, v. repeat split; assumption.
Qed.

Lemma api_returns_value_of_response_witness :
  exists i r data fields v,
    Sample.serve Sample.fresh_body i "GET" = Response r /\ status_is_error r = false /\
    json_loads Reference.pf (text r) = Ok data /\
    API.fields_to_check (h_config Sample.api_handler) API.default_fallback_fields
    = Ok fields /\
    reachable fields v data /\
    API._parse_timestamp_value Reference.pf v
    = Ok (Some (mk_datetime 2025 6 15 15 6 40 0)) /\
    _raw_timestamp
      (snd (API.fetch_current_timestamp Reference.pf (Sample.serve Sample.fresh_body)
              Sample.api_handler))
    = Some (API.value_str Reference.pf v) /\
    _page_content
      (snd (API.fetch_current_timestamp Reference.pf (Sample.serve Sample.fresh_body)
              Sample.api_handler))
    = Some (text r).
Proof.
  apply (api_returns_value_of_response Reference.pf (Sample.serve Sample.fresh_body)
           Sample.api_handler (mk_datetime 2025 6 15 15 6 40 0)).
  - vm_compute. reflexivity.
  - vm_compute. reflexivity.
Defined.

(** ** The HTTP HEAD handler *)

Lemma http_from_date_spec pf r st res st' :
  HTTP.from_date pf r st = (res, st') ->
  sent st' = sent st /\ _etag st' = _etag st /\
  (forall d, res = Ok (Some d) ->
     exists raw, _raw_timestamp st' = Some raw /\ raw <> "" /\
                 parsedate_to_datetime pf raw = Ok d).
Proof.
  unfold HTTP.from_date.
  destruct (Main.header_get "Date" (headers r)) as [dh|].
  2:{ intros [= <- <-]. repeat split. discriminate. }
  destruct (Text.truthy dh) eqn:Et.
  2:{ intros [= <- <-]. repeat split. discriminate. }
  cbv zeta. destruct (parsedate_to_datetime pf dh) as [d0|e] eqn:Ep.
  - intros [= <- <-]. repeat split. intros d [= <-]. exists dh.
    split; [reflexivity|]. split; [|exact Ep]. intros ->. discriminate.
  - destruct (Main.parsedate_caught e); intros [= <- <-]; repeat split; discriminate.
Qed.

Lemma http_from_etag_and_date_spec pf r st res st' :
  HTTP.from_etag_and_date pf r st = (res, st') ->
  sent st' = sent st /\
  (forall etag, _etag st' = Some etag ->
     _etag st = Some etag \/ Main.header_get "ETag" (headers r) = Some etag) /\
  (forall d, res = Ok (Some d) ->
     exists raw, _raw_timestamp st' = Some raw /\ raw <> "" /\
                 parsedate_to_datetime pf raw = Ok d).
Proof.
  unfold HTTP.from_etag_and_date. cbv zeta. intros H.
  apply http_from_date_spec in H as (Hs & He & Hd).
  split; [|split; [|exact Hd]].
  - rewrite Hs. destruct (Main.header_get "ETag" (headers r)) as [g|]; [|reflexivity].
    destruct (Text.truthy g); reflexivity.
  - intros etag Het. rewrite He in Het.
    destruct (Main.header_get "ETag" (headers r)) as [g|]; [|now left].
    destruct (Text.truthy g); [|now left].
    cbn in Het. right. exact Het.
Qed.

Lemma http_from_response_spec pf r st res st' :
  HTTP.from_response pf r st = (res, st') ->
  sent st' = sent st /\
  (forall etag, _etag st' = Some etag ->
     _etag st = Some etag \/
     (Main.header_get "ETag" (headers r) = Some etag /\ last_modified_unusable pf r)) /\
  (forall d, res = Ok (Some d) ->
     exists raw, _raw_timestamp st' = Some raw /\ raw <> "" /\
                 parsedate_to_datetime pf raw = Ok d).
Proof.
  unfold HTTP.from_response, last_modified_unusable.
  destruct (Main.header_get "Last-Modified" (headers r)) as [lm|].
  2:{ intros H. apply http_from_etag_and_date_spec in H as (Hs & He & Hd).
      split; [exact Hs|]. split; [|exact Hd].
      intros etag Het. destruct (He etag Het); auto. }
  destruct (Text.truthy lm) eqn:Et.
  2:{ intros H. apply http_from_etag_and_date_spec in H as (Hs & He & Hd).
      split; [exact Hs|]. split; [|exact Hd].
      intros etag Het. destruct (He etag Het); [auto|].
      right. split; [assumption|]. left. destruct lm; [reflexivity|discriminate]. }
  cbv zeta. destruct (parsedate_to_datetime pf lm) as [d0|e] eqn:Ep.
  - intros [= <- <-]. split; [reflexivity|]. split; [intros etag Het; now left|].
    intros d [= <-]. exists lm. split; [reflexivity|]. split; [|exact Ep].
    intros ->. discriminate.
  - destruct (Main.parsedate_caught e).
    + intros H. apply http_from_etag_and_date_spec in H as (Hs & He & Hd).
      split; [exact Hs|]. split; [|exact Hd].
      intros etag Het. destruct (He etag Het); [now left|]. right. eauto.
    + intros [= <- <-]. split; [reflexivity|]. split; [intros etag Het; now left|].
      discriminate.
Qed.

Lemma http_attempts_spec pf net n :
  forall st res st',
    HTTP.attempts pf net n st = (res, st') ->
    (exists k, (k <= n)%nat /\ sent st' = sent st ++ repeat "HEAD" k) /\
    (forall etag, _etag st' = Some etag ->
       _etag st = Some etag \/
       exists i r, net i "HEAD" = Response r /\ status_is_error r = false /\
                   Main.header_get "ETag" (headers r) = Some etag /\
                   last_modified_unusable pf r) /\
    (forall d, res = Ok (Some d) ->
       exists raw, _raw_timestamp st' = Some raw /\ raw <> "" /\
                   parsedate_to_datetime pf raw = Ok d) /\
    (head_fails net -> res = Ok None /\ _raw_timestamp st' = _raw_timestamp st).
Proof.
  induction n as [|n IH]; intros st res st'.
  - cbn. intros [= <- <-]. split; [exists 0%nat; split; [lia|now rewrite app_nil_r]|].
    split; [intros etag Het; now left|]. split; [discriminate|]. auto.
  - cbn [HTTP.attempts]. unfold send.
    assert (forall res st',
              HTTP.attempts pf net n (log_request "HEAD" st) = (res, st') ->
              (exists k, (k <= S n)%nat /\ sent st' = sent st ++ repeat "HEAD" k) /\
              (forall etag, _etag st' = Some etag ->
                 _etag st = Some etag \/
                 exists i r, net i "HEAD" = Response r /\ status_is_error r = false /\
                             Main.header_get "ETag" (headers r) = Some etag /\
                             last_modified_unusable pf r) /\
              (forall d, res = Ok (Some d) ->
                 exists raw, _raw_timestamp st' = Some raw /\ raw <> "" /\
                             parsedate_to_datetime pf raw = Ok d) /\
              (head_fails net -> res = Ok None /\ _raw_timestamp st' = _raw_timestamp st))
      as Hnext.
    { intros res0 st0 H. apply IH in H as ((k & Hk & Hs) & He & Hd & Hf).
      split; [|split; [exact He|split; [exact Hd|exact Hf]]].
      exists (S k). split; [lia|]. rewrite Hs. cbn [log_request sent repeat].
      now rewrite <- app_assoc. }
    destruct (net (length (sent st)) "HEAD") as [|r] eqn:En; [apply Hnext|].
    destruct (status_is_error r) eqn:Es; [apply Hnext|].
    intros H. apply http_from_response_spec in H as (Hs & He & Hd).
    split; [exists 1%nat; split; [lia|now rewrite Hs]|].
    split; [|split; [exact Hd|]].
    + intros etag Het. destruct (He etag Het) as [?|(? & ?)]; [now left|].
      right. exists (length (sent st)), r. auto.
    + intros Hfail. specialize (Hfail (length (sent st))).
      rewrite En, Es in Hfail. discriminate.
Qed.

(** X19. When the HTTP handler returns an instant, the raw timestamp it
    recorded is the header text that [parsedate_to_datetime] read as
    that instant. *)
Theorem http_returns_parsed_raw (pf : platform) (net : network) (h : handler)
    (d : datetime) :
  fst (HTTP.fetch_current_timestamp pf net h) = Ok (Some d) ->
  exists raw,
    _raw_timestamp (snd (HTTP.fetch_current_timestamp pf net h)) = Some raw /\
    raw <> "" /\ parsedate_to_datetime pf raw = Ok d.
Proof.
  unfold HTTP.fetch_current_timestamp.
  destruct (negb _); [discriminate|].
  destruct (py_range (max_retries h)) as [n|e]; [|discriminate].
  destruct (HTTP.attempts pf net n hstate_init) as [res st'] eqn:E.
  apply http_attempts_spec in E as (_ & _ & Hd & _). cbn [fst snd]. apply Hd.
Qed.



Lemma http_returns_parsed_raw_witness :
  exists raw,
    _raw_timestamp
      (snd (HTTP.fetch_current_timestamp SampleHeaders.with_parsedate
              (SampleHeaders.serve_headers
                 [("ETag", "v1"); ("Last-Modified", "Wed, 15 Jan 2025 10:30:00 GMT")])
              SampleHeaders.http_handler)) = Some raw /\
    raw <> "" /\
    parsedate_to_datetime SampleHeaders.with_parsedate raw = Ok Sample.instant_utc.
Proof.
  apply (http_returns_parsed_raw SampleHeaders.with_parsedate
           (SampleHeaders.serve_headers
              [("ETag", "v1"); ("Last-Modified", "Wed, 15 Jan 2025 10:30:00 GMT")])
           SampleHeaders.http_handler Sample.instant_utc).
  vm_compute. reflexivity.
Defined.


(** ** The command-line handler *)

Lemma cli_header_result_spec pf line st res st' :
  CLI.header_result pf line st = (res, st') ->
  forall d, res = Ok (Some d) ->
    exists raw, _raw_timestamp st' = Some raw /\
      (parsedate_to_datetime pf raw = Ok d \/
       (exists e, parsedate_to_datetime pf raw = Raise e /\
                  Main.parsedate_caught e = true) /\
       DateParser.parse pf raw = Ok (Some d)).
Proof.
  unfold CLI.header_result.
  destruct (CLI.after_first ":" line) as [rest|]; [|intros [= <- <-]; discriminate].
  cbv zeta. destruct (parsedate_to_datetime pf (Str.strip rest)) as [d0|e] eqn:Ep.
  - intros [= <- <-] d [= <-]. exists (Str.strip rest). split; [reflexivity|]. now left.
  - destruct (Main.parsedate_caught e) eqn:Ec; [|intros [= <- <-]; discriminate].
    intros [= <- <-] d Hd. exists (Str.strip rest). split; [reflexivity|].
    right. split; [eauto|exact Hd].
Qed.

(** X22. The command-line handler never raises: a command that times
    out, fails to start or ends with a non-zero code, and anything that
    goes wrong while its output is read, all give none.  When it
    returns an instant, the raw timestamp it recorded is the header
    value that was read as that instant: by [parsedate_to_datetime], or,
    when that rejected it, by the date parser. *)
Theorem cli_returns_parsed_raw (pf : platform) (run : string -> run_outcome)
    (h : handler) :
  exists r,
    fst (CLI.fetch_current_timestamp pf run h) = Ok r /\
    forall d, r = Some d ->
      exists raw,
        _raw_timestamp (snd (CLI.fetch_current_timestamp pf run h)) = Some raw /\
        (parsedate_to_datetime pf raw = Ok d \/
         (exists e, parsedate_to_datetime pf raw = Raise e /\
                    Main.parsedate_caught e = true) /\
         DateParser.parse pf raw = Ok (Some d)).
Proof.
  unfold CLI.fetch_current_timestamp.
  destruct (negb _); [exists None; split; [reflexivity|discriminate]|].
  destruct (run _) as [|e|code out];
    [exists None; split; [reflexivity|discriminate]..|].
  destruct (negb (code =? 0)); [exists None; split; [reflexivity|discriminate]|].
  destruct (CLI._parse_headers pf out hstate_init) as [[r|e] st] eqn:E;
    [|exists None; split; [reflexivity|discriminate]].
  exists r. split; [reflexivity|]. cbn [snd]. intros d ->.
  unfold CLI._parse_headers in E.
  destruct (CLI.find_line "last-modified:" (CLI.lines out)) as [line|].
  - eapply cli_header_result_spec; [exact E|reflexivity].
  - destruct (CLI.find_line "date:" (CLI.lines out)) as [line|]; [|discriminate].
    eapply cli_header_result_spec; [exact E|reflexivity].
Qed.

Lemma cli_returns_parsed_raw_witness :
  exists raw,
    _raw_timestamp
      (snd (CLI.fetch_current_timestamp SampleHeaders.with_parsedate
              (SampleHeaders.shell SampleHeaders.curl_output) SampleHeaders.cli_handler))
    = Some raw /\
    raw = "Wed, 15 Jan 2025 10:30:00 GMT".
Proof.
  destruct (cli_returns_parsed_raw SampleHeaders.with_parsedate
              (SampleHeaders.shell SampleHeaders.curl_output) SampleHeaders.cli_handler)
    as (r & Hr & H).
  destruct (H Sample.instant_utc) as (raw & Hraw & _).
  - revert Hr. vm_compute. now intros [= <-].
  - exists raw. split; [exact Hraw|].
    revert Hraw. vm_compute. now intros [= <-].
Defined.

Lemma match_tokens_cons (pf : platform) (t : Strptime.tok) (ts : list Strptime.tok)
    (f : Strptime.fields) (s : string) :
  Strptime.match_tokens pf (t :: ts) f s = first_match pf ts (Strptime.alts pf t f s).
Proof.
  cbn [Strptime.match_tokens].
  generalize (Strptime.alts pf t f s). intros l.
  induction l as [|[f' r] l IH]; [reflexivity|].
  cbn [first_match]. rewrite <- IH. reflexivity.
Qed.

Lemma digit_cases (k : Z) :
  0 <= k < 10 ->
  k = 0 \/ k = 1 \/ k = 2 \/ k = 3 \/ k = 4 \/ k = 5 \/ k = 6 \/ k = 7 \/ k = 8 \/ k = 9.
Proof. lia. Qed.

Ltac each_digit H :=
  destruct (digit_cases _ H) as [-> | [-> | [-> | [-> | [-> | [-> | [-> | [-> | [-> | ->]]]]]]]]].

(** A token that rejects digits fails on a text that starts with one. *)
Lemma match_tokens_rejects (pf : platform) (t : Strptime.tok)
    (ts : list Strptime.tok) (f : Strptime.fields) (k : Z) (r : string) :
  rejects_digits t = true -> 0 <= k < 10 ->
  Strptime.match_tokens pf (t :: ts) f (String (Text.digit_char k) r) = None.
Proof.
  intros Ht Hk. rewrite match_tokens_cons.
  destruct t as [c| |d]; [| |discriminate].
  - cbn [Strptime.alts].
    assert (Ascii.eqb (Text.lower_char (Text.digit_char k)) (Text.lower_char c) = false)
      as ->; [|reflexivity].
    cbn [rejects_digits forallb] in Ht.
    repeat (apply andb_prop in Ht; destruct Ht as [?H Ht]).
    each_digit Hk; apply negb_true_iff; assumption.
  - cbn [Strptime.alts Strptime.space_alts].
    assert (Text.is_space (Text.digit_char k) = false) as ->
      by (each_digit Hk; reflexivity).
    reflexivity.
Qed.

Lemma is_digit_cases (c : ascii) :
  Text.is_digit c = true -> exists k, 0 <= k < 10 /\ c = Text.digit_char k.
Proof.
  destruct c as [[] [] [] [] [] [] [] []]; try discriminate; intros _;
    first [ exists 0; split; [lia|reflexivity] | exists 1; split; [lia|reflexivity]
          | exists 2; split; [lia|reflexivity] | exists 3; split; [lia|reflexivity]
          | exists 4; split; [lia|reflexivity] | exists 5; split; [lia|reflexivity]
          | exists 6; split; [lia|reflexivity] | exists 7; split; [lia|reflexivity]
          | exists 8; split; [lia|reflexivity] | exists 9; split; [lia|reflexivity] ].
Qed.

Lemma match_tokens_rejects_digit (pf : platform) (t : Strptime.tok)
    (ts : list Strptime.tok) (f : Strptime.fields) (c : ascii) (r : string) :
  rejects_digits t = true -> Text.is_digit c = true ->
  Strptime.match_tokens pf (t :: ts) f (String c r) = None.
Proof.
  intros Ht Hc. destruct (is_digit_cases c Hc) as (k & Hk & ->).
  now apply match_tokens_rejects.
Qed.

Ltac two_digit_cases f Ha Hb Ht :=
  rewrite match_tokens_cons;
  destruct f as [fY0 fm0 fd0 fH0 fM0 fS0 ff0];
  cbn [Strptime.fY Strptime.fm Strptime.fd Strptime.fH Strptime.fM Strptime.fS
       Strptime.ff];
  each_digit Ha; try lia; each_digit Hb; try lia;
  match goal with
  | |- first_match ?pf ?ts ?l = _ =>
      let l' := eval vm_compute in l in change l with l'
  end;
  cbn [first_match];
  repeat match goal with
         | |- context [10 * ?p + ?q] =>
             let v := eval vm_compute in (10 * p + q) in change (10 * p + q) with v
         end;
  rewrite ?(match_tokens_rejects_digit _ _ _ _ _ _ Ht) by reflexivity;
  match goal with
  | |- match ?x with _ => _ end = _ => destruct x as [[? ?]|]; reflexivity
  end.

Lemma dir_M (pf : platform) (t : Strptime.tok) (ts : list Strptime.tok)
    (f : Strptime.fields) (a b : Z) (rest : string) :
  rejects_digits t = true -> 0 <= a <= 5 -> 0 <= b <= 9 ->
  Strptime.match_tokens pf (Strptime.TDir "M" :: t :: ts) f
    (String (Text.digit_char a) (String (Text.digit_char b) rest))
  = Strptime.match_tokens pf (t :: ts)
      (Strptime.mk_fields (Strptime.fY f) (Strptime.fm f) (Strptime.fd f)
         (Strptime.fH f) (10 * a + b) (Strptime.fS f) (Strptime.ff f)) rest.
Proof.
  intros Ht Ha Hb.
  assert (0 <= a < 10) as Ha' by lia. assert (0 <= b < 10) as Hb' by lia.
  two_digit_cases f Ha' Hb' Ht.
Qed.

Lemma dir_S (pf : platform) (t : Strptime.tok) (ts : list Strptime.tok)
    (f : Strptime.fields) (a b : Z) (rest : string) :
  rejects_digits t = true -> 0 <= a <= 5 -> 0 <= b <= 9 ->
  Strptime.match_tokens pf (Strptime.TDir "S" :: t :: ts) f
    (String (Text.digit_char a) (String (Text.digit_char b) rest))
  = Strptime.match_tokens pf (t :: ts)
      (Strptime.mk_fields (Strptime.fY f) (Strptime.fm f) (Strptime.fd f)
         (Strptime.fH f) (Strptime.fM f) (10 * a + b) (Strptime.ff f)) rest.
Proof.
  intros Ht Ha Hb.
  assert (0 <= a < 10) as Ha' by lia. assert (0 <= b < 10) as Hb' by lia.
  two_digit_cases f Ha' Hb' Ht.
Qed.

Lemma dir_H (pf : platform) (t : Strptime.tok) (ts : list Strptime.tok)
    (f : Strptime.fields) (a b : Z) (rest : string) :
  rejects_digits t = true -> 0 <= a < 10 -> 0 <= b < 10 -> 10 * a + b <= 23 ->
  Strptime.match_tokens pf (Strptime.TDir "H" :: t :: ts) f
    (String (Text.digit_char a) (String (Text.digit_char b) rest))
  = Strptime.match_tokens pf (t :: ts)
      (Strptime.mk_fields (Strptime.fY f) (Strptime.fm f) (Strptime.fd f)
         (10 * a + b) (Strptime.fM f) (Strptime.fS f) (Strptime.ff f)) rest.
Proof. intros Ht Ha Hb Hv. two_digit_cases f Ha Hb Ht. Qed.

Lemma dir_d (pf : platform) (t : Strptime.tok) (ts : list Strptime.tok)
    (f : Strptime.fields) (a b : Z) (rest : string) :
  rejects_digits t = true -> 0 <= a < 10 -> 0 <= b < 10 -> 1 <= 10 * a + b <= 31 ->
  Strptime.match_tokens pf (Strptime.TDir "d" :: t :: ts) f
    (String (Text.digit_char a) (String (Text.digit_char b) rest))
  = Strptime.match_tokens pf (t :: ts)
      (Strptime.mk_fields (Strptime.fY f) (Strptime.fm f) (10 * a + b)
         (Strptime.fH f) (Strptime.fM f) (Strptime.fS f) (Strptime.ff f)) rest.
Proof. intros Ht Ha Hb Hv. two_digit_cases f Ha Hb Ht. Qed.

Lemma dir_m (pf : platform) (t : Strptime.tok) (ts : list Strptime.tok)
    (f : Strptime.fields) (a b : Z) (rest : string) :
  rejects_digits t = true -> 0 <= a < 10 -> 0 <= b < 10 -> 1 <= 10 * a + b <= 12 ->
  Strptime.match_tokens pf (Strptime.TDir "m" :: t :: ts) f
    (String (Text.digit_char a) (String (Text.digit_char b) rest))
  = Strptime.match_tokens pf (t :: ts)
      (Strptime.mk_fields (Strptime.fY f) (10 * a + b) (Strptime.fd f)
         (Strptime.fH f) (Strptime.fM f) (Strptime.fS f) (Strptime.ff f)) rest.
Proof. intros Ht Ha Hb Hv. two_digit_cases f Ha Hb Ht. Qed.

Ltac two_digit_end f Ha Hb :=
  rewrite match_tokens_cons;
  destruct f as [fY0 fm0 fd0 fH0 fM0 fS0 ff0];
  cbn [Strptime.fY Strptime.fm Strptime.fd Strptime.fH Strptime.fM Strptime.fS
       Strptime.ff];
  each_digit Ha; try lia; each_digit Hb; try lia;
  match goal with
  | |- first_match ?pf ?ts ?l = _ =>
      let l' := eval vm_compute in l in change l with l'
  end;
  reflexivity.

Lemma dir_S_end (pf : platform) (f : Strptime.fields) (a b : Z) (rest : string) :
  0 <= a <= 5 -> 0 <= b <= 9 ->
  Strptime.match_tokens pf [Strptime.TDir "S"] f
    (String (Text.digit_char a) (String (Text.digit_char b) rest))
  = Some (Strptime.mk_fields (Strptime.fY f) (Strptime.fm f) (Strptime.fd f)
            (Strptime.fH f) (Strptime.fM f) (10 * a + b) (Strptime.ff f), rest).
Proof.
  intros Ha Hb.
  assert (0 <= a < 10) as Ha' by lia. assert (0 <= b < 10) as Hb' by lia.
  two_digit_end f Ha' Hb'.
Qed.

Lemma dir_d_end (pf : platform) (f : Strptime.fields) (a b : Z) (rest : string) :
  0 <= a < 10 -> 0 <= b < 10 -> 1 <= 10 * a + b <= 31 ->
  Strptime.match_tokens pf [Strptime.TDir "d"] f
    (String (Text.digit_char a) (String (Text.digit_char b) rest))
  = Some (Strptime.mk_fields (Strptime.fY f) (Strptime.fm f) (10 * a + b)
            (Strptime.fH f) (Strptime.fM f) (Strptime.fS f) (Strptime.ff f), rest).
Proof. intros Ha Hb Hv. two_digit_end f Ha Hb. Qed.

Lemma dir_Y (pf : platform) (ts : list Strptime.tok) (f : Strptime.fields)
    (y : Z) (rest : string) :
  0 <= y < 10000 ->
  Strptime.match_tokens pf (Strptime.TDir "Y" :: ts) f (Text.fmt_digits 4 y +:+ rest)
  = Strptime.match_tokens pf ts
      (Strptime.mk_fields y (Strptime.fm f) (Strptime.fd f) (Strptime.fH f)
         (Strptime.fM f) (Strptime.fS f) (Strptime.ff f)) rest.
Proof.
  intros Hy. rewrite match_tokens_cons.
  unfold Strptime.alts. change (Ascii.eqb "Y" "Y") with true. cbv iota.
  unfold Strptime.altn. rewrite take_digits_fmt4 by exact Hy.
  cbn [map first_match].
  destruct (Strptime.match_tokens pf ts _ rest) as [[? ?]|]; reflexivity.
Qed.

Lemma dir_lit (pf : platform) (c : ascii) (ts : list Strptime.tok)
    (f : Strptime.fields) (rest : string) :
  Strptime.match_tokens pf (Strptime.TLit c :: ts) f (String c rest)
  = Strptime.match_tokens pf ts f rest.
Proof.
  rewrite match_tokens_cons. cbn [Strptime.alts]. rewrite Ascii.eqb_refl.
  cbn [first_match]. destruct (Strptime.match_tokens pf ts f rest) as [[? ?]|];
    reflexivity.
Qed.

Lemma fmt2_digits (v : Z) (rest : string) :
  Text.fmt_digits 2 v +:+ rest
  = String (Text.digit_char ((v / 10) mod 10))
      (String (Text.digit_char (v mod 10)) rest).
Proof.
  cbn [Text.fmt_digits]. rewrite !append_cons, append_nil.
  change (10 ^ Z.of_nat 1) with 10. change (10 ^ Z.of_nat 0) with 1.
  now rewrite Z.div_1_r.
Qed.

Lemma two_digits (v : Z) :
  0 <= v < 100 ->
  0 <= (v / 10) mod 10 < 10 /\ 0 <= v mod 10 < 10 /\
  10 * ((v / 10) mod 10) + v mod 10 = v.
Proof. intros H. Z.div_mod_to_equations. lia. Qed.

Lemma dir_m2 pf t ts f v rest :
  rejects_digits t = true -> 1 <= v <= 12 ->
  Strptime.match_tokens pf (Strptime.TDir "m" :: t :: ts) f (Text.fmt_digits 2 v +:+ rest)
  = Strptime.match_tokens pf (t :: ts)
      (Strptime.mk_fields (Strptime.fY f) v (Strptime.fd f)
         (Strptime.fH f) (Strptime.fM f) (Strptime.fS f) (Strptime.ff f)) rest.
Proof.
  intros Ht Hv. rewrite fmt2_digits.
  destruct (two_digits v) as (Ha & Hb & Heq); [lia|].
  rewrite dir_m by (assumption || lia). now rewrite Heq.
Qed.

Lemma dir_d2 pf t ts f v rest :
  rejects_digits t = true -> 1 <= v <= 31 ->
  Strptime.match_tokens pf (Strptime.TDir "d" :: t :: ts) f (Text.fmt_digits 2 v +:+ rest)
  = Strptime.match_tokens pf (t :: ts)
      (Strptime.mk_fields (Strptime.fY f) (Strptime.fm f) v
         (Strptime.fH f) (Strptime.fM f) (Strptime.fS f) (Strptime.ff f)) rest.
Proof.
  intros Ht Hv. rewrite fmt2_digits.
  destruct (two_digits v) as (Ha & Hb & Heq); [lia|].
  rewrite dir_d by (assumption || lia). now rewrite Heq.
Qed.

Lemma dir_H2 pf t ts f v rest :
  rejects_digits t = true -> 0 <= v <= 23 ->
  Strptime.match_tokens pf (Strptime.TDir "H" :: t :: ts) f (Text.fmt_digits 2 v +:+ rest)
  = Strptime.match_tokens pf (t :: ts)
      (Strptime.mk_fields (Strptime.fY f) (Strptime.fm f) (Strptime.fd f)
         v (Strptime.fM f) (Strptime.fS f) (Strptime.ff f)) rest.
Proof.
  intros Ht Hv. rewrite fmt2_digits.
  destruct (two_digits v) as (Ha & Hb & Heq); [lia|].
  rewrite dir_H by (assumption || lia). now rewrite Heq.
Qed.

Lemma dir_M2 pf t ts f v rest :
  rejects_digits t = true -> 0 <= v <= 59 ->
  Strptime.match_tokens pf (Strptime.TDir "M" :: t :: ts) f (Text.fmt_digits 2 v +:+ rest)
  = Strptime.match_tokens pf (t :: ts)
      (Strptime.mk_fields (Strptime.fY f) (Strptime.fm f) (Strptime.fd f)
         (Strptime.fH f) v (Strptime.fS f) (Strptime.ff f)) rest.
Proof.
  intros Ht Hv. rewrite fmt2_digits.
  destruct (two_digits v) as (Ha & Hb & Heq); [lia|].
  assert (0 <= (v / 10) mod 10 <= 5) by (Z.div_mod_to_equations; lia).
  rewrite dir_M by (assumption || lia). now rewrite Heq.
Qed.

Lemma dir_S2 pf t ts f v rest :
  rejects_digits t = true -> 0 <= v <= 59 ->
  Strptime.match_tokens pf (Strptime.TDir "S" :: t :: ts) f (Text.fmt_digits 2 v +:+ rest)
  = Strptime.match_tokens pf (t :: ts)
      (Strptime.mk_fields (Strptime.fY f) (Strptime.fm f) (Strptime.fd f)
         (Strptime.fH f) (Strptime.fM f) v (Strptime.ff f)) rest.
Proof.
  intros Ht Hv. rewrite fmt2_digits.
  destruct (two_digits v) as (Ha & Hb & Heq); [lia|].
  assert (0 <= (v / 10) mod 10 <= 5) by (Z.div_mod_to_equations; lia).
  rewrite dir_S by (assumption || lia). now rewrite Heq.
Qed.

Lemma dir_S2_end pf f v rest :
  0 <= v <= 59 ->
  Strptime.match_tokens pf [Strptime.TDir "S"] f (Text.fmt_digits 2 v +:+ rest)
  = Some (Strptime.mk_fields (Strptime.fY f) (Strptime.fm f) (Strptime.fd f)
            (Strptime.fH f) (Strptime.fM f) v (Strptime.ff f), rest).
Proof.
  intros Hv. rewrite fmt2_digits.
  destruct (two_digits v) as (Ha & Hb & Heq); [lia|].
  assert (0 <= (v / 10) mod 10 <= 5) by (Z.div_mod_to_equations; lia).
  rewrite dir_S_end by (assumption || lia). now rewrite Heq.
Qed.

Lemma dir_d2_end pf f v rest :
  1 <= v <= 31 ->
  Strptime.match_tokens pf [Strptime.TDir "d"] f (Text.fmt_digits 2 v +:+ rest)
  = Some (Strptime.mk_fields (Strptime.fY f) (Strptime.fm f) v
            (Strptime.fH f) (Strptime.fM f) (Strptime.fS f) (Strptime.ff f), rest).
Proof.
  intros Hv. rewrite fmt2_digits.
  destruct (two_digits v) as (Ha & Hb & Heq); [lia|].
  rewrite dir_d_end by (assumption || lia). now rewrite Heq.
Qed.

Lemma lit_mismatch pf c ts f a r :
  Ascii.eqb (Text.lower_char a) (Text.lower_char c) = false ->
  Strptime.match_tokens pf (Strptime.TLit c :: ts) f (String a r) = None.
Proof. intros H. rewrite match_tokens_cons. cbn [Strptime.alts]. now rewrite H. Qed.

Lemma lit_empty pf c ts f :
  Strptime.match_tokens pf (Strptime.TLit c :: ts) f "" = None.
Proof. now rewrite match_tokens_cons. Qed.

Lemma space_empty pf ts f :
  Strptime.match_tokens pf (Strptime.TSpace :: ts) f "" = None.
Proof. now rewrite match_tokens_cons. Qed.

Lemma take_digits_acc_digit (w : nat) (acc d : Z) (r : string) :
  0 <= d < 10 ->
  Text.take_digits_acc (S w) acc (String (Text.digit_char d) r)
  = Text.take_digits_acc w (10 * acc + d) r.
Proof.
  intros Hd. cbn [Text.take_digits_acc].
  destruct (digit_char_spec d Hd) as (-> & -> & _). reflexivity.
Qed.

(** The fraction directive at the end of a format reads the six digits. *)
Lemma dir_f_end pf f us :
  0 <= us < 1000000 ->
  Strptime.match_tokens pf [Strptime.TDir "f"] f (Text.fmt_digits 6 us)
  = Some (Strptime.mk_fields (Strptime.fY f) (Strptime.fm f) (Strptime.fd f)
            (Strptime.fH f) (Strptime.fM f) (Strptime.fS f) us, "").
Proof.
  intros Hus. rewrite match_tokens_cons.
  unfold Strptime.alts.
  change (Ascii.eqb "f" "Y") with false. change (Ascii.eqb "f" "m") with false.
  change (Ascii.eqb "f" "d") with false. change (Ascii.eqb "f" "H") with false.
  change (Ascii.eqb "f" "M") with false. change (Ascii.eqb "f" "S") with false.
  change (Ascii.eqb "f" "f") with true. cbv iota.
  cbn [flat_map]. unfold Strptime.altn at 1.
  rewrite <- (append_nil_r (Text.fmt_digits 6 us)) at 1.
  rewrite take_digits_fmt6 by exact Hus.
  cbn [map app first_match Strptime.match_tokens].
  change (10 ^ (6 - Z.of_nat 6)) with 1. now rewrite Z.mul_1_r.
Qed.

(** Followed by a token that rejects digits, the fraction directive
    must read all six digits. *)
Lemma dir_f_rest pf t ts f us rest :
  rejects_digits t = true -> 0 <= us < 1000000 ->
  Strptime.match_tokens pf (Strptime.TDir "f" :: t :: ts) f
    (Text.fmt_digits 6 us +:+ rest)
  = Strptime.match_tokens pf (t :: ts)
      (Strptime.mk_fields (Strptime.fY f) (Strptime.fm f) (Strptime.fd f)
         (Strptime.fH f) (Strptime.fM f) (Strptime.fS f) us) rest.
Proof.
  intros Ht Hus. rewrite match_tokens_cons.
  unfold Strptime.alts.
  change (Ascii.eqb "f" "Y") with false. change (Ascii.eqb "f" "m") with false.
  change (Ascii.eqb "f" "d") with false. change (Ascii.eqb "f" "H") with false.
  change (Ascii.eqb "f" "M") with false. change (Ascii.eqb "f" "S") with false.
  change (Ascii.eqb "f" "f") with true. cbv iota.
  cbn [flat_map]. unfold Strptime.altn at 1.
  rewrite take_digits_fmt6 by exact Hus.
  cbn [map app first_match].
  change (10 ^ (6 - Z.of_nat 6)) with 1. rewrite Z.mul_1_r.
  cbn [Text.fmt_digits]. rewrite !append_cons, append_nil.
  repeat match goal with
         | |- context [Text.digit_char ?e] =>
             lazymatch e with
             | _ mod 10 =>
                 let d := fresh "d" in
                 let Hd := fresh "Hd" in
                 assert (0 <= e < 10) as Hd by (apply Z.mod_pos_bound; lia);
                 set (d := e) in *; clearbody d
             end
         end.
  unfold Strptime.altn, Text.take_digits.
  rewrite !take_digits_acc_digit by assumption.
  cbn [Text.take_digits_acc map app first_match].
  rewrite !(match_tokens_rejects pf t ts) by assumption.
  destruct (Strptime.match_tokens pf (t :: ts) _ rest) as [[? ?]|]; reflexivity.
Qed.

Lemma dir_f_reject pf t ts f us :
  rejects_digits t = true -> 0 <= us < 1000000 ->
  Strptime.match_tokens pf (Strptime.TDir "f" :: t :: ts) f (Text.fmt_digits 6 us)
  = Strptime.match_tokens pf (t :: ts)
      (Strptime.mk_fields (Strptime.fY f) (Strptime.fm f) (Strptime.fd f)
         (Strptime.fH f) (Strptime.fM f) (Strptime.fS f) us) "".
Proof.
  intros Ht Hus. rewrite <- (append_nil_r (Text.fmt_digits 6 us)) at 1.
  now apply dir_f_rest.
Qed.

Lemma date_prefix pf t ts f y m d rest :
  rejects_digits t = true ->
  0 <= y < 10000 -> 1 <= m <= 12 -> 1 <= d <= 31 ->
  Strptime.match_tokens pf
    (Strptime.TDir "Y" :: Strptime.TLit "-" :: Strptime.TDir "m" ::
     Strptime.TLit "-" :: Strptime.TDir "d" :: t :: ts) f
    (Text.fmt_digits 4 y +:+ "-" +:+ Text.fmt_digits 2 m +:+ "-" +:+
     Text.fmt_digits 2 d +:+ rest)
  = Strptime.match_tokens pf (t :: ts)
      (Strptime.mk_fields y m d (Strptime.fH f) (Strptime.fM f) (Strptime.fS f)
         (Strptime.ff f)) rest.
Proof.
  intros Ht Hy Hm Hd.
  rewrite dir_Y by exact Hy. str_norm. rewrite dir_lit.
  rewrite dir_m2 by (reflexivity || exact Hm). rewrite dir_lit.
  rewrite dir_d2 by assumption. reflexivity.
Qed.

Lemma time_prefix pf ts f H M rest :
  0 <= H <= 23 -> 0 <= M <= 59 ->
  Strptime.match_tokens pf
    (Strptime.TDir "H" :: Strptime.TLit ":" :: Strptime.TDir "M" ::
     Strptime.TLit ":" :: ts) f
    (Text.fmt_digits 2 H +:+ ":" +:+ Text.fmt_digits 2 M +:+ ":" +:+ rest)
  = Strptime.match_tokens pf ts
      (Strptime.mk_fields (Strptime.fY f) (Strptime.fm f) (Strptime.fd f) H M
         (Strptime.fS f) (Strptime.ff f)) rest.
Proof.
  intros HH HM.
  rewrite dir_H2 by (reflexivity || exact HH). str_norm. rewrite dir_lit.
  rewrite dir_M2 by (reflexivity || exact HM). rewrite dir_lit. reflexivity.
Qed.

(** The formats that start like the ISO form, on a text
    [YYYY-MM-DD<sep>HH:MM:SS<tail>]. *)
Lemma iso_tokens pf sep ts y m d H M rest :
  rejects_digits (Strptime.TLit sep) = true ->
  0 <= y < 10000 -> 1 <= m <= 12 -> 1 <= d <= 31 -> 0 <= H <= 23 -> 0 <= M <= 59 ->
  Strptime.match_tokens pf
    (Strptime.TDir "Y" :: Strptime.TLit "-" :: Strptime.TDir "m" ::
     Strptime.TLit "-" :: Strptime.TDir "d" :: Strptime.TLit sep ::
     Strptime.TDir "H" :: Strptime.TLit ":" :: Strptime.TDir "M" ::
     Strptime.TLit ":" :: ts) Strptime.default_fields
    (Text.fmt_digits 4 y +:+ "-" +:+ Text.fmt_digits 2 m +:+ "-" +:+
     Text.fmt_digits 2 d +:+ String sep
       (Text.fmt_digits 2 H +:+ ":" +:+ Text.fmt_digits 2 M +:+ ":" +:+ rest))
  = Strptime.match_tokens pf ts (Strptime.mk_fields y m d H M 0 0) rest.
Proof.
  intros Ht Hy Hm Hd HH HM.
  rewrite date_prefix by assumption. rewrite dir_lit.
  rewrite time_prefix by assumption. reflexivity.
Qed.

Lemma datetime_new_valid (d : datetime) :
  valid_datetime d -> utcoffset d = None ->
  datetime_new (year d) (month d) (day d) (hour d) (minute d) (second d)
               (microsecond d) = Ok d.
Proof.
  intros Hv Hn. apply valid_datetime_naive_fields in Hv.
  unfold datetime_new. destruct d; cbn in *. subst.
  unfold valid_fieldsb, mk_datetime in *. cbn in *. now rewrite Hv.
Qed.

Lemma whole_second_valid (d : datetime) :
  valid_datetime d -> valid_datetime (whole_second d).
Proof.
  unfold valid_datetime, valid_datetimeb, valid_fieldsb, valid_utcoffsetb, whole_second.
  cbn.
  intros H. repeat (apply andb_prop in H; destruct H as [H ?]).
  repeat (apply andb_true_intro; split); assumption || reflexivity.
Qed.

(** The text [isoformat] gives, split at the seconds. *)
Lemma isoformat_shape (d : datetime) :
  isoformat_fields d
  = Text.fmt_digits 4 (year d) +:+ "-" +:+ Text.fmt_digits 2 (month d) +:+ "-" +:+
    Text.fmt_digits 2 (day d) +:+ String "T"
      (Text.fmt_digits 2 (hour d) +:+ ":" +:+ Text.fmt_digits 2 (minute d) +:+ ":" +:+
       (Text.fmt_digits 2 (second d) +:+
        (if microsecond d =? 0 then ""
         else String "." (Text.fmt_digits 6 (microsecond d))))).
Proof. reflexivity. Qed.

Lemma format_datetime_shape (d : datetime) :
  format_datetime d
  = Text.fmt_digits 4 (year d) +:+ "-" +:+ Text.fmt_digits 2 (month d) +:+ "-" +:+
    Text.fmt_digits 2 (day d) +:+ String " "
      (Text.fmt_digits 2 (hour d) +:+ ":" +:+ Text.fmt_digits 2 (minute d) +:+ ":" +:+
       (Text.fmt_digits 2 (second d) +:+ "")).
Proof. unfold format_datetime, Main.strftime_seconds. now rewrite append_nil_r. Qed.

Ltac tokens :=
  repeat match goal with
         | |- context [Strptime.tokenize ?fmt] =>
             let ts := eval vm_compute in (Strptime.tokenize fmt) in
             change (Strptime.tokenize fmt) with ts
         end.

Lemma try_formats_isoformat (pf : platform) (d : datetime) :
  valid_datetime d -> utcoffset d = None ->
  DateParser.try_formats pf (isoformat_fields d) DateParser.DATE_FORMATS = Some d.
Proof.
  intros Hv Hn.
  pose proof (valid_datetime_ranges d Hv) as (Hy & Hm & Hd & Hh & Hmi & Hs & Hus).
  pose proof (datetime_new_valid d Hv Hn) as Hnew.
  unfold DateParser.DATE_FORMATS. cbn [DateParser.try_formats].
  unfold Strptime.strptime. tokens.
  rewrite isoformat_shape.
  rewrite !iso_tokens by (reflexivity || lia).
  destruct (microsecond d =? 0) eqn:E.
  - apply Z.eqb_eq in E.
    rewrite !dir_S2 by (reflexivity || lia).
    rewrite !lit_empty.
    rewrite dir_S2_end by lia. cbn [Strptime.fY Strptime.fm Strptime.fd Strptime.fH
                                     Strptime.fM Strptime.fS Strptime.ff].
    rewrite <- E, Hnew. reflexivity.
  - rewrite !dir_S2 by (reflexivity || lia).
    rewrite !dir_lit.
    rewrite dir_f_reject by (reflexivity || lia). rewrite lit_empty.
    rewrite lit_mismatch by reflexivity.
    rewrite dir_f_end by lia. cbn [Strptime.fY Strptime.fm Strptime.fd Strptime.fH
                                     Strptime.fM Strptime.fS Strptime.ff].
    rewrite Hnew. reflexivity.
Qed.

Lemma end_of_tokens pf f s : Strptime.match_tokens pf [] f s = Some (f, s).
Proof. reflexivity. Qed.

Lemma isoformat_tail_shape (d : datetime) (tail : string) :
  isoformat_fields d +:+ tail
  = Text.fmt_digits 4 (year d) +:+ "-" +:+ Text.fmt_digits 2 (month d) +:+ "-" +:+
    Text.fmt_digits 2 (day d) +:+ String "T"
      (Text.fmt_digits 2 (hour d) +:+ ":" +:+ Text.fmt_digits 2 (minute d) +:+ ":" +:+
       (Text.fmt_digits 2 (second d) +:+
        ((if microsecond d =? 0 then ""
          else String "." (Text.fmt_digits 6 (microsecond d))) +:+ tail))).
Proof.
  unfold isoformat_fields. rewrite <- !append_assoc. reflexivity.
Qed.

Lemma try_formats_isoformat_z (pf : platform) (d : datetime) :
  valid_datetime d -> utcoffset d = None ->
  DateParser.try_formats pf (isoformat_fields d +:+ "Z") DateParser.DATE_FORMATS = Some d.
Proof.
  intros Hv Hn.
  pose proof (valid_datetime_ranges d Hv) as (Hy & Hm & Hd & Hh & Hmi & Hs & Hus).
  pose proof (datetime_new_valid d Hv Hn) as Hnew.
  unfold DateParser.DATE_FORMATS. cbn [DateParser.try_formats].
  unfold Strptime.strptime. tokens.
  rewrite isoformat_tail_shape.
  rewrite !iso_tokens by (reflexivity || lia).
  rewrite !dir_S2 by (reflexivity || lia).
  destruct (microsecond d =? 0) eqn:E.
  - apply Z.eqb_eq in E. rewrite append_nil.
    rewrite lit_mismatch by reflexivity.
    rewrite dir_lit, end_of_tokens.
    cbn [Strptime.fY Strptime.fm Strptime.fd Strptime.fH Strptime.fM Strptime.fS
         Strptime.ff].
    rewrite <- E, Hnew. reflexivity.
  - rewrite append_cons. rewrite !dir_lit.
    rewrite dir_f_rest by (reflexivity || lia).
    rewrite dir_lit, end_of_tokens.
    cbn [Strptime.fY Strptime.fm Strptime.fd Strptime.fH Strptime.fM Strptime.fS
         Strptime.ff].
    rewrite Hnew. reflexivity.
Qed.

(** [datetime(y, m, d)], where that is a date. *)
Lemma try_formats_iso_date (pf : platform) (y m d : Z) :
  valid_datetime (mk_datetime y m d 0 0 0 0) ->
  DateParser.try_formats pf
    (Text.fmt_digits 4 y +:+ "-" +:+ Text.fmt_digits 2 m +:+ "-" +:+ Text.fmt_digits 2 d)
    DateParser.DATE_FORMATS
  = Some (mk_datetime y m d 0 0 0 0).
Proof.
  intros Hv.
  pose proof (valid_datetime_ranges _ Hv) as (Hy & Hm & Hd & _).
  pose proof (datetime_new_valid _ Hv eq_refl) as Hnew.
  unfold mk_datetime in *.
  cbn [year month day hour minute second microsecond] in *.
  unfold DateParser.DATE_FORMATS. cbn [DateParser.try_formats].
  unfold Strptime.strptime. tokens.
  rewrite <- (append_nil_r (Text.fmt_digits 2 d)).
  rewrite !date_prefix by (reflexivity || lia).
  rewrite !lit_empty, space_empty.
  rewrite dir_Y by lia. rewrite append_cons, append_nil, dir_lit.
  rewrite dir_m2 by (reflexivity || lia). rewrite append_cons, append_nil, dir_lit.
  rewrite dir_d2_end by lia.
  cbn [Strptime.fY Strptime.fm Strptime.fd Strptime.fH Strptime.fM Strptime.fS
       Strptime.ff Strptime.default_fields].
  rewrite Hnew. reflexivity.
Qed.

Lemma is_space_digit (k : Z) : 0 <= k < 10 -> Text.is_space (Text.digit_char k) = false.
Proof. intros Hk. each_digit Hk; reflexivity. Qed.

Lemma lstrip_digit (k : Z) (r : string) :
  0 <= k < 10 -> Str.lstrip (String (Text.digit_char k) r) = String (Text.digit_char k) r.
Proof. intros Hk. cbn [Str.lstrip]. now rewrite is_space_digit. Qed.

Lemma collapse_ws_aux_single_spaced (n : nat) :
  forall s, (String.length s <= n)%nat -> single_spaced s = true ->
    DateParser.collapse_ws_aux n s = s.
Proof.
  induction n as [|n IH]; intros s Hlen Hs.
  - destruct s; [reflexivity|cbn in Hlen; lia].
  - destruct s as [|c r]; [reflexivity|].
    cbn [DateParser.collapse_ws_aux]. cbn [single_spaced] in Hs.
    apply andb_prop in Hs as (Hc & Hr).
    assert (DateParser.collapse_ws_aux n r = r) as Hrec
      by (apply IH; [cbn in Hlen; lia|exact Hr]).
    destruct (Text.is_space c) eqn:Ec; [|now rewrite Hrec].
    apply andb_prop in Hc as (Heq & Hnext).
    apply Ascii.eqb_eq in Heq. subst c.
    destruct r as [|c' r']; [discriminate|].
    apply negb_true_iff in Hnext.
    cbn [Str.lstrip]. rewrite Hnext. now rewrite Hrec.
Qed.

Lemma collapse_ws_bare (s : string) : bare s -> DateParser.collapse_ws s = s.
Proof.
  intros ((k & r & Hk & ->) & _ & Hs). unfold DateParser.collapse_ws.
  rewrite lstrip_digit by exact Hk.
  apply collapse_ws_aux_single_spaced; [reflexivity|exact Hs].
Qed.

Lemma strip_prefix_ci_digit (p : string) (k : Z) (r : string) :
  0 <= k < 10 ->
  match p with
  | String a _ => Text.is_digit (Text.lower_char a) = false
  | EmptyString => False
  end ->
  Str.strip_prefix_ci p (String (Text.digit_char k) r) = None.
Proof.
  intros Hk Hp. destruct p as [|a p]; [contradiction|].
  cbn [Str.strip_prefix_ci].
  assert (Ascii.eqb (Text.lower_char a) (Text.lower_char (Text.digit_char k)) = false)
    as ->; [|reflexivity].
  apply Ascii.eqb_neq. intros Heq. rewrite Heq in Hp.
  revert Hp. each_digit Hk; discriminate.
Qed.

Lemma strip_prefix_digit (p : string) (k : Z) (r : string) :
  0 <= k < 10 ->
  match p with
  | String a _ => Text.is_digit a = false
  | EmptyString => False
  end ->
  Str.strip_prefix p (String (Text.digit_char k) r) = None.
Proof.
  intros Hk Hp. destruct p as [|a p]; [contradiction|].
  cbn [Str.strip_prefix].
  assert (Ascii.eqb a (Text.digit_char k) = false) as ->; [|reflexivity].
  apply Ascii.eqb_neq. intros ->.
  revert Hp. each_digit Hk; discriminate.
Qed.

Lemma clean_tail (s : string) :
  bare s -> Str.strip (DateParser.sub_tz_abbreviation s) = s.
Proof.
  intros ((k & r & Hk & Hs) & (c & r' & Hrev & Hc & HT) & Hsp).
  assert (Str.lstrip (String c r') = String c r') as Hl
    by (cbn [Str.lstrip]; now rewrite Hc).
  assert (DateParser.sub_tz_abbreviation s = s) as ->.
  { unfold DateParser.sub_tz_abbreviation. rewrite Hrev, Hl.
    unfold DateParser.tz_abbreviations. cbn [List.find].
    change (Str.rev "EST") with "TSE". change (Str.rev "EDT") with "TDE".
    change (Str.rev "PST") with "TSP". change (Str.rev "PDT") with "TDP".
    change (Str.rev "CST") with "TSC". change (Str.rev "CDT") with "TDC".
    change (Str.rev "MST") with "TSM". change (Str.rev "MDT") with "TDM".
    cbn [Str.strip_prefix]. now rewrite HT. }
  unfold Str.strip, Str.rstrip.
  rewrite Hs, lstrip_digit by exact Hk. rewrite <- Hs, Hrev, Hl.
  rewrite <- Hrev. apply rev_involutive.
Qed.

(** The cleaning step leaves a bare text as it is. *)
Lemma clean_bare (s : string) : bare s -> DateParser._clean_date_string s = s.
Proof.
  intros Hb. unfold DateParser._clean_date_string.
  rewrite (collapse_ws_bare s Hb).
  pose proof Hb as ((k & r & Hk & Hs) & _).
  assert (DateParser.sub_prefix_last s = s) as ->.
  { unfold DateParser.sub_prefix_last. rewrite Hs.
    now rewrite strip_prefix_ci_digit by (exact Hk || reflexivity). }
  assert (forall w, match w with
                    | String a _ => Text.is_digit (Text.lower_char a) = false
                    | EmptyString => False
                    end -> DateParser.sub_prefix_word w s = s) as Hword.
  { intros w Hw. unfold DateParser.sub_prefix_word. rewrite Hs.
    now rewrite strip_prefix_ci_digit by assumption. }
  rewrite !Hword by reflexivity.
  assert (DateParser.sub_prefix_as_of s = s) as ->.
  { unfold DateParser.sub_prefix_as_of. rewrite Hs.
    now rewrite strip_prefix_ci_digit by (exact Hk || reflexivity). }
  now apply clean_tail.
Qed.

Lemma fmt_digits_snoc (w : nat) (n : Z) :
  Text.fmt_digits (S w) n
  = Text.fmt_digits w (n / 10) +:+ String (Text.digit_char (n mod 10)) "".
Proof.
  induction w as [|w IH].
  - cbn [Text.fmt_digits]. change (10 ^ Z.of_nat 0) with 1. now rewrite Z.div_1_r.
  - change (Text.fmt_digits (S (S w)) n)
      with (String (Text.digit_char ((n / 10 ^ Z.of_nat (S w)) mod 10))
              (Text.fmt_digits (S w) n)).
    rewrite IH. cbn [Text.fmt_digits]. rewrite append_cons. f_equal. f_equal.
    rewrite Nat2Z.inj_succ, Z.pow_succ_r by lia.
    rewrite Z.div_div by (try apply Z.pow_pos_nonneg; lia). reflexivity.
Qed.

Lemma ends_with_digit (a : string) (w : nat) (n : Z) :
  exists c r,
    Str.rev (a +:+ Text.fmt_digits (S w) n) = String c r /\
    Text.is_space c = false /\ Ascii.eqb "T" c = false.
Proof.
  exists (Text.digit_char (n mod 10)),
         (Str.rev (Text.fmt_digits w (n / 10)) +:+ Str.rev a).
  assert (0 <= n mod 10 < 10) as Hk by (apply Z.mod_pos_bound; lia).
  split; [rewrite fmt_digits_snoc, !rev_app; reflexivity|].
  split; [now apply is_space_digit|].
  each_digit Hk; reflexivity.
Qed.

Lemma starts_with_digit (w : nat) (n : Z) (b : string) :
  exists k r, 0 <= k < 10 /\
    Text.fmt_digits (S w) n +:+ b = String (Text.digit_char k) r.
Proof.
  exists ((n / 10 ^ Z.of_nat w) mod 10), (Text.fmt_digits w n +:+ b).
  split; [apply Z.mod_pos_bound; lia|]. reflexivity.
Qed.

Lemma no_space_fmt_digits (w : nat) (n : Z) :
  Text.all_chars (fun c => negb (Text.is_space c)) (Text.fmt_digits w n) = true.
Proof.
  induction w as [|w IH]; [reflexivity|].
  cbn [Text.fmt_digits Text.all_chars]. rewrite IH.
  rewrite is_space_digit by (apply Z.mod_pos_bound; lia). reflexivity.
Qed.

Lemma single_spaced_app (a b : string) :
  Text.all_chars (fun c => negb (Text.is_space c)) a = true ->
  single_spaced (a +:+ b) = single_spaced b.
Proof.
  induction a as [|c a IH]; [reflexivity|].
  cbn [Text.all_chars]. intros H. apply andb_prop in H as (Hc & Ha).
  rewrite append_cons. cbn [single_spaced].
  apply negb_true_iff in Hc. rewrite Hc. cbn [andb]. now apply IH.
Qed.

Lemma no_space_single_spaced (a : string) :
  Text.all_chars (fun c => negb (Text.is_space c)) a = true -> single_spaced a = true.
Proof.
  intros H. rewrite <- (append_nil_r a). now rewrite single_spaced_app.
Qed.

Lemma bare_isoformat (d : datetime) : bare (isoformat_fields d).
Proof.
  split; [|split].
  - unfold isoformat_fields. apply starts_with_digit.
  - unfold isoformat_fields. destruct (microsecond d =? 0).
    + rewrite append_nil_r. rewrite !append_assoc. apply ends_with_digit.
    + rewrite !append_assoc. apply ends_with_digit.
  - unfold isoformat_fields.
    repeat (rewrite single_spaced_app by (apply no_space_fmt_digits || reflexivity)).
    destruct (microsecond d =? 0); [reflexivity|].
    rewrite single_spaced_app by reflexivity.
    apply no_space_single_spaced, no_space_fmt_digits.
Qed.

Lemma bare_format_datetime (d : datetime) : bare (format_datetime d).
Proof.
  unfold format_datetime, Main.strftime_seconds.
  split; [|split].
  - apply starts_with_digit.
  - rewrite !append_assoc. apply ends_with_digit.
  - repeat (rewrite single_spaced_app by (apply no_space_fmt_digits || reflexivity)).
    rewrite append_cons, append_nil.
    change (single_spaced (String " " ?s))
      with (match s with
            | String c' _ => negb (Text.is_space c')
            | EmptyString => false
            end && single_spaced s).
    apply andb_true_intro. split.
    + cbn [Text.fmt_digits]. rewrite append_cons.
      rewrite is_space_digit by (apply Z.mod_pos_bound; lia). reflexivity.
    + repeat (rewrite single_spaced_app by (apply no_space_fmt_digits || reflexivity)).
      apply no_space_single_spaced, no_space_fmt_digits.
Qed.

Lemma dir_space pf ts f k r :
  0 <= k < 10 ->
  Strptime.match_tokens pf (Strptime.TSpace :: ts) f
    (String " " (String (Text.digit_char k) r))
  = Strptime.match_tokens pf ts f (String (Text.digit_char k) r).
Proof.
  intros Hk. rewrite match_tokens_cons.
  cbn [Strptime.alts Strptime.space_alts].
  change (Text.is_space " ") with true. cbv iota.
  rewrite is_space_digit by exact Hk. cbn [app map first_match].
  destruct (Strptime.match_tokens pf ts f _) as [[? ?]|]; reflexivity.
Qed.

Lemma try_formats_format_datetime (pf : platform) (d : datetime) :
  valid_datetime d -> utcoffset d = None ->
  DateParser.try_formats pf (format_datetime d) DateParser.DATE_FORMATS
  = Some (whole_second d).
Proof.
  intros Hv Hn.
  pose proof (valid_datetime_ranges d Hv) as (Hy & Hm & Hd & Hh & Hmi & Hs & Hus).
  pose proof (datetime_new_valid _ (whole_second_valid d Hv) Hn) as Hnew.
  cbn [whole_second year month day hour minute second microsecond] in Hnew.
  unfold DateParser.DATE_FORMATS. cbn [DateParser.try_formats].
  unfold Strptime.strptime. tokens.
  rewrite format_datetime_shape.
  rewrite !date_prefix by (reflexivity || lia).
  rewrite !lit_mismatch by reflexivity.
  rewrite fmt2_digits at 1.
  rewrite dir_space by (apply Z.mod_pos_bound; lia).
  rewrite <- fmt2_digits.
  rewrite time_prefix by lia.
  rewrite dir_S2_end by lia.
  cbn [Strptime.fY Strptime.fm Strptime.fd Strptime.fH Strptime.fM Strptime.fS
       Strptime.ff Strptime.default_fields].
  rewrite Hnew. reflexivity.
Qed.

Lemma parse_bare (pf : platform) (s : string) (d : datetime) :
  bare s -> dateutil_agrees pf s d ->
  DateParser.try_formats pf s DateParser.DATE_FORMATS = Some d ->
  DateParser.parse pf s = Ok (Some d).
Proof.
  intros Hb Hdu Hf. unfold DateParser.parse.
  assert (Text.truthy s = true) as ->
    by (destruct Hb as ((k & r & _ & ->) & _); reflexivity).
  cbn [negb]. cbv zeta. rewrite (clean_bare s Hb).
  unfold dateutil_agrees in Hdu. unfold DateParser.parse_after_dateutil.
  destruct (dateutil pf) as [p|].
  - destruct Hdu as [-> | (e & -> & ->)]; [reflexivity|]. now rewrite Hf.
  - cbn [DateParser.dateutil_caught]. now rewrite Hf.
Qed.

(** X23. [DateParser.parse] inverts [isoformat] on naive datetimes:
    the ISO text of every naive datetime, with or without microseconds,
    is read back as that datetime (where [dateutil] is installed,
    provided it reads the text the same way or rejects it). *)
Theorem parse_isoformat (pf : platform) (d : datetime) :
  valid_datetime d ->
  utcoffset d = None ->
  dateutil_agrees pf (isoformat d) d ->
  DateParser.parse pf (isoformat d) = Ok (Some d).
Proof.
  intros Hv Hn. rewrite (isoformat_naive d Hn). intros Hdu.
  apply parse_bare; [apply bare_isoformat|exact Hdu|].
  now apply try_formats_isoformat.
Qed.

Lemma parse_isoformat_witness :
  DateParser.parse Reference.pf (isoformat Sample.now) = Ok (Some Sample.now).
Proof.
  apply (parse_isoformat Reference.pf Sample.now).
  - reflexivity.
  - reflexivity.
  - exact I.
Defined.

(** X24. [DateParser.parse] reads what [format_datetime] writes with
    its default format for a naive datetime: the result is the datetime
    it was given, without its microseconds.  The years are those from
    1000 on, which [strftime] writes with four digits on every
    platform. *)
Theorem parse_format_datetime (pf : platform) (d : datetime) :
  valid_datetime d ->
  utcoffset d = None ->
  1000 <= year d ->
  dateutil_agrees pf (format_datetime d) (whole_second d) ->
  DateParser.parse pf (format_datetime d) = Ok (Some (whole_second d)).
Proof.
  intros Hv Hn _ Hdu. apply parse_bare; [apply bare_format_datetime|exact Hdu|].
  now apply try_formats_format_datetime.
Qed.

Lemma parse_format_datetime_witness :
  DateParser.parse Reference.pf (format_datetime Sample.now)
  = Ok (Some (mk_datetime 2025 6 1 12 0 0 0)).
Proof.
  apply (parse_format_datetime Reference.pf Sample.now).
  - reflexivity.
  - reflexivity.
  - vm_compute. discriminate.
  - exact I.
Defined.

Lemma strip_labels (label : string) (k : Z) (r : string) :
  In label labels -> 0 <= k < 10 ->
  DateParser.sub_prefix_as_of
    (DateParser.sub_prefix_word "Date"
       (DateParser.sub_prefix_word "Modified"
          (DateParser.sub_prefix_word "Updated"
             (DateParser.sub_prefix_last (label +:+ String (Text.digit_char k) r)))))
  = String (Text.digit_char k) r.
Proof.
  intros Hl Hk. unfold labels in Hl. cbn [In] in Hl.
  destruct Hl as [<- | [<- | [<- | [<- | [<- | [<- | []]]]]]];
    each_digit Hk; reflexivity.
Qed.

Lemma collapse_ws_labelled (label s : string) :
  In label labels -> bare s -> DateParser.collapse_ws (label +:+ s) = label +:+ s.
Proof.
  intros Hl ((k & r & Hk & ->) & _ & Hsp).
  unfold DateParser.collapse_ws.
  assert (Str.lstrip (label +:+ String (Text.digit_char k) r)
          = label +:+ String (Text.digit_char k) r) as ->.
  { unfold labels in Hl. cbn [In] in Hl.
    destruct Hl as [<- | [<- | [<- | [<- | [<- | [<- | []]]]]]]; reflexivity. }
  apply collapse_ws_aux_single_spaced; [reflexivity|].
  rewrite <- Hsp. unfold labels in Hl. cbn [In] in Hl.
  destruct Hl as [<- | [<- | [<- | [<- | [<- | [<- | []]]]]]];
    each_digit Hk; reflexivity.
Qed.

Lemma clean_labelled (label s : string) :
  In label labels -> bare s -> DateParser._clean_date_string (label +:+ s) = s.
Proof.
  intros Hl Hb. unfold DateParser._clean_date_string.
  rewrite (collapse_ws_labelled label s Hl Hb).
  pose proof Hb as ((k & r & Hk & Hs) & _).
  rewrite Hs at 1. rewrite (strip_labels label k r Hl Hk). rewrite <- Hs.
  now apply clean_tail.
Qed.

(** X25. A known label in front of the ISO text of a naive datetime is
    removed before the text is read: [parse] gives the datetime the
    text stands for. *)
Theorem parse_labelled_isoformat (pf : platform) (label : string) (d : datetime) :
  In label labels ->
  valid_datetime d ->
  utcoffset d = None ->
  dateutil_agrees pf (isoformat d) d ->
  DateParser.parse pf (label +:+ isoformat d) = Ok (Some d).
Proof.
  intros Hl Hv Hn. rewrite (isoformat_naive d Hn). intros Hdu.
  rewrite <- (parse_bare pf (isoformat_fields d) d (bare_isoformat d) Hdu
                (try_formats_isoformat pf d Hv Hn)).
  unfold DateParser.parse.
  assert (Text.truthy (label +:+ isoformat_fields d) = true) as ->.
  { unfold labels in Hl. cbn [In] in Hl.
    destruct Hl as [<- | [<- | [<- | [<- | [<- | [<- | []]]]]]]; reflexivity. }
  assert (Text.truthy (isoformat_fields d) = true) as -> by reflexivity.
  cbn [negb]. cbv zeta.
  rewrite (clean_labelled label _ Hl (bare_isoformat d)).
  rewrite (clean_bare _ (bare_isoformat d)). reflexivity.
Qed.

Lemma parse_labelled_isoformat_witness :
  DateParser.parse Reference.pf ("Last Updated: " +:+ isoformat Sample.instant)
  = Ok (Some Sample.instant).
Proof.
  apply (parse_labelled_isoformat Reference.pf "Last Updated: " Sample.instant).
  - left. reflexivity.
  - reflexivity.
  - reflexivity.
  - exact I.
Defined.

Lemma bare_isoformat_z (d : datetime) : bare (isoformat_fields d +:+ "Z").
Proof.
  split; [|split].
  - unfold isoformat_fields. rewrite <- !append_assoc. apply starts_with_digit.
  - exists "Z"%char, (Str.rev (isoformat_fields d)).
    split; [now rewrite rev_app|]. split; reflexivity.
  - unfold isoformat_fields. rewrite <- !append_assoc.
    repeat (rewrite single_spaced_app by (apply no_space_fmt_digits || reflexivity)).
    destruct (microsecond d =? 0); [reflexivity|].
    rewrite <- !append_assoc.
    repeat (rewrite single_spaced_app by (apply no_space_fmt_digits || reflexivity)).
    reflexivity.
Qed.

(** X26. The UTC designator [Z] at the end of an ISO text is accepted
    and dropped: without [dateutil] (or when it rejects the text),
    [parse] reads [<iso>Z] as the naive datetime [<iso>] stands for. *)
Theorem parse_isoformat_z (pf : platform) (d : datetime) :
  valid_datetime d ->
  utcoffset d = None ->
  match dateutil pf with
  | None => True
  | Some p =>
      exists e, p (isoformat d +:+ "Z") = Raise e /\
                DateParser.dateutil_caught e = true
  end ->
  DateParser.parse pf (isoformat d +:+ "Z") = Ok (Some d).
Proof.
  intros Hv Hn. rewrite (isoformat_naive d Hn). intros Hdu.
  apply parse_bare; [apply bare_isoformat_z| |now apply try_formats_isoformat_z].
  unfold dateutil_agrees. destruct (dateutil pf); [now right|exact I].
Qed.

Lemma parse_isoformat_z_witness :
  DateParser.parse Reference.pf "2025-01-15T10:30:00Z" = Ok (Some Sample.instant).
Proof.
  apply (parse_isoformat_z Reference.pf Sample.instant).
  - reflexivity.
  - reflexivity.
  - exact I.
Defined.

Lemma bare_iso_date (y m d : Z) :
  bare (Text.fmt_digits 4 y +:+ "-" +:+ Text.fmt_digits 2 m +:+ "-" +:+
        Text.fmt_digits 2 d).
Proof.
  split; [|split].
  - apply starts_with_digit.
  - rewrite !append_assoc. apply ends_with_digit.
  - repeat (rewrite single_spaced_app by (apply no_space_fmt_digits || reflexivity)).
    apply no_space_single_spaced, no_space_fmt_digits.
Qed.

(** ** The command-line handler: which header wins *)

Lemma lower_app (a b : string) : Text.lower (a +:+ b) = Text.lower a +:+ Text.lower b.
Proof.
  induction a as [|c a IH]; [reflexivity|].
  rewrite append_cons. cbn [Text.lower]. now rewrite IH.
Qed.

Lemma strip_prefix_app (p r : string) : Str.strip_prefix p (p +:+ r) = Some r.
Proof.
  induction p as [|c p IH]; [now destruct r|].
  rewrite append_cons. cbn [Str.strip_prefix]. now rewrite Ascii.eqb_refl.
Qed.

Lemma no_colon_of_lower (name : string) :
  no_char ":" (Text.lower name) -> no_char ":" name.
Proof.
  unfold no_char. induction name as [|a name IH]; [reflexivity|].
  cbn [Text.lower Text.all_chars]. intros H. apply andb_prop in H as (Ha & Hn).
  rewrite (IH Hn), andb_true_r.
  destruct (Ascii.eqb a ":") eqn:E; [|reflexivity].
  apply Ascii.eqb_eq in E. subst a. discriminate Ha.
Qed.

Lemma after_first_app (c : ascii) (name value : string) :
  no_char c name -> CLI.after_first c (name +:+ String c value) = Some value.
Proof.
  unfold no_char. induction name as [|a name IH].
  - intros _. rewrite append_nil. cbn. now rewrite Ascii.eqb_refl.
  - cbn [Text.all_chars]. intros H. apply andb_prop in H as (Ha & Hn).
    rewrite append_cons. cbn [CLI.after_first].
    apply negb_true_iff in Ha. rewrite Ha. now apply IH.
Qed.

Lemma find_line_skip (name : string) (before rest : list string) :
  Forall (fun l => Str.strip_prefix name (Text.lower l) = None) before ->
  CLI.find_line name (before ++ rest) = CLI.find_line name rest.
Proof.
  induction 1 as [|l before Hl _ IH]; [reflexivity|].
  cbn [app CLI.find_line]. now rewrite Hl.
Qed.

(** X27. In the output of the command, the first line whose name is
    [Last-Modified] (in any letter case) decides: its value is all that
    follows the first colon, stripped, and [Date] lines, before or
    after it, are not looked at, even when the value cannot be read. *)
Theorem cli_last_modified_wins (pf : platform) (out : string) (st : hstate)
    (before after : list string) (name value : string) :
  CLI.lines out = before ++ (name +:+ ":" +:+ value) :: after ->
  Text.lower name = "last-modified" ->
  Forall (fun l => Str.strip_prefix "last-modified:" (Text.lower l) = None) before ->
  CLI._parse_headers pf out st
  = let raw := Str.strip value in
    match parsedate_to_datetime pf raw with
    | Ok d => (Ok (Some d), set_raw raw st)
    | Raise e =>
        if Main.parsedate_caught e then (DateParser.parse pf raw, set_raw raw st)
        else (Raise e, set_raw raw st)
    end.
Proof.
  intros Hlines Hname Hbefore. unfold CLI._parse_headers.
  rewrite Hlines, (find_line_skip _ _ _ Hbefore). cbn [CLI.find_line].
  rewrite lower_app, Hname.
  change ("last-modified" +:+ Text.lower (":" +:+ value))
    with ("last-modified:" +:+ Text.lower value).
  rewrite strip_prefix_app.
  unfold CLI.header_result.
  change (":" +:+ value) with (String ":" value).
  rewrite after_first_app; [reflexivity|].
  apply no_colon_of_lower. now rewrite Hname.
Qed.

Lemma cli_last_modified_wins_witness :
  CLI._parse_headers SampleHeaders.with_parsedate SampleHeaders.curl_output hstate_init
  = (Ok (Some Sample.instant_utc),
     set_raw "Wed, 15 Jan 2025 10:30:00 GMT" hstate_init).
Proof.
  rewrite (cli_last_modified_wins SampleHeaders.with_parsedate SampleHeaders.curl_output
             hstate_init
             ["HTTP/1.1 200 OK" +:+ String (ascii_of_nat 13) "";
              "Date: Sun, 01 Jun 2025 12:00:00 GMT" +:+ String (ascii_of_nat 13) ""]
             []
             "Last-Modified"
             (" Wed, 15 Jan 2025 10:30:00 GMT")).
  - vm_compute. reflexivity.
  - vm_compute. reflexivity.
  - reflexivity.
  - repeat constructor.
Defined.

(** ** The verifier: checking against HTTP headers *)

(** X28. [verify_with_headers] never raises.  Without a client it does
    not call the service and returns the "unknown" outcome; when the
    call or the reading of the reply raises, it returns the "unknown"
    outcome with the text of the exception as reasoning and as error. *)
Theorem verify_with_headers_never_raises (pf : platform) (v : GroqVerifier)
    (extracted_timestamp : string) (http_headers : list (string * string))
    (source_name : string) :
  exists r,
    HeaderVerifier.verify_with_headers pf v extracted_timestamp http_headers
                                       source_name = Ok r /\
    (client v = None ->
     r = Verifier.unknown "Groq client not available" "GROQ_API_KEY not configured") /\
    (forall create e,
       client v = Some create ->
       rbind (create (HeaderVerifier.prompt extracted_timestamp http_headers
                                            source_name))
             (Verifier._parse_response pf) = Raise e ->
       r = Verifier.unknown (Repr.exn_str e) (Repr.exn_str e)) /\
    (v_error r <> None -> Verifier.is_unknown r).
Proof.
  unfold HeaderVerifier.verify_with_headers.
  destruct (client v) as [create|].
  - destruct (rbind _ _) as [r|e] eqn:E.
    + exists r. split; [reflexivity|]. split; [discriminate|].
      split; [intros c e' [= <-]; rewrite E; discriminate|].
      intros Herr. revert E. unfold rbind.
      destruct (create _) as [reply|e0]; [|discriminate].
      unfold Verifier._parse_response.
      destruct reply as [text|]; [|discriminate].
      destruct (Verifier.brace_span text) as [matched|].
      * destruct (json_loads pf matched) as [[| | | | |d]|e1]; cbn [rbind];
          try discriminate.
        -- destruct (Verifier.py_float _) as [c|e2]; cbn [rbind].
           ++ intros [= <-]. now contradiction Herr.
           ++ destruct e2; try discriminate. intros [= <-]. apply unknown_is_unknown.
        -- destruct e1; try discriminate. intros [= <-]. apply unknown_is_unknown.
      * intros [= <-]. apply unknown_is_unknown.
    + eexists. split; [reflexivity|]. split; [discriminate|].
      split; [|intros _; apply unknown_is_unknown].
      intros c e' [= <-]. rewrite E. now intros [= <-].
  - eexists. split; [reflexivity|]. split; [reflexivity|].
    split; [discriminate|]. intros _. apply unknown_is_unknown.
Qed.

(** ** The date parser: calendar dates *)

(** X29. [DateParser.parse] reads an ISO calendar date [YYYY-MM-DD] as
    midnight of that date, for every date of the calendar. *)
Theorem parse_iso_date (pf : platform) (y m d : Z) :
  valid_datetime (mk_datetime y m d 0 0 0 0) ->
  dateutil_agrees pf
    (Text.fmt_digits 4 y +:+ "-" +:+ Text.fmt_digits 2 m +:+ "-" +:+ Text.fmt_digits 2 d)
    (mk_datetime y m d 0 0 0 0) ->
  DateParser.parse pf
    (Text.fmt_digits 4 y +:+ "-" +:+ Text.fmt_digits 2 m +:+ "-" +:+ Text.fmt_digits 2 d)
  = Ok (Some (mk_datetime y m d 0 0 0 0)).
Proof.
  intros Hv Hdu.
  apply parse_bare; [apply bare_iso_date|exact Hdu|now apply try_formats_iso_date].
Qed.

Lemma parse_iso_date_witness :
  DateParser.parse Reference.pf "2024-02-29"
  = Ok (Some (mk_datetime 2024 2 29 0 0 0 0)).
Proof.
  apply (parse_iso_date Reference.pf 2024 2 29).
  - reflexivity.
  - exact I.
Defined.

(** ** What a fetch catches, and what the orchestrator does with the rest *)

(** X30. In the API and the static-scrape handlers, transport
    failures are caught: with an integer [max_retries], when every
    attempt ends in a request exception or an error status, the fetch
    returns none once the retries are used up (a [max_retries] that is
    no integer makes the API handler raise [TypeError] before the first
    request).  In the API handler, a body that is not JSON gives none,
    and reading an XML body never raises.  An exception that does leave
    a fetch is caught by the orchestrator, which returns an error result
    with [changed = false] and leaves the state as it was. *)
Theorem fetch_failures_are_isolated (pf : platform) (net : network) (h : handler)
    (w : world) (s : Sentinel) (id : string) :
  (transport_fails net ->
   forall n, py_range (max_retries h) = Ok n ->
     fst (API.fetch_current_timestamp pf net h) = Ok None /\
     fst (BS4.fetch_current_timestamp pf net h) = Ok None) /\
  (forall e, opt_truthy (h_config h !! "data_url") = true ->
     py_range (max_retries h) = Raise e ->
     API.fetch_current_timestamp pf net h = (Raise TypeError, hstate_init)) /\
  (forall content st,
     json_loads pf content = Raise JSONDecodeError ->
     fst (API._parse_json_response pf (h_config h) content st) = Ok None) /\
  (forall content st,
     exists r, fst (API._parse_xml_response pf (h_config h) content st) = Ok r) /\
  (forall hh e,
     get_handler (registry s) id = Ok (Some hh) ->
     fo_value (w_fetch w hh) = Raise e ->
     exists r,
       check_for_updates w s id = (Ok r, state_manager s) /\
       changed r = false /\ current_timestamp r = None /\
       error r = Some (Repr.exn_str e)).
Proof.
  split; [|split; [|split; [|split]]].
  - intros Hnet n Hn. split.
    + now apply (api_fetch_transport_fails pf net h n).
    + now apply (bs4_fetch_transport_fails pf net h n).
  - intros e. apply api_fetch_max_retries.
  - intros content st H. now rewrite api_json_decode_error.
  - intros content st. apply api_xml_never_raises.
  - intros hh e. apply check_for_updates_fetch_raises.
Qed.

Lemma fetch_failures_are_isolated_witness :
  transport_fails Sample.offline /\
  fst (API.fetch_current_timestamp Reference.pf Sample.offline Sample.api_handler)
    = Ok None /\
  exists r,
    check_for_updates
      (api_world Reference.pf (Sample.serve Sample.overflow_body) Sample.now true)
      Sample.sentinel "src" = (Ok r, state_manager Sample.sentinel) /\
    changed r = false /\ current_timestamp r = None /\
    error r = Some "OverflowError".
Proof.
  assert (transport_fails Sample.offline) as Hoff by (intros i; exact I).
  pose proof (fetch_failures_are_isolated Reference.pf Sample.offline
                Sample.api_handler
                (api_world Reference.pf (Sample.serve Sample.overflow_body)
                           Sample.now true)
                Sample.sentinel "src") as (Ht & _ & _ & _ & Hiso).
  split; [exact Hoff|]. split; [apply (Ht Hoff 3%nat eq_refl)|].
  apply (Hiso Sample.api_handler OverflowError); vm_compute; reflexivity.
Defined.
